(** * AssemblyScript compiler core: a shallow embedding

    The development follows [src/compiler.ts] (class [Compiler]), the
    lowerer of prefix unary expressions ([compilePrefixUnary]),
    [src/expressions/identifier.ts], [src/statements/while.ts] and the C
    glue of the bundled allocator.  JavaScript numbers that the compiler
    only uses as integers are [Z]; the tables of the locals and of the
    globals are objects with their own entries and their prototype
    ([js.Dictionary]), since the lowering reads the locals by truthiness;
    the other tables are [gmap]s; the mutable compiler instance is threaded
    explicitly through a small state-and-exception monad. *)

From Stdlib Require Import ZArith Lia Ascii String.
From stdpp Require Import gmap strings list pretty.

Set Warnings "-register-all".

Local Open Scope string_scope.
Local Open Scope Z_scope.

(** ** The reflection model ([src/reflection.ts]) *)

Module TypeKind.

Inductive t : Set :=
| byte | sbyte | short | ushort | int | uint | long | ulong
| bool | float | double | uintptr | void.

Definition eqb (a b : t) : Datatypes.bool :=
  match a, b with
  | byte, byte | sbyte, sbyte | short, short | ushort, ushort
  | int, int | uint, uint | long, long | ulong, ulong
  | bool, bool | float, float | double, double
  | uintptr, uintptr | void, void => true
  | _, _ => false
  end.

End TypeKind.

Module reflection.

(** Modelled from the spec: the class [Type] of [src/reflection.ts] is not
    part of the sources at hand.  A type carries its [kind], its byte
    [size] and, for class instance types, the class it references. *)
Record type : Set := mkType {
  kind : TypeKind.t;
  size : Z;
  underlyingClass : option string
}.

(** Modelled from the spec: the primitive type singletons, with the bit
    widths of the data model (sbyte 8, short 16, int 32, long 64, bool 1,
    byte 8, ushort 16, uint 32, ulong 64, float 32, double 64) and a
    pointer type per pointer size.  Sizes are in bytes; a bool, of one
    bit, takes one byte. *)
Definition byteType : type := mkType TypeKind.byte 1 None.
Definition sbyteType : type := mkType TypeKind.sbyte 1 None.
Definition shortType : type := mkType TypeKind.short 2 None.
Definition ushortType : type := mkType TypeKind.ushort 2 None.
Definition intType : type := mkType TypeKind.int 4 None.
Definition uintType : type := mkType TypeKind.uint 4 None.
Definition longType : type := mkType TypeKind.long 8 None.
Definition ulongType : type := mkType TypeKind.ulong 8 None.
Definition boolType : type := mkType TypeKind.bool 1 None.
Definition floatType : type := mkType TypeKind.float 4 None.
Definition doubleType : type := mkType TypeKind.double 8 None.
Definition uintptrType32 : type := mkType TypeKind.uintptr 4 None.
Definition uintptrType64 : type := mkType TypeKind.uintptr 8 None.
Definition voidType : type := mkType TypeKind.void 0 None.

(** Modelled from the spec: [isSigned] holds of sbyte, short, int, long. *)
Definition isSigned (t : type) : bool :=
  match kind t with
  | TypeKind.sbyte | TypeKind.short | TypeKind.int | TypeKind.long => true
  | _ => false
  end.

(** Modelled from the spec: [isInt] holds of the 32-bit integers proper
    (int, uint, and the pointer type of a 32-bit target). *)
Definition isInt (t : type) : bool :=
  match kind t with
  | TypeKind.int | TypeKind.uint => true
  | TypeKind.uintptr => size t =? 4
  | _ => false
  end.

(** Modelled from the spec: [isLong] holds of the 64-bit integers (long,
    ulong, and the pointer type of a 64-bit target). *)
Definition isLong (t : type) : bool :=
  match kind t with
  | TypeKind.long | TypeKind.ulong => true
  | TypeKind.uintptr => size t =? 8
  | _ => false
  end.

(** Modelled from the spec: the bit width of a type; bool has one bit. *)
Definition bitwidth (t : type) : Z :=
  match kind t with
  | TypeKind.bool => 1
  | _ => 8 * size t
  end.

(** Modelled from the spec: [shift32] = 32 - bitwidth. *)
Definition shift32 (t : type) : Z := 32 - bitwidth t.

(** Modelled from the spec: [mask32] = the mask of the low bitwidth bits. *)
Definition mask32 (t : type) : Z := Z.ones (bitwidth t).

(** Modelled from the spec: the text of a type in a diagnostic, here the
    surface keyword of its kind or the name of its class. *)
Definition toString (t : type) : string :=
  match underlyingClass t with
  | Some c => c
  | None =>
    match kind t with
    | TypeKind.byte => "byte" | TypeKind.sbyte => "sbyte"
    | TypeKind.short => "short" | TypeKind.ushort => "ushort"
    | TypeKind.int => "int" | TypeKind.uint => "uint"
    | TypeKind.long => "long" | TypeKind.ulong => "ulong"
    | TypeKind.bool => "bool" | TypeKind.float => "float"
    | TypeKind.double => "double" | TypeKind.uintptr => "uintptr"
    | TypeKind.void => "void"
    end
  end.

(** [a === b] on type objects: the primitives are singletons and a class
    has one instance type, so identity is equality of the fields. *)
Definition type_eqb (a b : type) : bool :=
  TypeKind.eqb (kind a) (kind b) && (size a =? size b) &&
  match underlyingClass a, underlyingClass b with
  | None, None => true
  | Some x, Some y => String.eqb x y
  | _, _ => false
  end.

(** Membership of a type object among the [case] labels of a [switch]. *)
Definition oneOf (t : type) (cases : list type) : bool :=
  existsb (type_eqb t) cases.

(** Modelled from the spec: the variable flags [global] and [constant] are
    bits that the compiler combines with [|=]. *)
Module VariableFlags.
Definition none : Z := 0.
Definition global : Z := 1.
Definition constant : Z := 2.
End VariableFlags.

(** Modelled from the spec: a variable has a name, a type, flags and an
    allocation index (the local slot, or 0 for a global). *)
Record variable : Set := mkVariable {
  name : string;
  vtype : type;
  flags : Z;
  index : Z
}.

End reflection.

(** ** JavaScript objects used as dictionaries

    The field [currentLocals] is declared with the type
    [{ [key: string]: reflection.Variable }] and without an initial value:
    it is [undefined] until [compileFunctionOrMethod] assigns the object
    literal [{}] to it.  Reading [object[key]] answers the own entry of that
    name, or else what the object inherits from its prototype; the
    assignment [object[key] = value] makes an own entry, except under the
    name [__proto__], where it replaces the prototype. *)

Module js.

(** The prototype of a dictionary: [Object.prototype], as for [{}], or the
    variable that was assigned to it under the name [__proto__]. *)
Inductive Prototype : Set :=
| ObjectPrototype
| VariablePrototype (v : reflection.variable).

(** What the field holds: [undefined], or an object with its own entries
    and its prototype. *)
Inductive Dictionary : Type :=
| undefined
| object (entries : gmap string reflection.variable) (prototype : Prototype).

(** What reading a property answers: nothing ([undefined]), a variable, or
    a value of another kind (a function, an object, a string, a number),
    of which the lowering observes only whether it is truthy. *)
Inductive Value : Set :=
| absent
| variable (v : reflection.variable)
| other (isTruthy : bool).

(** [if (value)], [while (value)] *)
Definition truthy (value : Value) : bool :=
  match value with
  | absent => false
  | variable _ => true
  | other isTruthy => isTruthy
  end.

(** The properties of [Object.prototype]: functions, and the accessor
    [__proto__]. *)
Definition objectPrototypeNames : list string :=
  ["constructor"; "hasOwnProperty"; "isPrototypeOf"; "propertyIsEnumerable";
   "toLocaleString"; "toString"; "valueOf"; "__defineGetter__";
   "__defineSetter__"; "__lookupGetter__"; "__lookupSetter__"; "__proto__"].

(** What an object answers for a name that it inherits from
    [Object.prototype]: a function, or for [__proto__] its prototype, truthy
    both. *)
Definition ofObjectPrototype (key : string) : Value :=
  if existsb (String.eqb key) objectPrototypeNames then other true else absent.

(** What a dictionary inherits.  Modelled from the spec: a variable object
    has the properties [name], [type], [flags] and [index], a string, a type
    object and two numbers, besides an initial constant value that a local
    does not have, and inherits the rest from [Object.prototype] (the class
    [Variable] of [src/reflection.ts] is not part of the sources at hand).
    Under [__proto__] an object answers its prototype. *)
Definition inherited (prototype : Prototype) (key : string) : Value :=
  match prototype with
  | ObjectPrototype => ofObjectPrototype key
  | VariablePrototype v =>
    if String.eqb key "__proto__" then variable v
    else if String.eqb key "name" then other (negb (String.eqb (reflection.name v) ""))
    else if String.eqb key "type" then other true
    else if String.eqb key "flags" then other (negb (reflection.flags v =? 0))
    else if String.eqb key "index" then other (negb (reflection.index v =? 0))
    else ofObjectPrototype key
  end.

(** [object[key]] *)
Definition read (entries : gmap string reflection.variable) (prototype : Prototype)
  (key : string) : Value :=
  match entries !! key with
  | Some v => variable v
  | None => inherited prototype key
  end.

(** [dictionary[key] = v], on a dictionary that is not [undefined]. *)
Definition assign (key : string) (v : reflection.variable) (dictionary : Dictionary)
  : Dictionary :=
  match dictionary with
  | undefined => undefined
  | object entries prototype =>
    if String.eqb key "__proto__" then object entries (VariablePrototype v)
    else object (<[key := v]> entries) prototype
  end.

(** [dictionary !! key] is the own entry of a dictionary under [key],
    [<[key := v]> dictionary] the dictionary after [dictionary[key] = v],
    and [∅] the object literal [{}]. *)
#[global] Instance dictionary_lookup : Lookup string reflection.variable Dictionary :=
  fun key dictionary =>
    match dictionary with
    | undefined => None
    | object entries _ => entries !! key
    end.

#[global] Instance dictionary_insert : Insert string reflection.variable Dictionary :=
  assign.

#[global] Instance dictionary_empty : Empty Dictionary := object ∅ ObjectPrototype.

End js.

(** ** The host syntax tree ([src/typescript.ts], the part the lowering reads)

    Nodes carry an [id] standing for the identity of the node object: the
    compiler annotates nodes with their reflected type and attaches
    diagnostics to them. *)

Module typescript.

Inductive PrefixUnaryOperator : Set :=
| ExclamationToken | PlusToken | MinusToken | TildeToken
| PlusPlusToken | MinusMinusToken.

(** Expression nodes.  [ExternalExpression] stands for the kinds that
    [compileExpression] hands to a lowerer outside the files at hand
    ([BinaryExpression], [CallExpression], ...); [UnsupportedExpression]
    for the kinds it rejects. *)
Inductive Expression : Set :=
| Identifier (id : nat) (text : string)
| PrefixUnaryExpression (id : nat) (operator : PrefixUnaryOperator)
    (operand : Expression)
| NumericLiteral (id : nat) (text : string)
| TrueKeyword (id : nat)
| FalseKeyword (id : nat)
| NullKeyword (id : nat)
| ExternalExpression (id : nat) (kindName : string)
| UnsupportedExpression (id : nat) (kindName : string).

Definition nodeId (n : Expression) : nat :=
  match n with
  | Identifier id _ | PrefixUnaryExpression id _ _ | NumericLiteral id _
  | TrueKeyword id | FalseKeyword id | NullKeyword id
  | ExternalExpression id _ | UnsupportedExpression id _ => id
  end.

(** [typescript.SyntaxKind[operator]] *)
Definition operatorName (o : PrefixUnaryOperator) : string :=
  match o with
  | ExclamationToken => "ExclamationToken"
  | PlusToken => "PlusToken"
  | MinusToken => "MinusToken"
  | TildeToken => "TildeToken"
  | PlusPlusToken => "PlusPlusToken"
  | MinusMinusToken => "MinusMinusToken"
  end.

(** Statement nodes inside a function body.  [ExternalStatement] stands for
    the kinds that [compileStatement] hands to a lowerer outside the files
    at hand; [UnsupportedStatement] for the kinds it rejects. *)
Inductive Statement : Set :=
| TypeAliasDeclarationStatement (id : nat)
| WhileStatement (id : nat) (expression : Expression)
    (statement : option Statement)
| ExternalStatement (id : nat) (kindName : string)
| UnsupportedStatement (id : nat) (kindName : string).

(** A type node, with its source text.  A [TypeReference] carries what the
    checker and the reflection tables answer for it: the name of the symbol
    once aliases are followed ([maybeResolveAlias]), and the instance type
    of the class that [resolveReference] finds under that name, if it is
    one. *)
Inductive TypeNode : Set :=
| VoidKeyword (id : nat)
| TypeReference (id : nat) (text : string) (symbolName : option string)
    (classType : option reflection.type)
| OtherTypeNode (id : nat) (text : string).

Definition typeNodeId (n : TypeNode) : nat :=
  match n with
  | VoidKeyword id | TypeReference id _ _ _ | OtherTypeNode id _ => id
  end.

Definition getText (n : TypeNode) : string :=
  match n with
  | VoidKeyword _ => "void"
  | TypeReference _ text _ _ | OtherTypeNode _ text => text
  end.

Record VariableDeclaration : Set := mkVariableDeclaration {
  declId : nat;
  symbol : option string;
  declType : option TypeNode;
  initializer : option Expression
}.

(** Top-level statements of a source file, by [kind]. *)
Inductive TopLevelStatement : Set :=
| EndOfFileToken
| InterfaceDeclaration
| TypeAliasDeclaration
| ImportDeclaration
| VariableStatement (isConst : bool) (declarations : list VariableDeclaration)
| FunctionDeclaration (id : nat) (fname : string)
| ClassDeclaration (id : nat) (cname : string)
| EnumDeclaration (id : nat) (ename : string)
| OtherTopLevel (id : nat) (kindName : string).

Record SourceFile : Set := mkSourceFile {
  fileName : string;
  isDeclarationFile : bool;
  statements : list TopLevelStatement
}.

Inductive DiagnosticCategory : Set := Warning | Error | Message.

Record Diagnostic : Set := mkDiagnostic {
  category : DiagnosticCategory;
  node : nat;
  messageText : string;
  arg1 : option string
}.

End typescript.

(** ** The WebAssembly IR builder ([src/binaryen.ts], an external collaborator) *)

Module binaryen.

(** Value types: [binaryen.none], [binaryen.i32], ... *)
Inductive Type_ : Set := none | i32 | i64 | f32 | f64.

Inductive UnaryOp : Set :=
| Eqz (t : Type_) | Neg (t : Type_)
| TruncU (dst src : Type_) | TruncS (dst src : Type_)
| ConvertU (dst src : Type_) | ConvertS (dst src : Type_)
| Promote | Demote | Wrap | ExtendS | ExtendU.

Inductive BinaryOp : Set :=
| Add (t : Type_) | Sub (t : Type_) | Xor (t : Type_) | And (t : Type_)
| Shl (t : Type_) | ShrS (t : Type_) | Eq (t : Type_).

(** Expression and statement handles.  TypeScript erases types, so a
    factory accepts whatever object it is given: [Foreign n] is the syntax
    tree node [n] sitting where an expression handle belongs. *)
Inductive Expression : Set :=
| I32Const (v : Z)
| I64Const (lo hi : Z)
| F32Const (v : Z)
| F64Const (v : Z)
| Unary (o : UnaryOp) (e : Expression)
| Binary (o : BinaryOp) (l r : Expression)
| GetLocal (index : Z) (t : Type_)
| SetLocal (index : Z) (e : Expression)
| TeeLocal (index : Z) (e : Expression)
| GetGlobal (name : string) (t : Type_)
| SetGlobal (name : string) (e : Expression)
| Call (target : string) (operands : list Expression) (t : Type_)
| Block (label : string) (children : list Expression)
| Loop (label : string) (body : Expression)
| If (condition ifTrue : Expression)
| Break (label : string)
| Return (e : Expression)
| Nop
| Unreachable
| Foreign (n : typescript.Expression).

Record Signature : Set := mkSignature {
  sigName : string;
  sigResult : Type_;
  sigParams : list Type_
}.

Record Function : Set := mkFunction {
  funcName : string;
  funcSignature : Signature;
  funcLocals : list Type_;
  funcBody : Expression
}.

Record Global : Set := mkGlobal {
  globalName : string;
  globalType : Type_;
  globalMutable : bool;
  globalInit : Expression
}.

Record Memory : Set := mkMemory {
  memInitial : Z;
  memMaximum : Z;
  memExportName : string
}.

(** What a [binaryen.Module] has been given so far. *)
Record Module_ : Set := mkModule {
  functionTypes : list Signature;
  functions : list Function;
  globals : list Global;
  exports : list (string * string);
  memory : option Memory;
  start : option Function
}.

Definition emptyModule : Module_ := mkModule [] [] [] [] None None.

Definition Type_eqb (a b : Type_) : bool :=
  match a, b with
  | none, none | i32, i32 | i64, i64 | f32, f32 | f64, f64 => true
  | _, _ => false
  end.

Fixpoint Types_eqb (a b : list Type_) : bool :=
  match a, b with
  | [], [] => true
  | x :: a', y :: b' => Type_eqb x y && Types_eqb a' b'
  | _, _ => false
  end.

(** [module.getFunctionType(result, params)]: the first registered type of
    that shape, if any. *)
Definition getFunctionType (m : Module_) (result : Type_) (params : list Type_)
  : option Signature :=
  List.find (fun s => Type_eqb (sigResult s) result && Types_eqb (sigParams s) params)
            (functionTypes m).

Definition addFunctionType (m : Module_) (name : string) (result : Type_)
  (params : list Type_) : Signature * Module_ :=
  let s := mkSignature name result params in
  (s, mkModule (functionTypes m ++ [s]) (functions m) (globals m) (exports m)
               (memory m) (start m)).

Definition addFunction (m : Module_) (name : string) (sig : Signature)
  (locals : list Type_) (body : Expression) : Function * Module_ :=
  let f := mkFunction name sig locals body in
  (f, mkModule (functionTypes m) (functions m ++ [f]) (globals m) (exports m)
               (memory m) (start m)).

Definition addGlobal (m : Module_) (name : string) (t : Type_) (mutable : bool)
  (init : Expression) : Module_ :=
  mkModule (functionTypes m) (functions m)
           (globals m ++ [mkGlobal name t mutable init]) (exports m)
           (memory m) (start m).

Definition addExport (m : Module_) (internal external : string) : Module_ :=
  mkModule (functionTypes m) (functions m) (globals m)
           (exports m ++ [(internal, external)]) (memory m) (start m).

Definition removeExport (m : Module_) (external : string) : Module_ :=
  mkModule (functionTypes m) (functions m) (globals m)
           (List.filter (fun e => negb (String.eqb (snd e) external)) (exports m))
           (memory m) (start m).

Definition setMemory (m : Module_) (initial maximum : Z) (exportName : string)
  : Module_ :=
  mkModule (functionTypes m) (functions m) (globals m) (exports m)
           (Some (mkMemory initial maximum exportName)) (start m).

Definition setStart (m : Module_) (f : Function) : Module_ :=
  mkModule (functionTypes m) (functions m) (globals m) (exports m)
           (memory m) (Some f).

(** Modelled from the spec: [binaryen.typeOf(type, uintptrSize)] of
    [src/binaryen.ts], the IR value type that carries a reflected type
    (f64 > f32 > i64 > i32; void has none). *)
Definition typeOf (t : reflection.type) (uintptrSize : Z) : Type_ :=
  match reflection.kind t with
  | TypeKind.void => none
  | TypeKind.float => f32
  | TypeKind.double => f64
  | TypeKind.long | TypeKind.ulong => i64
  | TypeKind.uintptr => if uintptrSize =? 4 then i32 else i64
  | _ => i32
  end.

(** Modelled from the spec: [binaryen.valueOf(type, module, value)] of
    [src/binaryen.ts], the typed constant of a small integer value. *)
Definition valueOf (t : reflection.type) (value : Z) : Expression :=
  match reflection.kind t with
  | TypeKind.float => F32Const value
  | TypeKind.double => F64Const value
  | TypeKind.long | TypeKind.ulong => I64Const value 0
  | TypeKind.uintptr => if reflection.size t =? 4 then I32Const value else I64Const value 0
  | _ => I32Const value
  end.

(** Modelled from the spec: [binaryen.categoryOf(type, module, uintptrSize)]
    of [src/binaryen.ts], the operator family of a reflected type. *)
Definition categoryOf (t : reflection.type) (uintptrSize : Z) : Type_ :=
  match typeOf t uintptrSize with
  | none => i32
  | c => c
  end.

End binaryen.

(** The instruction factories [op.i32.*], [op.i64.*], [op.f32.*], [op.f64.*]. *)
Module op.
Module i32.
Abbreviation const := binaryen.I32Const.
Abbreviation trunc_u_f32 := (binaryen.Unary (binaryen.TruncU binaryen.i32 binaryen.f32)).
Abbreviation trunc_s_f32 := (binaryen.Unary (binaryen.TruncS binaryen.i32 binaryen.f32)).
Abbreviation trunc_u_f64 := (binaryen.Unary (binaryen.TruncU binaryen.i32 binaryen.f64)).
Abbreviation trunc_s_f64 := (binaryen.Unary (binaryen.TruncS binaryen.i32 binaryen.f64)).
Abbreviation wrap := (binaryen.Unary binaryen.Wrap).
Abbreviation eqz := (binaryen.Unary (binaryen.Eqz binaryen.i32)).
Abbreviation sub := (binaryen.Binary (binaryen.Sub binaryen.i32)).
Abbreviation xor := (binaryen.Binary (binaryen.Xor binaryen.i32)).
Abbreviation shl := (binaryen.Binary (binaryen.Shl binaryen.i32)).
Abbreviation shr_s := (binaryen.Binary (binaryen.ShrS binaryen.i32)).
Abbreviation and := (binaryen.Binary (binaryen.And binaryen.i32)).
End i32.
Module i64.
Abbreviation const := binaryen.I64Const.
Abbreviation trunc_u_f32 := (binaryen.Unary (binaryen.TruncU binaryen.i64 binaryen.f32)).
Abbreviation trunc_s_f32 := (binaryen.Unary (binaryen.TruncS binaryen.i64 binaryen.f32)).
Abbreviation trunc_u_f64 := (binaryen.Unary (binaryen.TruncU binaryen.i64 binaryen.f64)).
Abbreviation trunc_s_f64 := (binaryen.Unary (binaryen.TruncS binaryen.i64 binaryen.f64)).
Abbreviation extend_s := (binaryen.Unary binaryen.ExtendS).
Abbreviation extend_u := (binaryen.Unary binaryen.ExtendU).
Abbreviation eqz := (binaryen.Unary (binaryen.Eqz binaryen.i64)).
Abbreviation sub := (binaryen.Binary (binaryen.Sub binaryen.i64)).
Abbreviation xor := (binaryen.Binary (binaryen.Xor binaryen.i64)).
End i64.
Module f32.
Abbreviation const := binaryen.F32Const.
Abbreviation demote := (binaryen.Unary binaryen.Demote).
Abbreviation convert_u_i32 := (binaryen.Unary (binaryen.ConvertU binaryen.f32 binaryen.i32)).
Abbreviation convert_s_i32 := (binaryen.Unary (binaryen.ConvertS binaryen.f32 binaryen.i32)).
Abbreviation convert_u_i64 := (binaryen.Unary (binaryen.ConvertU binaryen.f32 binaryen.i64)).
Abbreviation convert_s_i64 := (binaryen.Unary (binaryen.ConvertS binaryen.f32 binaryen.i64)).
Abbreviation neg := (binaryen.Unary (binaryen.Neg binaryen.f32)).
Abbreviation eq := (binaryen.Binary (binaryen.Eq binaryen.f32)).
End f32.
Module f64.
Abbreviation const := binaryen.F64Const.
Abbreviation promote := (binaryen.Unary binaryen.Promote).
Abbreviation convert_u_i32 := (binaryen.Unary (binaryen.ConvertU binaryen.f64 binaryen.i32)).
Abbreviation convert_s_i32 := (binaryen.Unary (binaryen.ConvertS binaryen.f64 binaryen.i32)).
Abbreviation convert_u_i64 := (binaryen.Unary (binaryen.ConvertU binaryen.f64 binaryen.i64)).
Abbreviation convert_s_i64 := (binaryen.Unary (binaryen.ConvertS binaryen.f64 binaryen.i64)).
Abbreviation neg := (binaryen.Unary (binaryen.Neg binaryen.f64)).
Abbreviation eq := (binaryen.Binary (binaryen.Eq binaryen.f64)).
End f64.
End op.

(** ** The compiler instance ([src/compiler.ts]) *)

Record CompilerOptions : Set := mkOptions {
  opt_uintptrSize : option Z;
  opt_noLib : bool;
  opt_silent : bool
}.

(** [options || {}] *)
Definition defaultOptions : CompilerOptions := mkOptions None false false.

(** The fields of [class Compiler] that the modelled methods read or write.
    [reflectedTypes] is the table behind [typescript.setReflectedType] and
    [typescript.getReflectedType]; [localIndex] and [additionalLocals] are
    the variables of [compileFunctionOrMethod] that its closure
    [onVariable] captures.  [currentLocals], which the lowering reads by
    truthiness, and [globals] are [js.Dictionary]s; [signatures], which the
    code reads and writes under the constant keys ["ii"], ["II"], ["iv"],
    ["Iv"] and ["v"] only, holds its own entries. *)
Record Compiler : Type := mkCompiler {
  options : CompilerOptions;
  program : list typescript.SourceFile;
  entryFile : option typescript.SourceFile;
  libraryFile : option typescript.SourceFile;
  diagnostics : list typescript.Diagnostic;
  module : binaryen.Module_;
  signatures : gmap string binaryen.Signature;
  globalInitializers : list binaryen.Expression;
  userStartFunction : option binaryen.Function;
  currentLocals : js.Dictionary;
  currentBreakContextNumber : Z;
  currentBreakContextDepth : Z;
  uintptrType : reflection.type;
  globals : js.Dictionary;
  reflectedTypes : gmap nat reflection.type;
  localIndex : Z;
  additionalLocals : list binaryen.Type_
}.

Definition set_diagnostics (v : list typescript.Diagnostic) (c : Compiler) : Compiler :=
  mkCompiler (options c) (program c) (entryFile c) (libraryFile c) v (module c)
    (signatures c) (globalInitializers c) (userStartFunction c) (currentLocals c)
    (currentBreakContextNumber c) (currentBreakContextDepth c) (uintptrType c)
    (globals c) (reflectedTypes c) (localIndex c) (additionalLocals c).

Definition set_module (v : binaryen.Module_) (c : Compiler) : Compiler :=
  mkCompiler (options c) (program c) (entryFile c) (libraryFile c) (diagnostics c) v
    (signatures c) (globalInitializers c) (userStartFunction c) (currentLocals c)
    (currentBreakContextNumber c) (currentBreakContextDepth c) (uintptrType c)
    (globals c) (reflectedTypes c) (localIndex c) (additionalLocals c).

Definition set_signatures (v : gmap string binaryen.Signature) (c : Compiler) : Compiler :=
  mkCompiler (options c) (program c) (entryFile c) (libraryFile c) (diagnostics c)
    (module c) v (globalInitializers c) (userStartFunction c) (currentLocals c)
    (currentBreakContextNumber c) (currentBreakContextDepth c) (uintptrType c)
    (globals c) (reflectedTypes c) (localIndex c) (additionalLocals c).

Definition set_globalInitializers (v : list binaryen.Expression) (c : Compiler) : Compiler :=
  mkCompiler (options c) (program c) (entryFile c) (libraryFile c) (diagnostics c)
    (module c) (signatures c) v (userStartFunction c) (currentLocals c)
    (currentBreakContextNumber c) (currentBreakContextDepth c) (uintptrType c)
    (globals c) (reflectedTypes c) (localIndex c) (additionalLocals c).

Definition set_currentLocals (v : js.Dictionary) (c : Compiler) : Compiler :=
  mkCompiler (options c) (program c) (entryFile c) (libraryFile c) (diagnostics c)
    (module c) (signatures c) (globalInitializers c) (userStartFunction c) v
    (currentBreakContextNumber c) (currentBreakContextDepth c) (uintptrType c)
    (globals c) (reflectedTypes c) (localIndex c) (additionalLocals c).

Definition set_currentBreakContextNumber (v : Z) (c : Compiler) : Compiler :=
  mkCompiler (options c) (program c) (entryFile c) (libraryFile c) (diagnostics c)
    (module c) (signatures c) (globalInitializers c) (userStartFunction c)
    (currentLocals c) v (currentBreakContextDepth c) (uintptrType c)
    (globals c) (reflectedTypes c) (localIndex c) (additionalLocals c).

Definition set_currentBreakContextDepth (v : Z) (c : Compiler) : Compiler :=
  mkCompiler (options c) (program c) (entryFile c) (libraryFile c) (diagnostics c)
    (module c) (signatures c) (globalInitializers c) (userStartFunction c)
    (currentLocals c) (currentBreakContextNumber c) v (uintptrType c)
    (globals c) (reflectedTypes c) (localIndex c) (additionalLocals c).

Definition set_globals (v : js.Dictionary) (c : Compiler) : Compiler :=
  mkCompiler (options c) (program c) (entryFile c) (libraryFile c) (diagnostics c)
    (module c) (signatures c) (globalInitializers c) (userStartFunction c)
    (currentLocals c) (currentBreakContextNumber c) (currentBreakContextDepth c)
    (uintptrType c) v (reflectedTypes c) (localIndex c) (additionalLocals c).

Definition set_reflectedTypes (v : gmap nat reflection.type) (c : Compiler) : Compiler :=
  mkCompiler (options c) (program c) (entryFile c) (libraryFile c) (diagnostics c)
    (module c) (signatures c) (globalInitializers c) (userStartFunction c)
    (currentLocals c) (currentBreakContextNumber c) (currentBreakContextDepth c)
    (uintptrType c) (globals c) v (localIndex c) (additionalLocals c).

Definition set_localIndex (v : Z) (c : Compiler) : Compiler :=
  mkCompiler (options c) (program c) (entryFile c) (libraryFile c) (diagnostics c)
    (module c) (signatures c) (globalInitializers c) (userStartFunction c)
    (currentLocals c) (currentBreakContextNumber c) (currentBreakContextDepth c)
    (uintptrType c) (globals c) (reflectedTypes c) v (additionalLocals c).

Definition set_additionalLocals (v : list binaryen.Type_) (c : Compiler) : Compiler :=
  mkCompiler (options c) (program c) (entryFile c) (libraryFile c) (diagnostics c)
    (module c) (signatures c) (globalInitializers c) (userStartFunction c)
    (currentLocals c) (currentBreakContextNumber c) (currentBreakContextDepth c)
    (uintptrType c) (globals c) (reflectedTypes c) (localIndex c) v.

(** *** Methods as state transformers that may throw *)

Inductive Result (A : Type) : Type :=
| Ok (a : A) (c : Compiler)
| Throw (message : string).

Arguments Ok {A} a c.
Arguments Throw {A} message.

Definition M (A : Type) : Type := Compiler -> Result A.

Definition ret {A : Type} (a : A) : M A := fun c => Ok a c.

Definition bind {A B : Type} (m : M A) (k : A -> M B) : M B :=
  fun c => match m c with
           | Ok a c' => k a c'
           | Throw msg => Throw msg
           end.

Definition throw {A : Type} (message : string) : M A := fun _ => Throw message.

Definition gets {A : Type} (f : Compiler -> A) : M A := fun c => Ok (f c) c.

Definition modify (f : Compiler -> Compiler) : M unit := fun c => Ok tt (f c).

Definition when (b : bool) (m : M unit) : M unit := if b then m else ret tt.

Declare Scope compiler_scope.
Delimit Scope compiler_scope with compiler.
Notation "x <- m ;; k" := (bind m (fun x => k))
  (at level 100, m at next level, right associativity) : compiler_scope.
Notation "m ;;; k" := (bind m (fun _ => k))
  (at level 100, right associativity) : compiler_scope.
Local Open Scope compiler_scope.

(** [get uintptrSize(): number { return this.options.uintptrSize || 4; }] *)
Definition uintptrSize (c : Compiler) : Z :=
  match opt_uintptrSize (options c) with
  | Some v => if v =? 0 then 4 else v
  | None => 4
  end.

(** [warn] and [error] add a diagnostic to the collection (printing it to
    stderr unless silent, which leaves the instance as it is). *)
Definition warn (node : nat) (message : string) (arg1 : option string) : M unit :=
  modify (fun c => set_diagnostics
    (diagnostics c ++ [typescript.mkDiagnostic typescript.Warning node message arg1]) c).

Definition error (node : nat) (message : string) (arg1 : option string) : M unit :=
  modify (fun c => set_diagnostics
    (diagnostics c ++ [typescript.mkDiagnostic typescript.Error node message arg1]) c).

Definition setReflectedType (node : nat) (t : reflection.type) : M unit :=
  modify (fun c => set_reflectedTypes (<[node := t]> (reflectedTypes c)) c).

(** [typescript.getReflectedType(node)]: the annotation of the node, or
    [undefined] when it has none. *)
Definition peekReflectedType (node : nat) : M (option reflection.type) :=
  gets (fun c => reflectedTypes c !! node).

(** The first property access on [undefined] is a [TypeError]. *)
Definition defined (t : option reflection.type) : M reflection.type :=
  match t with
  | Some t => ret t
  | None => throw "TypeError: reflected type is undefined"
  end.

(** The annotation of a node, where the caller reads a property of it next. *)
Definition getReflectedType (node : nat) : M reflection.type :=
  fun c => match reflectedTypes c !! node with
           | Some t => Ok t c
           | None => Throw "TypeError: reflected type is undefined"
           end.

(** [typescript.setReflectedType(node, t)] where [t] may be [undefined]. *)
Definition annotate (node : nat) (t : option reflection.type) : M unit :=
  match t with
  | Some t => setReflectedType node t
  | None => modify (fun c => set_reflectedTypes (delete node (reflectedTypes c)) c)
  end.

(** [compiler.currentLocals[key]]: reading a property of [undefined] is a
    [TypeError]. *)
Definition readLocal (key : string) : M js.Value :=
  fun c => match currentLocals c with
           | js.undefined => Throw "TypeError: currentLocals is undefined"
           | js.object entries prototype => Ok (js.read entries prototype key) c
           end.

(** *** [maybeConvertValue] (compiler.ts, lines 721-909) *)

(** The local function [illegalImplicitConversion]: reports the error and
    sets [explicit] to true; the result is the new value of [explicit]. *)
Definition illegalImplicitConversion (node : typescript.Expression)
  (fromType toType : reflection.type) : M bool :=
  error (typescript.nodeId node) "Illegal implicit conversion"
    (Some ("'" +:+ reflection.toString fromType +:+ "' to '" +:+
           reflection.toString toType +:+ "'")) ;;;
  ret true.

(** [if (!explicit) illegalImplicitConversion();] *)
Definition unlessExplicit (explicit : bool) (node : typescript.Expression)
  (fromType toType : reflection.type) : M bool :=
  if negb explicit then illegalImplicitConversion node fromType toType
  else ret explicit.

(** Lines 884-908, "int to other int": the code every branch that has not
    returned falls through to. *)
Definition intToOtherInt (node : typescript.Expression) (expr : binaryen.Expression)
  (fromType toType : reflection.type) (explicit : bool) : M binaryen.Expression :=
  if (reflection.size fromType <? reflection.size toType) || reflection.isInt toType
  then ret expr
  else
    _ <- unlessExplicit explicit node fromType toType ;;
    if reflection.isSigned toType then
      ret (op.i32.shl
             (op.i32.shr_s expr (op.i32.const (reflection.shift32 toType)))
             (op.i32.const (reflection.shift32 toType)))
    else
      ret (op.i32.and expr (op.i32.const (reflection.mask32 toType))).

(** The method calls itself on the result of a float truncation, with
    [intType] as the source; [fuel] bounds the depth of these calls. *)
Fixpoint maybeConvertValue_rec (fuel : nat) (node : typescript.Expression)
  (expr : binaryen.Expression) (fromType toType : reflection.type)
  (explicit : bool) {struct fuel} : M binaryen.Expression :=
  match fuel with
  | O => throw "maybeConvertValue: call depth exceeded"
  | S fuel' =>
    if TypeKind.eqb (reflection.kind fromType) (reflection.kind toType) then ret expr
    else
      ptr <- gets uintptrSize ;;
      when (negb explicit)
        (when ((ptr =? 4)
               && TypeKind.eqb (reflection.kind fromType) TypeKind.uintptr
               && reflection.isInt toType)
           (warn (typescript.nodeId node)
              "Implicit conversion from 'uintptr' to 'uint' will fail when targeting WASM64"
              None) ;;;
         when ((ptr =? 8) && reflection.isLong fromType
               && TypeKind.eqb (reflection.kind toType) TypeKind.uintptr)
           (warn (typescript.nodeId node)
              "Implicit conversion from 'ulong' to 'uintptr' will fail when targeting WASM32"
              None)) ;;;
      setReflectedType (typescript.nodeId node) toType ;;;
      if reflection.type_eqb fromType reflection.floatType then
        explicit <- (if negb explicit && negb (reflection.type_eqb toType reflection.doubleType)
                     then illegalImplicitConversion node fromType toType
                     else ret explicit) ;;
        if reflection.oneOf toType
             [reflection.byteType; reflection.ushortType; reflection.uintType;
              reflection.uintptrType32; reflection.boolType]
        then maybeConvertValue_rec fuel' node (op.i32.trunc_u_f32 expr)
               reflection.intType toType explicit
        else if reflection.oneOf toType
             [reflection.sbyteType; reflection.shortType; reflection.intType]
        then maybeConvertValue_rec fuel' node (op.i32.trunc_s_f32 expr)
               reflection.intType toType explicit
        else if reflection.oneOf toType [reflection.uintptrType64; reflection.ulongType]
        then ret (op.i64.trunc_u_f32 expr)
        else if reflection.type_eqb toType reflection.longType
        then ret (op.i64.trunc_s_f32 expr)
        else if reflection.type_eqb toType reflection.doubleType
        then ret (op.f64.promote expr)
        else intToOtherInt node expr fromType toType explicit
      else if reflection.type_eqb fromType reflection.doubleType then
        explicit <- unlessExplicit explicit node fromType toType ;;
        if reflection.oneOf toType
             [reflection.byteType; reflection.ushortType; reflection.uintType;
              reflection.uintptrType32; reflection.boolType]
        then maybeConvertValue_rec fuel' node (op.i32.trunc_u_f64 expr)
               reflection.intType toType explicit
        else if reflection.oneOf toType
             [reflection.sbyteType; reflection.shortType; reflection.intType]
        then maybeConvertValue_rec fuel' node (op.i32.trunc_s_f64 expr)
               reflection.intType toType explicit
        else if reflection.oneOf toType [reflection.ulongType; reflection.uintptrType64]
        then ret (op.i64.trunc_u_f64 expr)
        else if reflection.type_eqb toType reflection.longType
        then ret (op.i64.trunc_s_f64 expr)
        else if reflection.type_eqb toType reflection.floatType
        then ret (op.f32.demote expr)
        else intToOtherInt node expr fromType toType explicit
      else if reflection.type_eqb toType reflection.floatType then
        if reflection.oneOf fromType [reflection.uintType; reflection.uintptrType32]
        then _ <- unlessExplicit explicit node fromType toType ;;
             ret (op.f32.convert_u_i32 expr)
        else if reflection.oneOf fromType
             [reflection.byteType; reflection.ushortType; reflection.boolType]
        then ret (op.f32.convert_u_i32 expr)
        else if reflection.type_eqb fromType reflection.intType
        then _ <- unlessExplicit explicit node fromType toType ;;
             ret (op.f32.convert_s_i32 expr)
        else if reflection.oneOf fromType [reflection.sbyteType; reflection.shortType]
        then ret (op.f32.convert_s_i32 expr)
        else if reflection.oneOf fromType [reflection.ulongType; reflection.uintptrType64]
        then _ <- unlessExplicit explicit node fromType toType ;;
             ret (op.f32.convert_u_i64 expr)
        else if reflection.type_eqb fromType reflection.longType
        then _ <- unlessExplicit explicit node fromType toType ;;
             ret (op.f32.convert_s_i64 expr)
        else intToOtherInt node expr fromType toType explicit
      else if reflection.type_eqb toType reflection.doubleType then
        if reflection.oneOf fromType
             [reflection.uintType; reflection.uintptrType32; reflection.byteType;
              reflection.ushortType; reflection.boolType]
        then ret (op.f64.convert_u_i32 expr)
        else if reflection.oneOf fromType
             [reflection.intType; reflection.sbyteType; reflection.shortType]
        then ret (op.f64.convert_s_i32 expr)
        else if reflection.oneOf fromType [reflection.ulongType; reflection.uintptrType64]
        then _ <- unlessExplicit explicit node fromType toType ;;
             ret (op.f64.convert_u_i64 expr)
        else if reflection.type_eqb fromType reflection.longType
        then _ <- unlessExplicit explicit node fromType toType ;;
             ret (op.f64.convert_s_i64 expr)
        else intToOtherInt node expr fromType toType explicit
      else if reflection.isInt fromType && reflection.isLong toType then
        if reflection.isSigned toType then ret (op.i64.extend_s expr)
        else ret (op.i64.extend_u expr)
      else if reflection.isLong fromType && reflection.isInt toType then
        explicit <- unlessExplicit explicit node fromType toType ;;
        intToOtherInt node (op.i32.wrap expr)
          (if reflection.isSigned fromType then reflection.intType
           else reflection.uintType)
          toType explicit
      else intToOtherInt node expr fromType toType explicit
  end.

(** A truncated float is converted from [intType], which is neither float
    nor double, so the calls nest at most once. *)
Definition maybeConvertValue : typescript.Expression -> binaryen.Expression ->
  reflection.type -> reflection.type -> bool -> M binaryen.Expression :=
  maybeConvertValue_rec 2.

(** ** The value of an integer expression

    The WebAssembly meaning of the integer instructions that conversions
    emit, on closed expressions; an i32 is its unsigned value below 2^32. *)

Definition wrap32 (z : Z) : Z := z mod 2 ^ 32.

Definition signed32 (z : Z) : Z :=
  if wrap32 z <? 2 ^ 31 then wrap32 z else wrap32 z - 2 ^ 32.

Fixpoint eval (e : binaryen.Expression) : option Z :=
  match e with
  | binaryen.I32Const v => Some (wrap32 v)
  | binaryen.Binary (binaryen.Shl binaryen.i32) l r =>
    match eval l, eval r with
    | Some a, Some b => Some (wrap32 (Z.shiftl a (b mod 32)))
    | _, _ => None
    end
  | binaryen.Binary (binaryen.ShrS binaryen.i32) l r =>
    match eval l, eval r with
    | Some a, Some b => Some (wrap32 (Z.shiftr (signed32 a) (b mod 32)))
    | _, _ => None
    end
  | binaryen.Binary (binaryen.And binaryen.i32) l r =>
    match eval l, eval r with
    | Some a, Some b => Some (Z.land a b)
    | _, _ => None
    end
  | _ => None
  end.

(** [x] converted from [A] to [B] and back, as the round trip of the spec. *)
Definition roundTrip (node : typescript.Expression) (x : binaryen.Expression)
  (A B : reflection.type) (explicit : bool) : M binaryen.Expression :=
  there <- maybeConvertValue node x A B explicit ;;
  maybeConvertValue node there B A explicit.

(** ** External collaborators

    What the compiler takes from outside the files at hand: the decoded
    allocator blob, Node's [path] module, the lowerers of [src/expressions]
    and [src/statements] that are not modelled here, and the instantiation
    of function, class and enum templates. *)
Class Host : Type := {
  mallocBinary : binaryen.Module_;
  path_sep : ascii;
  path_normalize : string -> string;
  path_dirname : string -> string;
  path_relative : string -> string -> string;
  compileLiteral : typescript.Expression -> reflection.type -> M binaryen.Expression;
  compileExternalExpression :
    typescript.Expression -> reflection.type -> M binaryen.Expression;
  compileExternalStatement : typescript.Statement -> M binaryen.Expression;
  initializeFunction : nat -> string -> typescript.SourceFile -> M unit;
  initializeClass : nat -> string -> typescript.SourceFile -> M unit;
  initializeEnum : nat -> string -> typescript.SourceFile -> M unit
}.

(** A host for closed examples: the allocator module exports the three
    [mspace_*] functions, paths use "/" and are already relative to the
    directory of the entry file, and there is no lowerer beyond the ones of
    this development. *)
Definition fixtureHost : Host := {|
  mallocBinary :=
    binaryen.mkModule [] [] []
      [("mspace_init", "mspace_init"); ("mspace_malloc", "mspace_malloc");
       ("mspace_free", "mspace_free")] None None;
  path_sep := "/"%char;
  path_normalize := fun p => p;
  path_dirname := fun _ => ".";
  path_relative := fun _ p => p;
  compileLiteral := fun n _ =>
    error (typescript.nodeId n) "Unsupported expression" None ;;; ret binaryen.Unreachable;
  compileExternalExpression := fun n _ =>
    error (typescript.nodeId n) "Unsupported expression" None ;;; ret binaryen.Unreachable;
  compileExternalStatement := fun _ => ret binaryen.Nop;
  initializeFunction := fun _ _ _ => ret tt;
  initializeClass := fun _ _ _ => ret tt;
  initializeEnum := fun _ _ _ => ret tt
|}.

(** *** The constructor (compiler.ts, lines 164-193) *)

Inductive Construction : Type :=
| Constructed (c : Compiler)
| ConstructionError (message : string).

(** The loop over the source files, from the last to the first: the library
    file is the first declaration file, the entry file the last file that is
    not a declaration file. *)
Definition locateFiles (sourceFiles : list typescript.SourceFile)
  : option typescript.SourceFile * option typescript.SourceFile :=
  fold_left
    (fun (acc : option typescript.SourceFile * option typescript.SourceFile) f =>
       if typescript.isDeclarationFile f then (fst acc, Some f)
       else match fst acc with
            | None => (Some f, snd acc)
            | Some _ => acc
            end)
    (rev sourceFiles) (None, None).

(** [this.options.uintptrSize && this.options.uintptrSize !== 4 &&
    this.options.uintptrSize !== 8]: an unset size and 0 are falsy. *)
Definition unsupportedUintptrSize (o : CompilerOptions) : bool :=
  match opt_uintptrSize o with
  | Some v => negb (v =? 0) && negb (v =? 4) && negb (v =? 8)
  | None => false
  end.

Definition new_Compiler `{Host} (program : list typescript.SourceFile)
  (options : option CompilerOptions) : Construction :=
  let options := match options with Some o => o | None => defaultOptions end in
  if unsupportedUintptrSize options then ConstructionError "unsupported uintptrSize"
  else
    let files := locateFiles program in
    let ptr := match opt_uintptrSize options with
               | Some v => if v =? 0 then 4 else v
               | None => 4
               end in
    Constructed
      {| options := options;
         program := program;
         entryFile := fst files;
         libraryFile := snd files;
         diagnostics := [];
         module := if opt_noLib options then binaryen.emptyModule else mallocBinary;
         signatures := ∅;
         globalInitializers := [];
         userStartFunction := None;
         currentLocals := js.undefined;
         currentBreakContextNumber := 0;
         currentBreakContextDepth := 0;
         uintptrType := if ptr =? 4 then reflection.uintptrType32
                        else reflection.uintptrType64;
         globals := ∅;
         reflectedTypes := ∅;
         localIndex := 0;
         additionalLocals := [] |}.

(** *** [mangleGlobalName] (compiler.ts, lines 220-229) *)

(** The character class [[a-zA-Z0-9\.\/\\$]] of the replace pattern. *)
Definition allowedChar (a : ascii) : bool :=
  let n := Z.of_nat (nat_of_ascii a) in
  ((97 <=? n) && (n <=? 122)) || ((65 <=? n) && (n <=? 90)) ||
  ((48 <=? n) && (n <=? 57)) ||
  (n =? 46) || (n =? 47) || (n =? 92) || (n =? 36).

(** [.replace(/[^a-zA-Z0-9\.\/\\$]/g, "")] *)
Fixpoint sanitize (s : string) : string :=
  match s with
  | EmptyString => EmptyString
  | String a rest => if allowedChar a then String a (sanitize rest) else sanitize rest
  end.

(** [sourceFile === other], on the file objects of one program, which has
    one object per file name. *)
Definition sameFile (a : typescript.SourceFile) (b : option typescript.SourceFile) : bool :=
  match b with
  | Some b => String.eqb (typescript.fileName a) (typescript.fileName b)
  | None => false
  end.

Definition mangleGlobalName `{Host} (name : string) (sourceFile : typescript.SourceFile)
  : M string :=
  entry <- gets entryFile ;;
  library <- gets libraryFile ;;
  if negb (sameFile sourceFile entry) && negb (sameFile sourceFile library) then
    match entry with
    | None => throw "TypeError: entryFile is undefined"
    | Some e =>
      ret (sanitize
             (path_relative
                (path_dirname (path_normalize (typescript.fileName e)))
                (path_normalize (typescript.fileName sourceFile)))
           +:+ String path_sep name)
    end
  else ret name.

(** [s.indexOf(c) >= 0] for a single character. *)
Fixpoint hasChar (c : ascii) (s : string) : bool :=
  match s with
  | EmptyString => false
  | String a rest => Ascii.eqb a c || hasChar c rest
  end.

(** *** Expression lowering *)

(** [compileIdentifier] (expressions/identifier.ts).  The test
    [if (referencedLocal)] takes every truthy value for a local, also one
    that the dictionary inherits; such a value is no variable and has no
    [type], and the lowering throws on the IR type of [undefined] (the
    helper [binaryenTypeOf] is not part of the sources at hand). *)
Definition compileIdentifier (id : nat) (text : string)
  (contextualType : reflection.type) : M binaryen.Expression :=
  referencedLocal <- readLocal text ;;
  match referencedLocal with
  | js.variable referencedLocal =>
    setReflectedType id (reflection.vtype referencedLocal) ;;;
    ptr <- gets uintptrSize ;;
    ret (binaryen.GetLocal (reflection.index referencedLocal)
           (binaryen.typeOf (reflection.vtype referencedLocal) ptr))
  | js.other true => throw "TypeError: the type of the referenced value is undefined"
  | _ =>
    error id "Undefined local variable" (Some text) ;;;
    setReflectedType id contextualType ;;;
    ret binaryen.Unreachable
  end.

(** [compilePrefixUnary] (src/expressions).  [compileOperand] is
    [compiler.compileExpression] at [node.operand].  The test [if (local)]
    of the increment takes every truthy value for a local, as
    [compileIdentifier] does, and throws likewise on the type of a value
    that is no variable. *)
Definition compilePrefixUnary
  (compileOperand : reflection.type -> M binaryen.Expression)
  (id : nat) (operator : typescript.PrefixUnaryOperator)
  (operandNode : typescript.Expression) (contextualType : reflection.type)
  : M binaryen.Expression :=
  let node := typescript.PrefixUnaryExpression id operator operandNode in
  let unsupported : M binaryen.Expression :=
    error id "Unsupported unary prefix operator"
      (Some (typescript.operatorName operator)) ;;;
    ret binaryen.Unreachable in
  operand <- compileOperand contextualType ;;
  operandType <- peekReflectedType (typescript.nodeId operandNode) ;;
  match operator with
  | typescript.ExclamationToken =>
    setReflectedType id reflection.boolType ;;;
    operandType <- defined operandType ;;
    if reflection.type_eqb operandType reflection.floatType then
      ret (op.f32.eq operand (op.f32.const 0))
    else if reflection.type_eqb operandType reflection.doubleType then
      ret (op.f64.eq operand (op.f64.const 0))
    else if reflection.isLong operandType then
      ret (op.i64.eqz operand)
    else
      ret (op.i32.eqz operand)
  | typescript.PlusToken =>
    annotate id operandType ;;;
    ret operand
  | typescript.MinusToken =>
    annotate id operandType ;;;
    operandType <- defined operandType ;;
    if reflection.type_eqb operandType reflection.floatType then
      ret (op.f32.neg (binaryen.Foreign operandNode))
    else if reflection.type_eqb operandType reflection.doubleType then
      ret (op.f64.neg (binaryen.Foreign operandNode))
    else if reflection.isLong operandType then
      ret (op.i64.sub (op.i64.const 0 0) operand)
    else
      maybeConvertValue node (op.i32.sub (op.i32.const 0) operand)
        reflection.intType operandType true
  | typescript.TildeToken =>
    operandType <- defined operandType ;;
    if reflection.isLong operandType then
      setReflectedType id operandType ;;;
      ret (op.i64.xor operand (op.i64.const (-1) (-1)))
    else if reflection.isInt operandType then
      setReflectedType id operandType ;;;
      ret (op.i32.xor operand (op.i32.const (-1)))
    else if reflection.isLong contextualType then
      setReflectedType id contextualType ;;;
      converted <- maybeConvertValue operandNode operand operandType contextualType true ;;
      ret (op.i64.xor converted (op.i64.const (-1) (-1)))
    else
      setReflectedType id reflection.intType ;;;
      converted <- maybeConvertValue operandNode operand operandType reflection.intType true ;;
      ret (op.i32.xor converted (op.i32.const (-1)))
  | typescript.PlusPlusToken | typescript.MinusMinusToken =>
    match operandNode with
    | typescript.Identifier _ text =>
      local <- readLocal text ;;
      match local with
      | js.variable local =>
        ptr <- gets uintptrSize ;;
        ptrType <- gets uintptrType ;;
        let cat := binaryen.categoryOf (reflection.vtype local) ptr in
        let isIncrement :=
          match operator with typescript.PlusPlusToken => true | _ => false end in
        let calculate :=
          binaryen.Binary (if isIncrement then binaryen.Add cat else binaryen.Sub cat)
            (binaryen.GetLocal (reflection.index local) (binaryen.typeOf ptrType ptr))
            (binaryen.valueOf (reflection.vtype local) 1) in
        if reflection.type_eqb contextualType reflection.voidType then
          setReflectedType id reflection.voidType ;;;
          ret (binaryen.SetLocal (reflection.index local) calculate)
        else
          setReflectedType id (reflection.vtype local) ;;;
          maybeConvertValue node (binaryen.TeeLocal (reflection.index local) calculate)
            reflection.intType (reflection.vtype local) true
      | js.other true => throw "TypeError: the type of the referenced value is undefined"
      | _ => unsupported
      end
    | _ => unsupported
    end
  end.

(** [compileExpression] (compiler.ts, lines 663-719) *)
Fixpoint compileExpression `{Host} (node : typescript.Expression)
  (contextualType : reflection.type) {struct node} : M binaryen.Expression :=
  match node with
  | typescript.PrefixUnaryExpression id operator operand =>
    compilePrefixUnary (compileExpression operand) id operator operand contextualType
  | typescript.Identifier id text => compileIdentifier id text contextualType
  | typescript.NumericLiteral _ _ => compileLiteral node contextualType
  | typescript.TrueKeyword id =>
    setReflectedType id reflection.boolType ;;;
    ret (binaryen.valueOf reflection.boolType 1)
  | typescript.FalseKeyword id =>
    setReflectedType id reflection.boolType ;;;
    ret (binaryen.valueOf reflection.boolType 0)
  | typescript.NullKeyword id =>
    ptrType <- gets uintptrType ;;
    setReflectedType id ptrType ;;;
    ret (binaryen.valueOf ptrType 0)
  | typescript.ExternalExpression _ _ => compileExternalExpression node contextualType
  | typescript.UnsupportedExpression id kindName =>
    error id "Unsupported expression node" (Some kindName) ;;;
    setReflectedType id contextualType ;;;
    ret binaryen.Unreachable
  end.

(** *** Break contexts (compiler.ts, lines 598-613) *)

(** [get currentBreakLabel()]: number, a dot, depth. *)
Definition currentBreakLabel (c : Compiler) : string :=
  pretty (currentBreakContextNumber c) +:+ "." +:+ pretty (currentBreakContextDepth c).

Definition enterBreakContext : M string :=
  depth <- gets currentBreakContextDepth ;;
  when (depth =? 0)
    (modify (fun c => set_currentBreakContextNumber (currentBreakContextNumber c + 1) c)) ;;;
  modify (fun c => set_currentBreakContextDepth (currentBreakContextDepth c + 1) c) ;;;
  gets currentBreakLabel.

Definition leaveBreakContext : M unit :=
  depth <- gets currentBreakContextDepth ;;
  if depth <? 1 then throw "unbalanced break context"
  else modify (fun c => set_currentBreakContextDepth (currentBreakContextDepth c - 1) c).

(** *** Statement lowering *)

(** [compileWhile] (statements/while.ts).  [compileBody] is
    [compiler.compileStatement] at [node.statement], when there is one. *)
Definition compileWhile `{Host} (compileBody : option (M binaryen.Expression))
  (expression : typescript.Expression) : M binaryen.Expression :=
  label <- enterBreakContext ;;
  ifTrue <- match compileBody with
            | Some compile => body <- compile ;; ret [body]
            | None => ret []
            end ;;
  let ifTrue := (ifTrue ++ [binaryen.Break ("continue$" +:+ label)])%list in
  compiled <- compileExpression expression reflection.intType ;;
  conditionType <- getReflectedType (typescript.nodeId expression) ;;
  condition <- maybeConvertValue expression compiled conditionType reflection.intType true ;;
  let context :=
    [binaryen.Loop ("continue$" +:+ label)
       (binaryen.If condition
          (match ifTrue with
           | [single] => single
           | _ => binaryen.Block "" ifTrue
           end))] in
  leaveBreakContext ;;;
  ret (binaryen.Block ("break$" +:+ label) context).

(** [compileStatement] (compiler.ts, lines 615-661) *)
Fixpoint compileStatement `{Host} (node : typescript.Statement) {struct node}
  : M binaryen.Expression :=
  match node with
  | typescript.TypeAliasDeclarationStatement _ => ret binaryen.Nop
  | typescript.WhileStatement _ expression statement =>
    compileWhile
      (match statement with
       | Some body => Some (compileStatement body)
       | None => None
       end)
      expression
  | typescript.ExternalStatement _ _ => compileExternalStatement node
  | typescript.UnsupportedStatement id kindName =>
    error id "Unsupported statement node" (Some kindName) ;;;
    ret binaryen.Unreachable
  end.

(** *** Locals of the function being compiled (compiler.ts, lines 506-548) *)

(** The loop of [onVariable]:
    [while (compiler.currentLocals[name]) name = originalName + "." + alternative++;]
    The first turn may find a name that the dictionary inherits; the names
    of the later turns hold a dot, so each of these turns finds one more
    own entry, and [fuel], one more than the number of the own entries,
    bounds the turns. *)
Fixpoint uniqueLocalName (fuel : nat) (entries : gmap string reflection.variable)
  (prototype : js.Prototype) (originalName name : string) (alternative : Z)
  {struct fuel} : option string :=
  if js.truthy (js.read entries prototype name) then
    match fuel with
    | O => None
    | S fuel' =>
      uniqueLocalName fuel' entries prototype originalName
        (originalName +:+ "." +:+ pretty alternative) (alternative + 1)
    end
  else Some name.

Definition onVariable (originalName : string) (type : reflection.type) : M Z :=
  locals <- gets currentLocals ;;
  match locals with
  | js.undefined => throw "TypeError: currentLocals is undefined"
  | js.object entries prototype =>
    match uniqueLocalName (S (size entries)) entries prototype
            originalName originalName 1 with
    | None => throw "onVariable: no unused name"
    | Some name =>
      slot <- gets localIndex ;;
      modify (set_currentLocals
                (<[name := reflection.mkVariable name type reflection.VariableFlags.none slot]>
                   locals)) ;;;
      ptr <- gets uintptrSize ;;
      modify (fun c => set_additionalLocals
                         (additionalLocals c ++ [binaryen.typeOf type ptr]) c) ;;;
      modify (set_localIndex (slot + 1)) ;;;
      ret slot
    end
  end.

(** Modelled from the spec: what the lowering reads of a reflected function
    ([reflection.Function]): its name, its locals ([this] and the
    parameters, in slot order) and its IR signature handle. *)
Record ReflectedFunction : Set := mkReflectedFunction {
  rf_name : string;
  rf_locals : list reflection.variable;
  rf_binaryenSignature : binaryen.Signature
}.

Fixpoint forEach {A : Type} (f : A -> M unit) (l : list A) : M unit :=
  match l with
  | [] => ret tt
  | x :: rest => f x ;;; forEach f rest
  end.

Fixpoint mapM {A B : Type} (f : A -> M B) (l : list A) : M (list B) :=
  match l with
  | [] => ret []
  | x :: rest => y <- f x ;; ys <- mapM f rest ;; ret (y :: ys)
  end.

(** The body of the loop of lines 523-527:
    [this.currentLocals[local.name] = local; ++localIndex;] *)
Definition bindLocal (local : reflection.variable) : M unit :=
  locals <- gets currentLocals ;;
  match locals with
  | js.undefined => throw "TypeError: currentLocals is undefined"
  | js.object _ _ =>
    modify (set_currentLocals (<[reflection.name local := local]> locals)) ;;;
    modify (fun c => set_localIndex (localIndex c + 1) c)
  end.

(** Lines 515-527: the per-function state is reset and the locals of the
    function take the first slots. *)
Definition enterFunction (func : ReflectedFunction) : M unit :=
  modify (set_currentBreakContextNumber 0) ;;;
  modify (set_currentBreakContextDepth 0) ;;;
  modify (set_currentLocals ∅) ;;;
  modify (set_additionalLocals []) ;;;
  modify (set_localIndex 0) ;;;
  forEach bindLocal (rf_locals func).

Definition compileFunctionOrMethod `{Host} (func : ReflectedFunction)
  (body : option (list typescript.Statement)) : M binaryen.Function :=
  match body with
  | None => throw "missing body"
  | Some statements =>
    enterFunction func ;;;
    compiled <- mapM compileStatement statements ;;
    extra <- gets additionalLocals ;;
    m <- gets module ;;
    let added := binaryen.addFunction m (rf_name func) (rf_binaryenSignature func)
                   extra (binaryen.Block "" compiled) in
    modify (set_module (snd added)) ;;;
    ret (fst added)
  end.

(** *** The initialization pass *)

(** The primitive type keywords of [resolveType] (lines 965-978); [uintptr]
    is the pointer type of this compilation. *)
Definition basicType (c : Compiler) (symbolName : string) : option reflection.type :=
  if String.eqb symbolName "byte" then Some reflection.byteType
  else if String.eqb symbolName "sbyte" then Some reflection.sbyteType
  else if String.eqb symbolName "short" then Some reflection.shortType
  else if String.eqb symbolName "ushort" then Some reflection.ushortType
  else if String.eqb symbolName "int" then Some reflection.intType
  else if String.eqb symbolName "uint" then Some reflection.uintType
  else if String.eqb symbolName "long" then Some reflection.longType
  else if String.eqb symbolName "ulong" then Some reflection.ulongType
  else if String.eqb symbolName "bool" then Some reflection.boolType
  else if String.eqb symbolName "float" then Some reflection.floatType
  else if String.eqb symbolName "double" then Some reflection.doubleType
  else if String.eqb symbolName "uintptr" then Some (uintptrType c)
  else None.

(** [resolveType] (compiler.ts, lines 947-990) *)
Definition resolveType (type : typescript.TypeNode) (acceptVoid : bool)
  : M reflection.type :=
  let unsupported : M reflection.type :=
    error (typescript.typeNodeId type) "Unsupported type"
      (Some (typescript.getText type)) ;;;
    ret reflection.voidType in
  match type with
  | typescript.VoidKeyword id =>
    when (negb acceptVoid) (error id "Illegal type" (Some "void")) ;;;
    ret reflection.voidType
  | typescript.TypeReference _ _ (Some symbolName) classType =>
    basic <- gets (fun c => basicType c symbolName) ;;
    match basic, classType with
    | Some t, _ => ret t
    | None, Some t => ret t
    | None, None => unsupported
    end
  | _ => unsupported
  end.

(** [createGlobal] (compiler.ts, lines 338-368) *)
Definition createGlobal `{Host} (name : string) (type : reflection.type)
  (mutable : bool) (initializerNode : option typescript.Expression) : M unit :=
  let flags := if mutable then reflection.VariableFlags.global
               else Z.lor reflection.VariableFlags.global
                          reflection.VariableFlags.constant in
  modify (fun c => set_globals
                     (<[name := reflection.mkVariable name type flags 0]> (globals c)) c) ;;;
  ptr <- gets uintptrSize ;;
  match initializerNode with
  | Some initializerNode =>
    match initializerNode with
    | typescript.NumericLiteral _ _ =>
      literal <- compileLiteral initializerNode type ;;
      modify (fun c => set_module
                (binaryen.addGlobal (module c) name (binaryen.typeOf type ptr) mutable
                   literal) c)
    | _ =>
      if mutable then
        modify (fun c => set_module
                  (binaryen.addGlobal (module c) name (binaryen.typeOf type ptr) mutable
                     (binaryen.valueOf type 0)) c) ;;;
        compiled <- compileExpression initializerNode type ;;
        reflected <- getReflectedType (typescript.nodeId initializerNode) ;;
        converted <- maybeConvertValue initializerNode compiled reflected type false ;;
        modify (fun c => set_globalInitializers
                  (globalInitializers c ++ [binaryen.SetGlobal name converted]) c)
      else
        error (typescript.nodeId initializerNode)
          "Unsupported global constant initializer" None
    end
  | None =>
    modify (fun c => set_module
              (binaryen.addGlobal (module c) name (binaryen.typeOf type ptr) mutable
                 (binaryen.valueOf type 0)) c)
  end.

(** [initializeGlobal] (compiler.ts, lines 319-336); [sourceFile] is
    [declaration.getSourceFile()]. *)
Definition initializeGlobal `{Host} (sourceFile : typescript.SourceFile)
  (isConst : bool) (declarations : list typescript.VariableDeclaration) : M unit :=
  forEach
    (fun declaration =>
       match typescript.declType declaration, typescript.symbol declaration with
       | Some typeNode, Some symbolName =>
         name <- mangleGlobalName symbolName sourceFile ;;
         type <- resolveType typeNode false ;;
         createGlobal name type (negb isConst) (typescript.initializer declaration)
       | _, _ => error (typescript.declId declaration) "Type expected" None
       end)
    declarations.

(** The idiom of lines 297-300, 306-309 and 494-500: the signature handle
    cached under [identifier], else the module's function type of that
    shape, else a new function type. *)
Definition lookupSignature (identifier : string) (result : binaryen.Type_)
  (params : list binaryen.Type_) : M binaryen.Signature :=
  known <- gets signatures ;;
  match known !! identifier with
  | Some signature => ret signature
  | None =>
    m <- gets module ;;
    match binaryen.getFunctionType m result params with
    | Some signature =>
      modify (fun c => set_signatures (<[identifier := signature]> (signatures c)) c) ;;;
      ret signature
    | None =>
      let added := binaryen.addFunctionType m identifier result params in
      modify (set_module (snd added)) ;;;
      modify (fun c => set_signatures (<[identifier := fst added]> (signatures c)) c) ;;;
      ret (fst added)
    end
  end.

(** The statement that [initializeLibrary] pushes: the result of
    [mspace_init] stored into [.msp] (lines 286-288). *)
Definition mspInitializer (c : Compiler) : binaryen.Expression :=
  binaryen.SetGlobal ".msp"
    (binaryen.Call "mspace_init"
       [binaryen.valueOf (uintptrType c) (uintptrSize c * 2)]
       (binaryen.typeOf (uintptrType c) (uintptrSize c))).

(** [initializeLibrary] (compiler.ts, lines 279-317) *)
Definition initializeLibrary : M unit :=
  ptr <- gets uintptrSize ;;
  ptrType <- gets uintptrType ;;
  let binaryenPtrType := binaryen.typeOf ptrType ptr in
  modify (fun c => set_module
            (binaryen.addGlobal (module c) ".msp" binaryenPtrType true
               (binaryen.valueOf ptrType 0)) c) ;;;
  modify (fun c => set_globalInitializers (globalInitializers c ++ [mspInitializer c]) c) ;;;
  modify (fun c => set_module (binaryen.removeExport (module c) "mspace_init") c) ;;;
  modify (fun c => set_module (binaryen.removeExport (module c) "mspace_malloc") c) ;;;
  modify (fun c => set_module (binaryen.removeExport (module c) "mspace_free") c) ;;;
  mallocSignature <- lookupSignature (if ptr =? 4 then "ii" else "II")
                       binaryenPtrType [binaryenPtrType] ;;
  modify (fun c => set_module
            (snd (binaryen.addFunction (module c) "malloc" mallocSignature []
                    (binaryen.Block ""
                       [binaryen.Return
                          (binaryen.Call "mspace_malloc"
                             [binaryen.GetGlobal ".msp" binaryenPtrType;
                              binaryen.GetLocal 0 binaryenPtrType]
                             binaryenPtrType)]))) c) ;;;
  freeSignature <- lookupSignature (if ptr =? 4 then "iv" else "Iv")
                     binaryen.none [binaryenPtrType] ;;
  modify (fun c => set_module
            (snd (binaryen.addFunction (module c) "free" freeSignature []
                    (binaryen.Block ""
                       [binaryen.Call "mspace_free"
                          [binaryen.GetGlobal ".msp" binaryenPtrType;
                           binaryen.GetLocal 0 binaryenPtrType]
                          binaryen.none]))) c) ;;;
  modify (fun c => set_module (binaryen.addExport (module c) "malloc" "malloc") c) ;;;
  modify (fun c => set_module (binaryen.addExport (module c) "free" "free") c).

(** The [switch] over the kind of a top-level statement (lines 239-266). *)
Definition initializeStatement `{Host} (file : typescript.SourceFile)
  (statement : typescript.TopLevelStatement) : M unit :=
  match statement with
  | typescript.EndOfFileToken | typescript.InterfaceDeclaration
  | typescript.TypeAliasDeclaration | typescript.ImportDeclaration => ret tt
  | typescript.VariableStatement isConst declarations =>
    initializeGlobal file isConst declarations
  | typescript.FunctionDeclaration id name => initializeFunction id name file
  | typescript.ClassDeclaration id name => initializeClass id name file
  | typescript.EnumDeclaration id name => initializeEnum id name file
  | typescript.OtherTopLevel id kindName =>
    error id "Unsupported top-level statement" (Some kindName)
  end.

(** [initialize] (compiler.ts, lines 232-277) *)
Definition initialize `{Host} : M unit :=
  sourceFiles <- gets program ;;
  forEach (fun file => forEach (initializeStatement file) (typescript.statements file))
          sourceFiles ;;;
  noLib <- gets (fun c => opt_noLib (options c)) ;;
  if noLib then
    modify (fun c => set_module (binaryen.setMemory (module c) 1 65535 "memory") c)
  else initializeLibrary.

(** *** [maybeCompileStartFunction] (compiler.ts, lines 478-504) *)
Definition maybeCompileStartFunction : M unit :=
  initializers <- gets globalInitializers ;;
  userStart <- gets userStartFunction ;;
  match initializers with
  | [] =>
    match userStart with
    | Some f => modify (fun c => set_module (binaryen.setStart (module c) f) c)
    | None => ret tt
    end
  | _ =>
    let body :=
      (initializers ++
       match userStart with
       | Some _ => [binaryen.Call "start" [] binaryen.none]
       | None => []
       end)%list in
    signature <- lookupSignature "v" binaryen.none [] ;;
    m <- gets module ;;
    let added :=
      binaryen.addFunction m
        (match userStart with
         | Some _ => "executeGlobalInitializersAndCallStart"
         | None => "executeGlobalInitalizers"
         end)
        signature [] (binaryen.Block "" body) in
    modify (set_module (binaryen.setStart (snd added) (fst added)))
  end.

(** ** Fixtures for closed examples *)

(** A compiler instance with nothing in it, for a 32-bit target. *)
Definition blankCompiler : Compiler :=
  mkCompiler defaultOptions [] None None [] binaryen.emptyModule ∅ [] None js.undefined 0 0
    reflection.uintptrType32 ∅ ∅ 0 [].

(** The value of the expression a lowering returned, if it returned one. *)
Definition resultValue (r : Result binaryen.Expression) : option Z :=
  match r with
  | Ok e _ => eval e
  | Throw _ => None
  end.

(** The library declaration file and an entry file without statements. *)
Definition libraryUnit : typescript.SourceFile :=
  typescript.mkSourceFile "assembly.d.ts" true [].

Definition entryUnit : typescript.SourceFile :=
  typescript.mkSourceFile "module.ts" false [].

(** Two imported files next to the entry file, whose names differ by a
    character that the mangler strips. *)
Definition dashedUnit : typescript.SourceFile :=
  typescript.mkSourceFile "a-b.ts" false [].

Definition plainUnit : typescript.SourceFile :=
  typescript.mkSourceFile "ab.ts" false [].

(** The compiler constructed by the fixture host for a program, with the
    default options unless the construction fails. *)
Definition compilerFor (program : list typescript.SourceFile)
  (options : option CompilerOptions) : Compiler :=
  match @new_Compiler fixtureHost program options with
  | Constructed c => c
  | ConstructionError _ => blankCompiler
  end.

(** An entry file declaring [let flag: bool = true;], a mutable global
    whose initializer is not a numeric literal. *)
Definition flagUnit : typescript.SourceFile :=
  typescript.mkSourceFile "module.ts" false
    [typescript.VariableStatement false
       [typescript.mkVariableDeclaration 1 (Some "flag")
          (Some (typescript.TypeReference 2 "bool" (Some "bool") None))
          (Some (typescript.TrueKeyword 3))]].

(** The state a method leaves behind, if it returned. *)
Definition finalState {A : Type} (r : Result A) : option Compiler :=
  match r with
  | Ok _ c => Some c
  | Throw _ => None
  end.

(** The result a method returned, if it returned. *)
Definition returned {A : Type} (r : Result A) : option A :=
  match r with
  | Ok a _ => Some a
  | Throw _ => None
  end.

(** A compiler with one initializer queued for the start function. *)
Definition queuedCompiler : Compiler :=
  set_globalInitializers [binaryen.SetGlobal "x" (binaryen.I32Const 1)] blankCompiler.

(** The compiler on entry to a function, after lines 515-527. *)
Definition compilerIn (func : ReflectedFunction) : Compiler :=
  match enterFunction func blankCompiler with
  | Ok _ c => c
  | Throw _ => blankCompiler
  end.

(** [function f(x: float)] and [function g(x: int)]. *)
Definition floatParameter : ReflectedFunction :=
  mkReflectedFunction "f"
    [reflection.mkVariable "x" reflection.floatType reflection.VariableFlags.none 0]
    (binaryen.mkSignature "fv" binaryen.none [binaryen.f32]).

Definition intParameter : ReflectedFunction :=
  mkReflectedFunction "g"
    [reflection.mkVariable "x" reflection.intType reflection.VariableFlags.none 0]
    (binaryen.mkSignature "iv" binaryen.none [binaryen.i32]).

(** [-x] *)
Definition minusX : typescript.Expression :=
  typescript.PrefixUnaryExpression 1 typescript.MinusToken (typescript.Identifier 2 "x").

(** [while (true) <expression statement>] *)
Definition whileTrue : typescript.Statement :=
  typescript.WhileStatement 1 (typescript.TrueKeyword 2)
    (Some (typescript.ExternalStatement 3 "ExpressionStatement")).

(** [while (true) while (true) <expression statement>] *)
Definition nestedWhile : typescript.Statement :=
  typescript.WhileStatement 4 (typescript.TrueKeyword 5) (Some whileTrue).

(** ** Vocabulary of the specification *)

(** The 32-bit integer family: every integer type carried by an i32. *)
Definition int32Family (t : reflection.type) : bool :=
  match reflection.kind t with
  | TypeKind.byte | TypeKind.sbyte | TypeKind.short | TypeKind.ushort
  | TypeKind.int | TypeKind.uint | TypeKind.bool => true
  | TypeKind.uintptr => reflection.size t =? 4
  | _ => false
  end.

(** The integer types narrower than 32 bits. *)
Definition narrowerThan32 (t : reflection.type) : bool :=
  match reflection.kind t with
  | TypeKind.byte | TypeKind.sbyte | TypeKind.short | TypeKind.ushort
  | TypeKind.bool => true
  | _ => false
  end.

(** The values of a type, as integers: [x] is representable in [t]. *)
Definition representable (t : reflection.type) (x : Z) : Prop :=
  if reflection.isSigned t
  then - 2 ^ (reflection.bitwidth t - 1) <= x < 2 ^ (reflection.bitwidth t - 1)
  else 0 <= x < 2 ^ reflection.bitwidth t.

(** A method preserves an observation [f] of the compiler when every run
    that returns leaves [f] as it found it. *)
Definition preserves {A X : Type} (f : Compiler -> X) (m : M A) : Prop :=
  forall c a c', m c = Ok a c' -> f c' = f c.

(** The name that [onVariable] tries in its [k]-th turn. *)
Definition alternativeName (originalName : string) (k : Z) : string :=
  originalName +:+ "." +:+ pretty k.

(** ** Further parts of the sources *)

(** *** Import names ([compileFunction], compiler.ts, lines 558-565) *)

(** [s.indexOf(c)] for a single character: the position of its first
    occurrence, or -1. *)
Fixpoint indexOf (c : ascii) (s : string) : Z :=
  match s with
  | EmptyString => -1
  | String a rest =>
    if Ascii.eqb a c then 0
    else let i := indexOf c rest in if i <? 0 then -1 else i + 1
  end.

(** [s.substring(0, n)] and [s.substring(n)] for [n] within the string. *)
Fixpoint substringTo (n : nat) (s : string) : string :=
  match n, s with
  | S n', String a rest => String a (substringTo n' rest)
  | _, _ => EmptyString
  end.

Fixpoint substringFrom (n : nat) (s : string) : string :=
  match n, s with
  | S n', String _ rest => substringFrom n' rest
  | _, _ => s
  end.

(** The module and base name under which [compileFunction] imports the
    function [name]: split at the first dollar sign unless it leads. *)
Definition importNames (name : string) : string * string :=
  let idx := indexOf "$"%char name in
  if 0 <? idx
  then (substringTo (Z.to_nat idx) name, substringFrom (Z.to_nat (idx + 1)) name)
  else ("env", name).

(** *** [maybeResolveAlias] (compiler.ts, lines 911-945) *)

Module checker.

(** A declaration of a symbol.  For a type alias, [aliased] is the symbol
    that the checker finds at the type name of the aliased type when that
    type is a type reference, and nothing otherwise. *)
Inductive Declaration (S : Type) : Type :=
| TypeAliasDeclaration (aliased : option S)
| OtherDeclaration.

Arguments TypeAliasDeclaration {S} aliased.
Arguments OtherDeclaration {S}.

(** A symbol with its declarations, none when [symbol.declarations] is
    undefined. *)
Inductive Symbol : Type :=
| mkSymbol (name : string) (declarations : list (Declaration Symbol)).

Definition name (s : Symbol) : string :=
  match s with mkSymbol n _ => n end.

Definition declarations (s : Symbol) : list (Declaration Symbol) :=
  match s with mkSymbol _ ds => ds end.

End checker.

(** The [switch] of lines 914-928: the names of the built-in types. *)
Definition isBuiltinTypeName (name : string) : bool :=
  existsb (String.eqb name)
    ["byte"; "sbyte"; "short"; "ushort"; "int"; "uint"; "long"; "ulong";
     "bool"; "float"; "double"; "uintptr"].

Fixpoint maybeResolveAlias (symbol : checker.Symbol) : checker.Symbol :=
  match symbol with
  | checker.mkSymbol name declarations =>
    if isBuiltinTypeName name then symbol
    else
      (fix loop (ds : list (checker.Declaration checker.Symbol)) : checker.Symbol :=
         match ds with
         | [] => symbol
         | checker.TypeAliasDeclaration (Some symbolAtLocation) :: _ =>
           maybeResolveAlias symbolAtLocation
         | _ :: rest => loop rest
         end) declarations
  end.

(** *** The allocator's source of memory ([wasmMoreCore], the C glue of the
    bundled allocator), for a 32-bit target *)

Module morecore.

(** The linear memory as [wasmMoreCore] sees it: its size in pages of 64
    KiB, the most pages it may grow to, and [top], the word stored at
    address [sizeof(uintptr_t)]. *)
Record Memory : Set := mkMemory {
  pages : Z;
  maximum : Z;
  top : Z
}.

(** [__builtin_wasm_grow_memory(delta)]: the size before growing, or -1
    when the memory cannot grow by [delta] pages. *)
Definition grow_memory (delta : Z) (m : Memory) : Z * Memory :=
  if pages m + delta <=? maximum m
  then (pages m, mkMemory (pages m + delta) (maximum m) (top m))
  else (-1, m).

(** [size < 65536 ? 1 : ((size - 1) >> 16) + 1] *)
Definition pagesFor (size : Z) : Z :=
  if size <? 65536 then 1 else Z.shiftr (size - 1) 16 + 1.

(** [wasmMoreCore(size)], with pointers as unsigned 32-bit values; [MFAIL]
    is the failure value of the allocator.  Reading or writing [top] with
    no page of memory traps, which is [None]. *)
Definition wasmMoreCore (MFAIL : Z) (size : Z) (m : Memory) : option (Z * Memory) :=
  if 0 <? size then
    let size := pagesFor size in
    let grown := grow_memory size m in
    let ptr := wrap32 (Z.shiftl (fst grown) 16) in
    if ptr =? 0 then Some (MFAIL, snd grown)
    else if pages (snd grown) <? 1 then None
    else Some (ptr, mkMemory (pages (snd grown)) (maximum (snd grown))
                      (wrap32 (ptr + wrap32 (Z.shiftl size 16))))
  else if size <? 0 then Some (MFAIL, m)
  else if pages m <? 1 then None
  else Some (top m, m).

End morecore.

(** ** Vocabulary of the further properties *)

(** A method returns the value [a] when it does so on every state. *)
Definition returnsValue {A : Type} (a : A) (m : M A) : Prop :=
  forall c, exists c', m c = Ok a c'.

(** The number of error diagnostics collected so far. *)
Definition errorCount (c : Compiler) : nat :=
  length (List.filter
            (fun d => match typescript.category d with
                      | typescript.Error => true
                      | _ => false
                      end)
            (diagnostics c)).

(** A method run from a state with [P] ends, when it returns, in a state
    with [Q]. *)
Definition hoare {A : Type} (P Q : Compiler -> Prop) (m : M A) : Prop :=
  forall c a c', P c -> m c = Ok a c' -> Q c'.

(** A method reports at most one error. *)
Definition reportsAtMostOne {A : Type} (m : M A) : Prop :=
  forall c a c', m c = Ok a c' -> (errorCount c' <= S (errorCount c))%nat.

(** The expression that the tail of a conversion emits (lines 884-908). *)
Definition intToOtherIntExpression (expr : binaryen.Expression)
  (fromType toType : reflection.type) : binaryen.Expression :=
  if (reflection.size fromType <? reflection.size toType) || reflection.isInt toType
  then expr
  else if reflection.isSigned toType then
    op.i32.shl
      (op.i32.shr_s expr (op.i32.const (reflection.shift32 toType)))
      (op.i32.const (reflection.shift32 toType))
  else op.i32.and expr (op.i32.const (reflection.mask32 toType)).

(** The expression that a conversion from a type other than float and
    double emits, past the test of the kinds. *)
Definition integerConversionExpression (expr : binaryen.Expression)
  (fromType toType : reflection.type) : binaryen.Expression :=
  if reflection.type_eqb toType reflection.floatType then
    if reflection.oneOf fromType [reflection.uintType; reflection.uintptrType32]
    then op.f32.convert_u_i32 expr
    else if reflection.oneOf fromType
         [reflection.byteType; reflection.ushortType; reflection.boolType]
    then op.f32.convert_u_i32 expr
    else if reflection.type_eqb fromType reflection.intType
    then op.f32.convert_s_i32 expr
    else if reflection.oneOf fromType [reflection.sbyteType; reflection.shortType]
    then op.f32.convert_s_i32 expr
    else if reflection.oneOf fromType [reflection.ulongType; reflection.uintptrType64]
    then op.f32.convert_u_i64 expr
    else if reflection.type_eqb fromType reflection.longType
    then op.f32.convert_s_i64 expr
    else intToOtherIntExpression expr fromType toType
  else if reflection.type_eqb toType reflection.doubleType then
    if reflection.oneOf fromType
         [reflection.uintType; reflection.uintptrType32; reflection.byteType;
          reflection.ushortType; reflection.boolType]
    then op.f64.convert_u_i32 expr
    else if reflection.oneOf fromType
         [reflection.intType; reflection.sbyteType; reflection.shortType]
    then op.f64.convert_s_i32 expr
    else if reflection.oneOf fromType [reflection.ulongType; reflection.uintptrType64]
    then op.f64.convert_u_i64 expr
    else if reflection.type_eqb fromType reflection.longType
    then op.f64.convert_s_i64 expr
    else intToOtherIntExpression expr fromType toType
  else if reflection.isInt fromType && reflection.isLong toType then
    if reflection.isSigned toType then op.i64.extend_s expr
    else op.i64.extend_u expr
  else if reflection.isLong fromType && reflection.isInt toType then
    intToOtherIntExpression (op.i32.wrap expr)
      (if reflection.isSigned fromType then reflection.intType
       else reflection.uintType)
      toType
  else intToOtherIntExpression expr fromType toType.

(** The expression that the conversion of a truncated float emits: the
    conversion from [intType]. *)
Definition truncatedConversionExpression (expr : binaryen.Expression)
  (toType : reflection.type) : binaryen.Expression :=
  if TypeKind.eqb (reflection.kind reflection.intType) (reflection.kind toType)
  then expr
  else integerConversionExpression expr reflection.intType toType.

(** The expression that [maybeConvertValue] emits, as a function of the
    expression and the two types alone. *)
Definition conversionExpression (expr : binaryen.Expression)
  (fromType toType : reflection.type) : binaryen.Expression :=
  if TypeKind.eqb (reflection.kind fromType) (reflection.kind toType) then expr
  else if reflection.type_eqb fromType reflection.floatType then
    if reflection.oneOf toType
         [reflection.byteType; reflection.ushortType; reflection.uintType;
          reflection.uintptrType32; reflection.boolType]
    then truncatedConversionExpression (op.i32.trunc_u_f32 expr) toType
    else if reflection.oneOf toType
         [reflection.sbyteType; reflection.shortType; reflection.intType]
    then truncatedConversionExpression (op.i32.trunc_s_f32 expr) toType
    else if reflection.oneOf toType [reflection.uintptrType64; reflection.ulongType]
    then op.i64.trunc_u_f32 expr
    else if reflection.type_eqb toType reflection.longType
    then op.i64.trunc_s_f32 expr
    else if reflection.type_eqb toType reflection.doubleType
    then op.f64.promote expr
    else intToOtherIntExpression expr fromType toType
  else if reflection.type_eqb fromType reflection.doubleType then
    if reflection.oneOf toType
         [reflection.byteType; reflection.ushortType; reflection.uintType;
          reflection.uintptrType32; reflection.boolType]
    then truncatedConversionExpression (op.i32.trunc_u_f64 expr) toType
    else if reflection.oneOf toType
         [reflection.sbyteType; reflection.shortType; reflection.intType]
    then truncatedConversionExpression (op.i32.trunc_s_f64 expr) toType
    else if reflection.oneOf toType [reflection.ulongType; reflection.uintptrType64]
    then op.i64.trunc_u_f64 expr
    else if reflection.type_eqb toType reflection.longType
    then op.i64.trunc_s_f64 expr
    else if reflection.type_eqb toType reflection.floatType
    then op.f32.demote expr
    else intToOtherIntExpression expr fromType toType
  else integerConversionExpression expr fromType toType.

(** The unsigned integer types narrower than 32 bits. *)
Definition unsignedNarrow (t : reflection.type) : Prop :=
  t = reflection.byteType \/ t = reflection.ushortType \/ t = reflection.boolType.

(** The compiler is inside a function, so that the dictionary of its locals
    is there. *)
Definition insideFunction (c : Compiler) : Prop :=
  currentLocals c <> js.undefined.

(** Inside a function, the next free slot is [base] plus the number of
    locals added so far. *)
Definition slotsInOrder (base : Z) (c : Compiler) : Prop :=
  insideFunction c /\
  localIndex c = base + Z.of_nat (length (additionalLocals c)).

(** What [compiler.currentLocals[name]] answers inside a function. *)
Definition localValue (c : Compiler) (name : string) : option js.Value :=
  match currentLocals c with
  | js.undefined => None
  | js.object entries prototype => Some (js.read entries prototype name)
  end.

(** The name is free inside the function being compiled: the dictionary of
    the locals answers nothing truthy for it, neither an own entry nor a
    value that it inherits. *)
Definition freeName (c : Compiler) (name : string) : Prop :=
  exists value, localValue c name = Some value /\ js.truthy value = false.

(** The name is taken: the dictionary answers a truthy value for it. *)
Definition takenName (c : Compiler) (name : string) : Prop :=
  exists value, localValue c name = Some value /\ js.truthy value = true.

(** A symbol at which [maybeResolveAlias] stops: it has the name of a
    built-in type, or no type alias among its declarations leads on. *)
Definition resolvedSymbol (s : checker.Symbol) : Prop :=
  isBuiltinTypeName (checker.name s) = true \/
  forall target, ~ In (checker.TypeAliasDeclaration (Some target)) (checker.declarations s).

(** ** Fixtures of the further properties *)

(** [type Item = Cell; type Cell = int;] seen from [Item], and an [int] that
    carries an alias declaration of its own. *)
Definition intSymbol : checker.Symbol :=
  checker.mkSymbol "int"
    [checker.TypeAliasDeclaration (Some (checker.mkSymbol "number" []))].

Definition itemSymbol : checker.Symbol :=
  checker.mkSymbol "Item"
    [checker.OtherDeclaration;
     checker.TypeAliasDeclaration
       (Some (checker.mkSymbol "Cell" [checker.TypeAliasDeclaration (Some intSymbol)]))].

(** An entry file declaring [let b: int = a;], a mutable global whose
    initializer is an identifier. *)
Definition copyUnit : typescript.SourceFile :=
  typescript.mkSourceFile "module.ts" false
    [typescript.VariableStatement false
       [typescript.mkVariableDeclaration 1 (Some "b")
          (Some (typescript.TypeReference 2 "int" (Some "int") None))
          (Some (typescript.Identifier 3 "a"))]].

(** * Properties *)

Lemma TypeKind_eqb_eq (a b : TypeKind.t) : TypeKind.eqb a b = true <-> a = b.
Proof. destruct a, b; simpl; split; congruence. Qed.

Lemma TypeKind_eqb_neq (a b : TypeKind.t) : TypeKind.eqb a b = false <-> a <> b.
Proof.
  rewrite <- TypeKind_eqb_eq. destruct (TypeKind.eqb a b); split; congruence.
Qed.

Lemma type_eqb_eq (a b : reflection.type) : reflection.type_eqb a b = true <-> a = b.
Proof.
  destruct a as [ka sa ca], b as [kb sb cb]; unfold reflection.type_eqb; simpl.
  rewrite !andb_true_iff, TypeKind_eqb_eq, Z.eqb_eq. split.
  - intros [[-> ->] H]. destruct ca, cb; try discriminate; [|reflexivity].
    apply String.eqb_eq in H. now subst.
  - intros [= -> -> ->]. repeat split. destruct cb; [|reflexivity].
    apply String.eqb_refl.
Qed.

Lemma type_eqb_kind (a b : reflection.type) :
  reflection.kind a <> reflection.kind b -> reflection.type_eqb a b = false.
Proof.
  intros Hk. unfold reflection.type_eqb.
  apply TypeKind_eqb_neq in Hk. now rewrite Hk.
Qed.

(** Unfolds the monad, leaving the transformer applied to its state. *)
Ltac run :=
  cbv [bind ret gets modify when throw warn error setReflectedType
       illegalImplicitConversion unlessExplicit].

(** *** Conversions *)

(** C10: a conversion between two types of the same kind returns the
    expression it was given and leaves the compiler, its diagnostics
    included, as it was, whatever the [explicit] flag. *)
Theorem maybeConvertValue_same_kind (node : typescript.Expression)
  (expr : binaryen.Expression) (fromType toType : reflection.type)
  (explicit : bool) (c : Compiler) :
  reflection.kind fromType = reflection.kind toType ->
  maybeConvertValue node expr fromType toType explicit c = Ok expr c.
Proof.
  intros Hk. unfold maybeConvertValue. simpl.
  apply TypeKind_eqb_eq in Hk. now rewrite Hk.
Qed.

Lemma maybeConvertValue_same_kind_witness :
  maybeConvertValue (typescript.TrueKeyword 1) (op.i32.const 1)
    reflection.uintptrType32 reflection.uintptrType64 false blankCompiler
  = Ok (op.i32.const 1) blankCompiler.
Proof. apply maybeConvertValue_same_kind. reflexivity. Defined.

(** The tail of [maybeConvertValue] when the target is narrower than the
    source: one sign-extension or one mask, by the signedness of the target. *)
Lemma intToOtherInt_narrows (node : typescript.Expression) (expr : binaryen.Expression)
  (fromType toType : reflection.type) (explicit : bool) (c : Compiler) :
  reflection.isInt toType = false ->
  reflection.size toType <= reflection.size fromType ->
  exists c',
    intToOtherInt node expr fromType toType explicit c =
    Ok (if reflection.isSigned toType
        then op.i32.shl
               (op.i32.shr_s expr (op.i32.const (reflection.shift32 toType)))
               (op.i32.const (reflection.shift32 toType))
        else op.i32.and expr (op.i32.const (reflection.mask32 toType))) c'.
Proof.
  intros Hint Hsize. unfold intToOtherInt.
  rewrite Hint, orb_false_r.
  replace (reflection.size fromType <? reflection.size toType) with false
    by (symmetry; apply Z.ltb_ge; exact Hsize).
  destruct explicit; run; simpl; destruct (reflection.isSigned toType); eauto.
Qed.

(** C2: within the 32-bit integer family, converting to a different type
    that is narrower than 32 bits and no wider than the source emits
    [shl(shr_s(expr, shift32), shift32)] for a signed target and
    [and(expr, mask32)] for an unsigned one. *)
Theorem maybeConvertValue_narrows32 (node : typescript.Expression)
  (expr : binaryen.Expression) (fromType toType : reflection.type)
  (explicit : bool) (c : Compiler) :
  reflection.kind fromType <> reflection.kind toType ->
  int32Family fromType = true ->
  narrowerThan32 toType = true ->
  reflection.size toType <= reflection.size fromType ->
  exists c',
    maybeConvertValue node expr fromType toType explicit c =
    Ok (if reflection.isSigned toType
        then op.i32.shl
               (op.i32.shr_s expr (op.i32.const (reflection.shift32 toType)))
               (op.i32.const (reflection.shift32 toType))
        else op.i32.and expr (op.i32.const (reflection.mask32 toType))) c'.
Proof.
  intros Hk Hfrom Hto Hsize.
  assert (Hff : reflection.type_eqb fromType reflection.floatType = false).
  { apply type_eqb_kind. intros E. unfold int32Family in Hfrom.
    rewrite E in Hfrom. discriminate. }
  assert (Hfd : reflection.type_eqb fromType reflection.doubleType = false).
  { apply type_eqb_kind. intros E. unfold int32Family in Hfrom.
    rewrite E in Hfrom. discriminate. }
  assert (Htf : reflection.type_eqb toType reflection.floatType = false).
  { apply type_eqb_kind. intros E. unfold narrowerThan32 in Hto.
    rewrite E in Hto. discriminate. }
  assert (Htd : reflection.type_eqb toType reflection.doubleType = false).
  { apply type_eqb_kind. intros E. unfold narrowerThan32 in Hto.
    rewrite E in Hto. discriminate. }
  assert (Hti : reflection.isInt toType = false).
  { unfold narrowerThan32 in Hto. unfold reflection.isInt.
    destruct (reflection.kind toType); congruence. }
  assert (Htl : reflection.isLong toType = false).
  { unfold narrowerThan32 in Hto. unfold reflection.isLong.
    destruct (reflection.kind toType); congruence. }
  assert (Htu : TypeKind.eqb (reflection.kind toType) TypeKind.uintptr = false).
  { unfold narrowerThan32 in Hto. destruct (reflection.kind toType); simpl; congruence. }
  unfold maybeConvertValue. simpl.
  apply TypeKind_eqb_neq in Hk. rewrite Hk.
  unfold bind at 1. unfold gets at 1. unfold bind at 1.
  rewrite Hti, Htl, Htu, !andb_false_r.
  replace (when (negb explicit) _ c) with (Ok tt c) by (destruct explicit; reflexivity).
  unfold bind at 1. unfold setReflectedType at 1. unfold modify at 1.
  rewrite Hff, Hfd, Htf, Htd. 
  apply intToOtherInt_narrows; assumption.
Qed.

Lemma maybeConvertValue_narrows32_witness :
  exists c',
    maybeConvertValue (typescript.TrueKeyword 1) (op.i32.const 1)
      reflection.intType reflection.sbyteType true blankCompiler =
    Ok (if reflection.isSigned reflection.sbyteType
        then op.i32.shl
               (op.i32.shr_s (op.i32.const 1)
                  (op.i32.const (reflection.shift32 reflection.sbyteType)))
               (op.i32.const (reflection.shift32 reflection.sbyteType))
        else op.i32.and (op.i32.const 1)
               (op.i32.const (reflection.mask32 reflection.sbyteType))) c'.
Proof.
  apply maybeConvertValue_narrows32;
    [discriminate | reflexivity | reflexivity | simpl; lia].
Defined.

(** A method is total when it returns on every state, without throwing. *)
Definition total {A : Type} (m : M A) : Prop :=
  forall c, exists a c', m c = Ok a c'.

Lemma total_ret {A : Type} (a : A) : total (ret a).
Proof. intros c. now exists a, c. Qed.

Lemma total_bind {A B : Type} (m : M A) (k : A -> M B) :
  total m -> (forall a, total (k a)) -> total (bind m k).
Proof.
  intros Hm Hk c. destruct (Hm c) as (a & c1 & E).
  destruct (Hk a c1) as (b & c2 & E2).
  exists b, c2. unfold bind. now rewrite E.
Qed.

Lemma total_gets {A : Type} (f : Compiler -> A) : total (gets f).
Proof. intros c. now exists (f c), c. Qed.

Lemma total_modify (f : Compiler -> Compiler) : total (modify f).
Proof. intros c. now exists tt, (f c). Qed.

Lemma total_when (b : bool) (m : M unit) : total m -> total (when b m).
Proof. destruct b; simpl; [trivial | intros _; apply total_ret]. Qed.

Lemma total_error node message arg1 : total (error node message arg1).
Proof. apply total_modify. Qed.

Lemma total_warn node message arg1 : total (warn node message arg1).
Proof. apply total_modify. Qed.

Lemma total_setReflectedType node t : total (setReflectedType node t).
Proof. apply total_modify. Qed.

Lemma total_unlessExplicit explicit node fromType toType :
  total (unlessExplicit explicit node fromType toType).
Proof.
  unfold unlessExplicit, illegalImplicitConversion.
  destruct explicit; simpl.
  - apply total_ret.
  - apply total_bind; [apply total_error | intros; apply total_ret].
Qed.

Lemma total_intToOtherInt node expr fromType toType explicit :
  total (intToOtherInt node expr fromType toType explicit).
Proof.
  unfold intToOtherInt.
  destruct (_ || _); [apply total_ret|].
  apply total_bind; [apply total_unlessExplicit|].
  intros _. destruct (reflection.isSigned toType); apply total_ret.
Qed.

Create HintDb total.

#[local] Hint Resolve total_ret total_gets total_modify total_error total_warn
  total_setReflectedType total_unlessExplicit total_intToOtherInt : total.

(** One step of a totality proof, directed by the head of the method. *)
Ltac total_step :=
  lazymatch goal with
  | |- total (bind _ _) => apply total_bind; [| intros ?]
  | |- total (when _ _) => apply total_when
  | |- total (if ?b then _ else _) => destruct b
  | |- total _ => solve [auto with total]
  end.

(** From [intType] the conversion never calls itself. *)
Lemma maybeConvertValue_rec_int_total (n : nat) node expr toType explicit :
  total (maybeConvertValue_rec (S n) node expr reflection.intType toType explicit).
Proof.
  cbn [maybeConvertValue_rec].
  change (reflection.type_eqb reflection.intType reflection.floatType) with false.
  change (reflection.type_eqb reflection.intType reflection.doubleType) with false.
  cbv iota.
  repeat total_step.
Qed.

Lemma maybeConvertValue_rec_total (n : nat) node expr fromType toType explicit :
  total (maybeConvertValue_rec (S (S n)) node expr fromType toType explicit).
Proof.
  remember (S n) as m eqn:Em.
  cbn [maybeConvertValue_rec]. subst m.
  repeat first
    [ apply maybeConvertValue_rec_int_total
    | lazymatch goal with
      | |- total (illegalImplicitConversion _ _ _) =>
        unfold illegalImplicitConversion
      end
    | total_step ].
Qed.

(** The conversion returns on every input: two levels of calls suffice. *)
Lemma maybeConvertValue_total node expr fromType toType explicit :
  total (maybeConvertValue node expr fromType toType explicit).
Proof. apply maybeConvertValue_rec_total. Qed.

Lemma wrap32_small (x : Z) : 0 <= x < 2 ^ 32 -> wrap32 x = x.
Proof. intros H. unfold wrap32. now apply Z.mod_small. Qed.

(** Widening a byte to uint and narrowing it back keeps its value: the
    unsigned narrowing is a mask. *)
Lemma roundTrip_byte_uint (node : typescript.Expression) (x : Z) (explicit : bool)
  (c : Compiler) :
  representable reflection.byteType x ->
  resultValue (roundTrip node (op.i32.const x) reflection.byteType reflection.uintType
                 explicit c) = Some x.
Proof.
  unfold representable.
  change (reflection.isSigned reflection.byteType) with false.
  change (reflection.bitwidth reflection.byteType) with 8.
  cbv iota. intros Hx.
  assert (Hv : Z.land (wrap32 x) (wrap32 (reflection.mask32 reflection.byteType)) = x).
  { rewrite wrap32_small by lia.
    change (wrap32 (reflection.mask32 reflection.byteType)) with (Z.ones 8).
    rewrite Z.land_ones by lia. apply Z.mod_small. lia. }
  unfold roundTrip, maybeConvertValue. simpl.
  destruct explicit; run; simpl; rewrite ?andb_false_r; simpl;
    rewrite ?andb_false_r; simpl; now rewrite Hv.
Qed.

(** C5, evaluated: the value 1 of sbyte, widened to int and narrowed back,
    comes out as 0.  The widening returns the expression unchanged and the
    signed narrowing shifts right before it shifts left, which clears the
    low 24 bits instead of extending the sign. *)
Theorem roundTrip_sbyte_int_loses_value :
  representable reflection.sbyteType 1 /\
  eval (op.i32.const 1) = Some 1 /\
  resultValue (roundTrip (typescript.TrueKeyword 1) (op.i32.const 1)
                 reflection.sbyteType reflection.intType true blankCompiler)
  = Some 0.
Proof.
  split; [|split].
  - change (-128 <= 1 < 128). lia.
  - reflexivity.
  - vm_compute. reflexivity.
Qed.

(** *** Construction *)

(** C9, as the code has it: the constructor throws exactly for a pointer
    size that is set, not 0, and neither 4 nor 8; an unset size, and 0
    with it, default to 4; and the pointer type of the compilation is
    [uintptrType32] when the pointer size is 4, [uintptrType64] otherwise,
    the size being 4 or 8. *)
Theorem new_Compiler_uintptrSize `{Host} (sourceFiles : list typescript.SourceFile)
  (given : option CompilerOptions) :
  let requested :=
    opt_uintptrSize (match given with Some o => o | None => defaultOptions end) in
  match new_Compiler sourceFiles given with
  | ConstructionError _ =>
    exists v, requested = Some v /\ v <> 0 /\ v <> 4 /\ v <> 8
  | Constructed c =>
    (requested = None \/ requested = Some 0 \/ requested = Some 4 \/ requested = Some 8) /\
    (requested = None \/ requested = Some 0 -> uintptrSize c = 4) /\
    (uintptrSize c = 4 \/ uintptrSize c = 8) /\
    uintptrType c = (if uintptrSize c =? 4 then reflection.uintptrType32
                     else reflection.uintptrType64)
  end.
Proof.
  set (o := match given with Some o => o | None => defaultOptions end).
  unfold new_Compiler, unsupportedUintptrSize. fold o.
  cbv zeta.
  destruct (opt_uintptrSize o) as [v|] eqn:Ereq.
  - destruct (Z.eqb_spec v 0) as [->|H0];
      [|destruct (Z.eqb_spec v 4) as [->|H4];
        [|destruct (Z.eqb_spec v 8) as [->|H8]]];
      cbn [negb andb]; unfold uintptrSize; cbn [options uintptrType]; rewrite ?Ereq;
      try (exists v; tauto).
    + repeat split; auto.
    + repeat split; auto.
    + repeat split; auto. intros [?|?]; congruence.
  - unfold uintptrSize; cbn [options uintptrType]; rewrite ?Ereq.
    repeat split; auto.
Qed.

(** C9 fails at the pointer size 0, which is neither 4 nor 8 and yet
    constructs a compiler, for a 32-bit target. *)
Lemma new_Compiler_accepts_zero :
  0 <> 4 /\ 0 <> 8 /\
  exists c,
    @new_Compiler fixtureHost [libraryUnit; entryUnit]
      (Some (mkOptions (Some 0) true false)) = Constructed c /\
    uintptrSize c = 4.
Proof.
  split; [lia | split; [lia |]].
  eexists. split; reflexivity.
Qed.

(** *** Name mangling *)

Lemma hasChar_append (s : ascii) (p n : string) :
  hasChar s (p +:+ String s n) = true.
Proof.
  induction p as [|a p IH]; simpl.
  - now rewrite Ascii.eqb_refl.
  - rewrite IH. apply orb_true_r.
Qed.

(** A symbol of an imported file, one that is neither the entry file nor
    the library file, is named by the stripped relative path of its file,
    the separator and its own name. *)
Lemma mangleGlobalName_imported `{Host} (c : Compiler) (entry f : typescript.SourceFile)
  (name : string) :
  entryFile c = Some entry ->
  sameFile f (entryFile c) = false ->
  sameFile f (libraryFile c) = false ->
  mangleGlobalName name f c =
  Ok (sanitize
        (path_relative
           (path_dirname (path_normalize (typescript.fileName entry)))
           (path_normalize (typescript.fileName f)))
      +:+ String path_sep name) c.
Proof.
  intros Eentry Hentry Hlibrary. unfold mangleGlobalName.
  unfold bind at 1. unfold gets at 1. unfold bind at 1. unfold gets at 1.
  rewrite Hentry, Hlibrary, Eentry. reflexivity.
Qed.

(** C8 does not hold of the code.  In a program with the imported files
    [a-b.ts] and [ab.ts] next to the entry file, the mangler strips the
    dash from the path of the first, so that every name of the one file and
    the same name of the other get one and the same global name,
    [ab.ts/name]. *)
Theorem mangleGlobalName_imported_collision (name : string) :
  typescript.fileName dashedUnit <> typescript.fileName plainUnit /\
  sanitize (typescript.fileName dashedUnit) = sanitize (typescript.fileName plainUnit) /\
  @mangleGlobalName fixtureHost name dashedUnit
    (compilerFor [libraryUnit; dashedUnit; plainUnit; entryUnit] None)
  = Ok ("ab.ts/" +:+ name)
       (compilerFor [libraryUnit; dashedUnit; plainUnit; entryUnit] None) /\
  @mangleGlobalName fixtureHost name plainUnit
    (compilerFor [libraryUnit; dashedUnit; plainUnit; entryUnit] None)
  = Ok ("ab.ts/" +:+ name)
       (compilerFor [libraryUnit; dashedUnit; plainUnit; entryUnit] None).
Proof.
  split; [vm_compute; discriminate|]. split; [reflexivity|].
  split.
  - now rewrite (@mangleGlobalName_imported fixtureHost _ entryUnit dashedUnit name).
  - now rewrite (@mangleGlobalName_imported fixtureHost _ entryUnit plainUnit name).
Qed.

(** The entry file and the library file share one namespace: a name of
    either is left as it is. *)
Example mangleGlobalName_unprefixed :
  returned (@mangleGlobalName fixtureHost "f" libraryUnit
              (compilerFor [libraryUnit; entryUnit] None)) = Some "f" /\
  returned (@mangleGlobalName fixtureHost "f" entryUnit
              (compilerFor [libraryUnit; entryUnit] None)) = Some "f".
Proof. split; reflexivity. Qed.

(** *** The allocator initializer and the start function *)

Lemma lookupSignature_globalInitializers (identifier : string)
  (result : binaryen.Type_) (params : list binaryen.Type_) (c : Compiler) :
  exists signature c',
    lookupSignature identifier result params c = Ok signature c' /\
    globalInitializers c' = globalInitializers c.
Proof.
  unfold lookupSignature. run.
  destruct (signatures c !! identifier); [eauto|].
  destruct (binaryen.getFunctionType (module c) result params); eauto.
Qed.

(** Whatever initializers are already queued, [initializeLibrary] queues the
    initializer of [.msp] behind them. *)
Lemma initializeLibrary_pushes_last (c : Compiler) :
  exists c',
    initializeLibrary c = Ok tt c' /\
    globalInitializers c' = (globalInitializers c ++ [mspInitializer c])%list.
Proof.
  unfold initializeLibrary.
  unfold bind at 1. unfold gets at 1.
  unfold bind at 1. unfold gets at 1.
  do 5 (unfold bind at 1; unfold modify at 1).
  unfold bind at 1.
  match goal with
  | |- context [lookupSignature ?i ?r ?p ?s] =>
    destruct (lookupSignature_globalInitializers i r p s) as (s1 & c1 & -> & E1)
  end.
  unfold bind at 1. unfold modify at 1.
  unfold bind at 1.
  match goal with
  | |- context [lookupSignature ?i ?r ?p ?s] =>
    destruct (lookupSignature_globalInitializers i r p s) as (s2 & c2 & -> & E2)
  end.
  run. eexists. split; [reflexivity|].
  simpl. rewrite E2. simpl. rewrite E1. reflexivity.
Qed.

(** In a compilation with the allocator, whatever the walk over the source
    files has queued comes first and the initializer of [.msp] last. *)
Lemma initialize_queues_msp_last `{Host} (c c1 : Compiler) :
  forEach (fun file => forEach (initializeStatement file) (typescript.statements file))
          (program c) c = Ok tt c1 ->
  opt_noLib (options c1) = false ->
  exists c',
    initialize c = Ok tt c' /\
    globalInitializers c' = (globalInitializers c1 ++ [mspInitializer c1])%list.
Proof.
  intros Ewalk HnoLib. unfold initialize.
  unfold bind at 1. unfold gets at 1.
  unfold bind at 1. rewrite Ewalk.
  unfold bind at 1. unfold gets at 1. rewrite HnoLib.
  apply initializeLibrary_pushes_last.
Qed.

(** C1, evaluated: for [let flag: bool = true;] compiled with the allocator,
    the list that the start function runs holds the initializer of [flag]
    first and the initializer of [.msp] last: [initialize] walks the
    source files before it calls [initializeLibrary]. *)
Theorem initialize_msp_initializer_last :
  opt_noLib (options (compilerFor [libraryUnit; flagUnit] None)) = false /\
  option_map globalInitializers
    (finalState (@initialize fixtureHost (compilerFor [libraryUnit; flagUnit] None)))
  = Some [binaryen.SetGlobal "flag" (binaryen.I32Const 1);
          binaryen.SetGlobal ".msp"
            (binaryen.Call "mspace_init" [binaryen.I32Const 8] binaryen.i32)].
Proof. split; vm_compute; reflexivity. Qed.

Lemma getFunctionType_shape (m : binaryen.Module_) (result : binaryen.Type_)
  (signature : binaryen.Signature) :
  binaryen.getFunctionType m result [] = Some signature ->
  binaryen.sigResult signature = result /\ binaryen.sigParams signature = [].
Proof.
  unfold binaryen.getFunctionType. intros E.
  apply find_some in E as [_ E]. apply andb_true_iff in E as [Er Ep].
  split.
  - destruct (binaryen.sigResult signature), result; simpl in Er; congruence.
  - destruct (binaryen.sigParams signature); [reflexivity | discriminate].
Qed.

(** The signature that [lookupSignature "v"] answers is void, as long as
    the handle cached under "v", if there is one, is. *)
Lemma lookupSignature_void (c : Compiler) :
  (forall s, signatures c !! "v" = Some s ->
             binaryen.sigResult s = binaryen.none /\ binaryen.sigParams s = []) ->
  exists signature c',
    lookupSignature "v" binaryen.none [] c = Ok signature c' /\
    binaryen.sigResult signature = binaryen.none /\
    binaryen.sigParams signature = [] /\
    binaryen.functions (module c') = binaryen.functions (module c).
Proof.
  intros Hcached. unfold lookupSignature. run.
  destruct (signatures c !! "v") as [s|] eqn:Es.
  - destruct (Hcached s eq_refl) as [Hr Hp]. eauto 6.
  - destruct (binaryen.getFunctionType (module c) binaryen.none []) as [s|] eqn:Eg.
    + apply getFunctionType_shape in Eg as [Hr Hp]. eauto 6.
    + simpl. eauto 6.
Qed.

(** C3: without initializers the user's [start], if there is one, becomes
    the start function as it is, and otherwise nothing is set; with
    initializers a function of void signature is added and set as the start
    function, whose body is the initializers in list order, followed by a
    call of [start] when the user defined one. *)
Theorem maybeCompileStartFunction_spec (c : Compiler) :
  (forall s, signatures c !! "v" = Some s ->
             binaryen.sigResult s = binaryen.none /\ binaryen.sigParams s = []) ->
  exists c',
    maybeCompileStartFunction c = Ok tt c' /\
    match globalInitializers c, userStartFunction c with
    | [], Some f =>
      binaryen.start (module c') = Some f /\
      binaryen.functions (module c') = binaryen.functions (module c)
    | [], None => c' = c
    | initializers, userStart =>
      exists name signature,
        binaryen.sigResult signature = binaryen.none /\
        binaryen.sigParams signature = [] /\
        let synthesized :=
          binaryen.mkFunction name signature []
            (binaryen.Block ""
               (initializers ++
                match userStart with
                | Some _ => [binaryen.Call "start" [] binaryen.none]
                | None => []
                end)) in
        binaryen.start (module c') = Some synthesized /\
        binaryen.functions (module c') =
          (binaryen.functions (module c) ++ [synthesized])%list
    end.
Proof.
  intros Hcached. unfold maybeCompileStartFunction.
  unfold bind at 1. unfold gets at 1. unfold bind at 1. unfold gets at 1.
  destruct (globalInitializers c) as [|first rest] eqn:Einit.
  - destruct (userStartFunction c) as [f|]; run; eauto.
  - destruct (lookupSignature_void c Hcached) as (signature & c1 & E & Hr & Hp & Hf).
    unfold bind at 1. rewrite E. run.
    eexists. split; [reflexivity|].
    destruct (userStartFunction c);
      eexists _, signature; simpl; rewrite Hf; auto.
Qed.

Lemma maybeCompileStartFunction_spec_witness :
  exists c',
    maybeCompileStartFunction queuedCompiler = Ok tt c' /\
    exists name signature,
      binaryen.sigResult signature = binaryen.none /\
      binaryen.sigParams signature = [] /\
      binaryen.start (module c') =
        Some (binaryen.mkFunction name signature []
                (binaryen.Block "" [binaryen.SetGlobal "x" (binaryen.I32Const 1)])) /\
      binaryen.functions (module c') =
        [binaryen.mkFunction name signature []
           (binaryen.Block "" [binaryen.SetGlobal "x" (binaryen.I32Const 1)])].
Proof.
  apply (maybeCompileStartFunction_spec queuedCompiler).
  intros s E. vm_compute in E. discriminate.
Defined.

(** *** Prefix minus *)

(** On a float operand the minus operator negates [node.operand], the
    syntax tree node, where the other branches take the lowered operand. *)
Lemma compilePrefixUnary_minus_float
  (compileOperand : reflection.type -> M binaryen.Expression) (id : nat)
  (operandNode : typescript.Expression) (contextualType : reflection.type)
  (c c1 : Compiler) (operand : binaryen.Expression) :
  compileOperand contextualType c = Ok operand c1 ->
  reflectedTypes c1 !! typescript.nodeId operandNode = Some reflection.floatType ->
  compilePrefixUnary compileOperand id typescript.MinusToken operandNode contextualType c
  = Ok (op.f32.neg (binaryen.Foreign operandNode))
       (set_reflectedTypes (<[id := reflection.floatType]> (reflectedTypes c1)) c1).
Proof.
  intros Eoperand Etype. unfold compilePrefixUnary.
  unfold bind at 1. rewrite Eoperand.
  unfold bind at 1. unfold peekReflectedType, gets. rewrite Etype.
  reflexivity.
Qed.

Lemma compilePrefixUnary_minus_double
  (compileOperand : reflection.type -> M binaryen.Expression) (id : nat)
  (operandNode : typescript.Expression) (contextualType : reflection.type)
  (c c1 : Compiler) (operand : binaryen.Expression) :
  compileOperand contextualType c = Ok operand c1 ->
  reflectedTypes c1 !! typescript.nodeId operandNode = Some reflection.doubleType ->
  compilePrefixUnary compileOperand id typescript.MinusToken operandNode contextualType c
  = Ok (op.f64.neg (binaryen.Foreign operandNode))
       (set_reflectedTypes (<[id := reflection.doubleType]> (reflectedTypes c1)) c1).
Proof.
  intros Eoperand Etype. unfold compilePrefixUnary.
  unfold bind at 1. rewrite Eoperand.
  unfold bind at 1. unfold peekReflectedType, gets. rewrite Etype.
  reflexivity.
Qed.

(** C7, evaluated: in [function f(x: float)], the operand [x] lowers to
    [get_local 0], yet [-x] lowers to [f32.neg] of the syntax tree node of
    [x], not of that expression; the reflected type of [-x] is float. *)
Theorem compileExpression_minus_float_operand :
  returned (@compileExpression fixtureHost (typescript.Identifier 2 "x")
              reflection.floatType (compilerIn floatParameter))
  = Some (binaryen.GetLocal 0 binaryen.f32) /\
  returned (@compileExpression fixtureHost minusX reflection.floatType
              (compilerIn floatParameter))
  = Some (op.f32.neg (binaryen.Foreign (typescript.Identifier 2 "x"))) /\
  returned (@compileExpression fixtureHost minusX reflection.floatType
              (compilerIn floatParameter))
  <> Some (op.f32.neg (binaryen.GetLocal 0 binaryen.f32)) /\
  option_map (fun c => reflectedTypes c !! 1%nat)
    (finalState (@compileExpression fixtureHost minusX reflection.floatType
                   (compilerIn floatParameter)))
  = Some (Some reflection.floatType).
Proof.
  repeat split; try (vm_compute; reflexivity).
  vm_compute. discriminate.
Qed.

(** *** Loops *)

Lemma preserves_ret {A X : Type} (f : Compiler -> X) (a : A) : preserves f (ret a).
Proof. now intros c a' c' [= _ <-]. Qed.

Lemma preserves_bind {A B X : Type} (f : Compiler -> X) (m : M A) (k : A -> M B) :
  preserves f m -> (forall a, preserves f (k a)) -> preserves f (bind m k).
Proof.
  intros Hm Hk c b c'. unfold bind.
  destruct (m c) as [a c1|] eqn:E; [|discriminate].
  intros E2. rewrite (Hk a _ _ _ E2). exact (Hm _ _ _ E).
Qed.

Lemma preserves_gets {A X : Type} (f : Compiler -> X) (g : Compiler -> A) :
  preserves f (gets g).
Proof. now intros c a c' [= _ <-]. Qed.

Lemma preserves_modify {X : Type} (f : Compiler -> X) (g : Compiler -> Compiler) :
  (forall c, f (g c) = f c) -> preserves f (modify g).
Proof. intros Hg c a c' [= _ <-]. apply Hg. Qed.

Lemma preserves_when {X : Type} (f : Compiler -> X) (b : bool) (m : M unit) :
  preserves f m -> preserves f (when b m).
Proof. destruct b; simpl; [trivial | intros _; apply preserves_ret]. Qed.

Lemma preserves_throw {A X : Type} (f : Compiler -> X) message :
  preserves f (@throw A message).
Proof. intros c a c' E. discriminate. Qed.

(** One step of a preservation proof, directed by the head of the method;
    what a [modify] does to the observation is left to [auto]. *)
Ltac preserves_step :=
  lazymatch goal with
  | |- preserves _ (bind _ _) => apply preserves_bind; [| intros ?]
  | |- preserves _ (when _ _) => apply preserves_when
  | |- preserves _ (if ?b then _ else _) => destruct b
  | |- preserves _ (ret _) => apply preserves_ret
  | |- preserves _ (gets _) => apply preserves_gets
  | |- preserves _ (throw _) => apply preserves_throw
  | |- preserves _ (modify _) => apply preserves_modify; intros; solve [auto]
  | |- preserves _ (error _ _ _) => unfold error
  | |- preserves _ (warn _ _ _) => unfold warn
  | |- preserves _ (setReflectedType _ _) => unfold setReflectedType
  | |- preserves _ (unlessExplicit _ _ _ _) => unfold unlessExplicit
  | |- preserves _ (illegalImplicitConversion _ _ _) =>
    unfold illegalImplicitConversion
  | |- preserves _ (intToOtherInt _ _ _ _ _) => unfold intToOtherInt
  end.

(** A conversion touches the diagnostics and the annotations of the nodes,
    and nothing else. *)
Lemma maybeConvertValue_rec_preserves {X : Type} (f : Compiler -> X) (n : nat)
  node expr fromType toType explicit :
  (forall v c, f (set_diagnostics v c) = f c) ->
  (forall v c, f (set_reflectedTypes v c) = f c) ->
  preserves f (maybeConvertValue_rec n node expr fromType toType explicit).
Proof.
  intros Hdiagnostics Hreflected.
  revert node expr fromType toType explicit.
  induction n as [|n IH]; intros node expr fromType toType explicit.
  - apply preserves_throw.
  - cbn [maybeConvertValue_rec].
    repeat first [ apply IH | preserves_step ].
Qed.

Lemma maybeConvertValue_preserves {X : Type} (f : Compiler -> X)
  node expr fromType toType explicit :
  (forall v c, f (set_diagnostics v c) = f c) ->
  (forall v c, f (set_reflectedTypes v c) = f c) ->
  preserves f (maybeConvertValue node expr fromType toType explicit).
Proof. apply maybeConvertValue_rec_preserves. Qed.

(** The pointer type chosen by the constructor is the one a conversion
    leaves behind: no method modelled here assigns [uintptrType] or
    [options]. *)
Lemma maybeConvertValue_keeps_pointer_type node expr fromType toType explicit :
  preserves (fun c => (uintptrType c, uintptrSize c))
    (maybeConvertValue node expr fromType toType explicit).
Proof. now apply maybeConvertValue_preserves. Qed.

Lemma lookupSignature_preserves {X : Type} (f : Compiler -> X) identifier result params :
  (forall v c, f (set_module v c) = f c) ->
  (forall v c, f (set_signatures v c) = f c) ->
  preserves f (lookupSignature identifier result params).
Proof.
  intros Hmodule Hsignatures. unfold lookupSignature.
  apply preserves_bind; [apply preserves_gets|]. intros known.
  destruct (known !! identifier); [apply preserves_ret|].
  apply preserves_bind; [apply preserves_gets|]. intros m.
  destruct (binaryen.getFunctionType m result params); repeat preserves_step.
Qed.

Lemma initializeLibrary_keeps_pointer_type :
  preserves (fun c => (uintptrType c, uintptrSize c)) initializeLibrary.
Proof.
  unfold initializeLibrary.
  repeat first [ apply lookupSignature_preserves; solve [auto] | preserves_step ].
Qed.

Lemma maybeCompileStartFunction_keeps_pointer_type :
  preserves (fun c => (uintptrType c, uintptrSize c)) maybeCompileStartFunction.
Proof.
  unfold maybeCompileStartFunction.
  apply preserves_bind; [apply preserves_gets|]. intros initializers.
  apply preserves_bind; [apply preserves_gets|]. intros userStart.
  destruct initializers; [destruct userStart|];
    repeat first [ apply lookupSignature_preserves; solve [auto] | preserves_step ].
Qed.

(** Entering a break context bumps the number when the depth is 0,
    increments the depth, and answers the label of the new context. *)
Lemma enterBreakContext_label (c : Compiler) :
  exists c',
    enterBreakContext c = Ok (currentBreakLabel c') c' /\
    currentBreakContextDepth c' = currentBreakContextDepth c + 1 /\
    currentBreakContextNumber c' =
      (if currentBreakContextDepth c =? 0 then currentBreakContextNumber c + 1
       else currentBreakContextNumber c).
Proof.
  unfold enterBreakContext. run.
  destruct (currentBreakContextDepth c =? 0); simpl; eauto.
Qed.

(** An assignment leaves a dictionary a dictionary. *)
Lemma assign_defined (key : string) (v : reflection.variable) (d : js.Dictionary) :
  d <> js.undefined -> js.assign key v d <> js.undefined.
Proof.
  destruct d as [|entries prototype]; [congruence|]. intros _. unfold js.assign.
  destruct (String.eqb key "__proto__"); discriminate.
Qed.

(** Inside a function, binding a local is an assignment to the dictionary. *)
Lemma bindLocal_inside (local : reflection.variable) (c : Compiler) :
  insideFunction c ->
  bindLocal local c =
  Ok tt (set_localIndex (localIndex c + 1)
           (set_currentLocals
              (<[reflection.name local := local]> (currentLocals c)) c)).
Proof.
  unfold insideFunction, bindLocal. intros Hinside.
  unfold bind at 1. unfold gets at 1.
  destruct (currentLocals c) as [|entries prototype]; [congruence|]. reflexivity.
Qed.

Lemma enterFunction_locals (l : list reflection.variable) (c : Compiler) :
  insideFunction c ->
  exists c',
    forEach bindLocal l c = Ok tt c' /\
    insideFunction c' /\
    currentBreakContextNumber c' = currentBreakContextNumber c /\
    currentBreakContextDepth c' = currentBreakContextDepth c /\
    localIndex c' = localIndex c + Z.of_nat (length l) /\
    additionalLocals c' = additionalLocals c.
Proof.
  revert c. induction l as [|local l IH]; intros c Hinside.
  - exists c. cbn. repeat split; [exact Hinside | lia].
  - cbn [forEach]. unfold bind at 1.
    rewrite (bindLocal_inside local c Hinside).
    cbv iota beta.
    match goal with
    | |- context [forEach _ l ?s] =>
      destruct (IH s) as (c' & -> & Hin & Hn & Hd & Hi & Ha)
    end.
    { unfold insideFunction. cbn. now apply assign_defined. }
    exists c'. cbn in Hn, Hd, Hi, Ha. cbn [length]. repeat split; auto. lia.
Qed.

(** On entry to a function the break context is (0, 0), and the locals of
    the function, [this] and the parameters, hold the slots from 0 on. *)
Lemma enterFunction_resets (func : ReflectedFunction) (c : Compiler) :
  exists c',
    enterFunction func c = Ok tt c' /\
    currentBreakContextNumber c' = 0 /\
    currentBreakContextDepth c' = 0 /\
    localIndex c' = Z.of_nat (length (rf_locals func)).
Proof.
  unfold enterFunction.
  do 5 (unfold bind at 1; unfold modify at 1).
  match goal with
  | |- context [forEach _ _ ?s] =>
    destruct (enterFunction_locals (rf_locals func) s)
      as (c' & -> & _ & Hn & Hd & Hi & _)
  end.
  { unfold insideFunction. cbn. discriminate. }
  exists c'. cbn in Hn, Hd, Hi. repeat split; auto.
Qed.

(** The first loop of a function enters the break context 1.1. *)
Lemma enterBreakContext_first (c : Compiler) :
  currentBreakContextNumber c = 0 ->
  currentBreakContextDepth c = 0 ->
  enterBreakContext c =
  Ok "1.1" (set_currentBreakContextDepth 1 (set_currentBreakContextNumber 1 c)).
Proof.
  intros Hnumber Hdepth. unfold enterBreakContext. run.
  rewrite Hdepth. simpl. unfold currentBreakLabel. simpl.
  rewrite Hnumber, Hdepth. reflexivity.
Qed.

(** C4, as the code has it: the first loop of a function lowers to a block
    labelled [break$1.1] that holds a loop labelled [continue$1.1], whose
    body is an [if] on the condition, holding the lowered body followed by
    a branch to [continue$1.1]; the label is number.depth of the context
    entered, where entering has bumped the number to 1 and the depth to 1. *)
Theorem compileWhile_first_loop `{Host} (c c1 c2 : Compiler) (id : nat)
  (expression : typescript.Expression) (body : typescript.Statement)
  (bodyIR compiled : binaryen.Expression) (conditionType : reflection.type) :
  currentBreakContextNumber c = 0 ->
  currentBreakContextDepth c = 0 ->
  compileStatement body
    (set_currentBreakContextDepth 1 (set_currentBreakContextNumber 1 c)) = Ok bodyIR c1 ->
  compileExpression expression reflection.intType c1 = Ok compiled c2 ->
  reflectedTypes c2 !! typescript.nodeId expression = Some conditionType ->
  1 <= currentBreakContextDepth c2 ->
  (exists entered,
     enterBreakContext c = Ok (currentBreakLabel entered) entered /\
     currentBreakContextNumber entered = 1 /\
     currentBreakContextDepth entered = 1 /\
     currentBreakLabel entered = "1.1") /\
  exists condition c3 c',
    maybeConvertValue expression compiled conditionType reflection.intType true c2
      = Ok condition c3 /\
    compileStatement (typescript.WhileStatement id expression (Some body)) c
      = Ok (binaryen.Block "break$1.1"
              [binaryen.Loop "continue$1.1"
                 (binaryen.If condition
                    (binaryen.Block "" [bodyIR; binaryen.Break "continue$1.1"]))]) c'.
Proof.
  intros Hnumber Hdepth Ebody Econd Etype Hbalanced.
  split.
  { exists (set_currentBreakContextDepth 1 (set_currentBreakContextNumber 1 c)).
    rewrite (enterBreakContext_first c Hnumber Hdepth). repeat split. }
  destruct (maybeConvertValue_total expression compiled conditionType
              reflection.intType true c2) as (condition & c3 & Econv).
  assert (Hdepth3 : currentBreakContextDepth c3 = currentBreakContextDepth c2).
  { apply (maybeConvertValue_preserves currentBreakContextDepth _ _ _ _ _)
      with (3 := Econv); reflexivity. }
  exists condition, c3. eexists. split; [exact Econv|].
  cbn [compileStatement]. unfold compileWhile.
  unfold bind at 1. rewrite (enterBreakContext_first c Hnumber Hdepth).
  unfold bind at 1. unfold bind at 1. rewrite Ebody. unfold ret at 1.
  unfold bind at 1. rewrite Econd.
  unfold bind at 1. unfold getReflectedType. rewrite Etype.
  unfold bind at 1. rewrite Econv.
  unfold bind at 1. unfold leaveBreakContext.
  unfold bind at 1. unfold gets at 1.
  replace (currentBreakContextDepth c3 <? 1) with false
    by (symmetry; apply Z.ltb_ge; lia).
  reflexivity.
Qed.

Lemma compileWhile_first_loop_witness :
  exists c',
    @compileStatement fixtureHost whileTrue (compilerIn intParameter)
    = Ok (binaryen.Block "break$1.1"
            [binaryen.Loop "continue$1.1"
               (binaryen.If (binaryen.I32Const 1)
                  (binaryen.Block "" [binaryen.Nop; binaryen.Break "continue$1.1"]))]) c'.
Proof.
  pose (c1 := set_currentBreakContextDepth 1
                (set_currentBreakContextNumber 1 (compilerIn intParameter))).
  pose (c2 := set_reflectedTypes (<[2%nat := reflection.boolType]> (reflectedTypes c1)) c1).
  destruct (@compileWhile_first_loop fixtureHost (compilerIn intParameter) c1 c2 1%nat
              (typescript.TrueKeyword 2)
              (typescript.ExternalStatement 3 "ExpressionStatement")
              binaryen.Nop (binaryen.I32Const 1) reflection.boolType)
    as (_ & condition & c3 & c' & Econv & E).
  - reflexivity.
  - reflexivity.
  - reflexivity.
  - reflexivity.
  - reflexivity.
  - vm_compute. discriminate.
  - vm_compute in Econv. injection Econv as <- _. exists c'. exact E.
Defined.

(** C4 fails on the label: at function entry the number and the depth are
    both 0, and the first loop is labelled 1.1, not 1.0. *)
Lemma compileWhile_first_label :
  currentBreakContextNumber (compilerIn intParameter) = 0 /\
  currentBreakContextDepth (compilerIn intParameter) = 0 /\
  returned (@compileStatement fixtureHost whileTrue (compilerIn intParameter))
  = Some (binaryen.Block "break$1.1"
            [binaryen.Loop "continue$1.1"
               (binaryen.If (binaryen.I32Const 1)
                  (binaryen.Block "" [binaryen.Nop; binaryen.Break "continue$1.1"]))]) /\
  returned (@compileStatement fixtureHost whileTrue (compilerIn intParameter))
  <> Some (binaryen.Block "break$1.0"
             [binaryen.Loop "continue$1.0"
                (binaryen.If (binaryen.I32Const 1)
                   (binaryen.Block "" [binaryen.Nop; binaryen.Break "continue$1.0"]))]).
Proof.
  repeat split; try (vm_compute; reflexivity).
  vm_compute. discriminate.
Qed.

(** A function whose body is a nest of two loops followed by a third loop:
    the loops are labelled 1.1, 1.2 and 2.1. *)
Example compileFunctionOrMethod_loop_labels :
  option_map binaryen.funcBody
    (returned (@compileFunctionOrMethod fixtureHost intParameter
                 (Some [nestedWhile; whileTrue]) blankCompiler))
  = Some
      (binaryen.Block ""
         [binaryen.Block "break$1.1"
            [binaryen.Loop "continue$1.1"
               (binaryen.If (binaryen.I32Const 1)
                  (binaryen.Block ""
                     [binaryen.Block "break$1.2"
                        [binaryen.Loop "continue$1.2"
                           (binaryen.If (binaryen.I32Const 1)
                              (binaryen.Block ""
                                 [binaryen.Nop; binaryen.Break "continue$1.2"]))];
                      binaryen.Break "continue$1.1"]))];
          binaryen.Block "break$2.1"
            [binaryen.Loop "continue$2.1"
               (binaryen.If (binaryen.I32Const 1)
                  (binaryen.Block ""
                     [binaryen.Nop; binaryen.Break "continue$2.1"]))]]).
Proof. vm_compute. reflexivity. Qed.

(** Leaving a break context that was never entered is the internal error. *)
Lemma leaveBreakContext_unbalanced (c : Compiler) :
  currentBreakContextDepth c < 1 ->
  leaveBreakContext c = Throw "unbalanced break context".
Proof.
  intros Hdepth. unfold leaveBreakContext. run.
  now replace (currentBreakContextDepth c <? 1) with true
    by (symmetry; apply Z.ltb_lt; exact Hdepth).
Qed.

(** *** Fresh names for shadowing locals *)

Lemma alternativeName_inj (originalName : string) (j k : Z) :
  alternativeName originalName j = alternativeName originalName k -> j = k.
Proof.
  unfold alternativeName. intros E.
  apply String.app_inj in E. apply (String.app_inj ".") in E.
  now apply pretty_Z_inj in E.
Qed.

Lemma append_empty_r (s : string) : s +:+ "" = s.
Proof.
  induction s as [|a s IH]; [reflexivity|].
  change (String a (s +:+ "") = String a s). now rewrite IH.
Qed.

Lemma alternativeName_neq_original (originalName : string) (k : Z) :
  alternativeName originalName k <> originalName.
Proof.
  unfold alternativeName. intros E.
  rewrite <- (append_empty_r originalName) in E at 2.
  apply String.app_inj in E. discriminate.
Qed.

(** Own entries and what a dictionary inherits. *)
Lemma lookup_undefined (key : string) :
  (js.undefined : js.Dictionary) !! key = None.
Proof. reflexivity. Qed.

Lemma lookup_object (entries : gmap string reflection.variable)
  (prototype : js.Prototype) (key : string) :
  js.object entries prototype !! key = entries !! key.
Proof. reflexivity. Qed.

Lemma alternativeName_dotted (originalName : string) (k : Z) :
  hasChar "."%char (alternativeName originalName k) = true.
Proof.
  unfold alternativeName.
  change (originalName +:+ "." +:+ pretty k)
    with (originalName +:+ String "."%char (pretty k)).
  apply hasChar_append.
Qed.

(** No name with a dot is inherited. *)
Lemma ofObjectPrototype_dotted (key : string) :
  hasChar "."%char key = true -> js.ofObjectPrototype key = js.absent.
Proof.
  intros Hdot. unfold js.ofObjectPrototype.
  destruct (existsb (String.eqb key) js.objectPrototypeNames) eqn:E; [|reflexivity].
  apply existsb_exists in E as (x & Hin & Heq).
  apply String.eqb_eq in Heq. subst x. unfold js.objectPrototypeNames in Hin.
  simpl in Hin.
  repeat (destruct Hin as [<- | Hin]; [vm_compute in Hdot; discriminate|]).
  destruct Hin.
Qed.

Lemma inherited_dotted (prototype : js.Prototype) (key : string) :
  hasChar "."%char key = true -> js.inherited prototype key = js.absent.
Proof.
  intros Hdot. destruct prototype as [|v]; simpl.
  - now apply ofObjectPrototype_dotted.
  - repeat match goal with
           | |- context [String.eqb key ?lit] =>
             destruct (String.eqb key lit) eqn:E;
               [apply String.eqb_eq in E; subst key; vm_compute in Hdot; discriminate
               |clear E]
           end.
    now apply ofObjectPrototype_dotted.
Qed.

Lemma truthy_read_dotted (entries : gmap string reflection.variable)
  (prototype : js.Prototype) (key : string) :
  hasChar "."%char key = true ->
  js.truthy (js.read entries prototype key) = true <-> is_Some (entries !! key).
Proof.
  intros Hdot. unfold js.read.
  destruct (entries !! key) as [v|]; simpl.
  - split; eauto.
  - rewrite inherited_dotted by exact Hdot. simpl. split; [discriminate|].
    intros [v Hv]. discriminate.
Qed.

(** Under a name that reads as falsy, an assignment makes an own entry and
    keeps the others. *)
Lemma falsy_not_proto (entries : gmap string reflection.variable)
  (prototype : js.Prototype) (key : string) :
  js.truthy (js.read entries prototype key) = false ->
  String.eqb key "__proto__" = false.
Proof.
  intros Hfalsy. destruct (String.eqb key "__proto__") eqn:E; [|reflexivity].
  apply String.eqb_eq in E. subst key. unfold js.read in Hfalsy.
  destruct (entries !! "__proto__"); [discriminate|].
  destruct prototype; discriminate.
Qed.

(** What the loop answers: a name that reads as falsy, which is the name it
    started from or the first such alternative from [alternative] on. *)
Lemma uniqueLocalName_spec (fuel : nat) (entries : gmap string reflection.variable)
  (prototype : js.Prototype) (originalName name : string) (alternative : Z)
  (result : string) :
  uniqueLocalName fuel entries prototype originalName name alternative = Some result ->
  js.truthy (js.read entries prototype result) = false /\
  (result = name /\ js.truthy (js.read entries prototype name) = false \/
   js.truthy (js.read entries prototype name) = true /\
   exists k, alternative <= k /\ result = alternativeName originalName k /\
             forall j, alternative <= j < k ->
                       js.truthy (js.read entries prototype
                                    (alternativeName originalName j)) = true).
Proof.
  revert name alternative.
  induction fuel as [|fuel IH]; intros name alternative; simpl;
    destruct (js.truthy (js.read entries prototype name)) eqn:Ename; try discriminate.
  - intros [= <-]. auto.
  - intros E. apply IH in E as [Hfree Hcases]. split; [exact Hfree|].
    right. split; [reflexivity|].
    destruct Hcases as [[-> _]|[Htaken (k & Hk & -> & Hbelow)]].
    + exists alternative. split; [lia|]. split; [reflexivity|]. intros j Hj. lia.
    + exists k. split; [lia|]. split; [reflexivity|].
      intros j Hj. destruct (Z.eq_dec j alternative) as [->|Hne].
      * exact Htaken.
      * apply Hbelow. lia.
  - intros [= <-]. auto.
Qed.

(** The loop ends: every turn uses up one name of [used]. *)
Lemma uniqueLocalName_total (fuel : nat) (entries : gmap string reflection.variable)
  (prototype : js.Prototype) (originalName : string) (used : gset string)
  (name : string) (alternative : Z) :
  (size used <= fuel)%nat ->
  (js.truthy (js.read entries prototype name) = true -> name ∈ used) ->
  (forall j, alternative <= j ->
             js.truthy (js.read entries prototype (alternativeName originalName j)) = true ->
             alternativeName originalName j ∈ used) ->
  (forall j, alternative <= j -> alternativeName originalName j <> name) ->
  is_Some (uniqueLocalName fuel entries prototype originalName name alternative).
Proof.
  revert used name alternative.
  induction fuel as [|fuel IH]; intros used name alternative Hsize Hname Hrest Hfresh;
    simpl; destruct (js.truthy (js.read entries prototype name)) eqn:Ename; eauto.
  - assert (Hin : name ∈ used) by eauto.
    assert (used ≡ ∅) as Hempty by (apply size_empty_inv; lia).
    set_solver.
  - assert (Hin : name ∈ used) by eauto.
    apply (IH (used ∖ {[name]})).
    + rewrite size_difference by set_solver.
      rewrite size_singleton.
      assert (size used <> 0%nat).
      { intros Hz. apply size_empty_inv in Hz. set_solver. }
      lia.
    + intros Htaken. apply elem_of_difference. split.
      * apply Hrest; [lia | exact Htaken].
      * apply not_elem_of_singleton. apply Hfresh. lia.
    + intros j Hj Htaken. apply elem_of_difference. split.
      * apply Hrest; [lia | exact Htaken].
      * apply not_elem_of_singleton. apply Hfresh. lia.
    + intros j Hj E. apply alternativeName_inj in E. lia.
Qed.

(** The fuel that [onVariable] gives the loop is enough: past the first
    turn every name tried has a dot, and is taken by an own entry or free. *)
Lemma uniqueLocalName_enough (entries : gmap string reflection.variable)
  (prototype : js.Prototype) (originalName : string) :
  is_Some (uniqueLocalName (S (size entries)) entries prototype
             originalName originalName 1).
Proof.
  cbn [uniqueLocalName].
  destruct (js.truthy (js.read entries prototype originalName)); [|eauto].
  change (originalName +:+ "." +:+ pretty 1) with (alternativeName originalName 1).
  apply (uniqueLocalName_total _ _ _ _ (dom entries)).
  - now rewrite size_dom.
  - intros Htaken. apply elem_of_dom.
    apply (truthy_read_dotted entries prototype); [apply alternativeName_dotted|].
    exact Htaken.
  - intros j _ Htaken. apply elem_of_dom.
    apply (truthy_read_dotted entries prototype); [apply alternativeName_dotted|].
    exact Htaken.
  - intros j Hj E. apply alternativeName_inj in E. lia.
Qed.

(** What [onVariable] does once the loop has answered. *)
Lemma onVariable_run (originalName name : string) (type : reflection.type)
  (c : Compiler) (entries : gmap string reflection.variable)
  (prototype : js.Prototype) :
  currentLocals c = js.object entries prototype ->
  uniqueLocalName (S (size entries)) entries prototype originalName originalName 1
    = Some name ->
  onVariable originalName type c =
  Ok (localIndex c)
     (set_localIndex (localIndex c + 1)
        (set_additionalLocals
           (additionalLocals c ++ [binaryen.typeOf type (uintptrSize c)])
           (set_currentLocals
              (<[name := reflection.mkVariable name type
                           reflection.VariableFlags.none (localIndex c)]>
                 (currentLocals c)) c))).
Proof.
  intros Elocals Ename. unfold onVariable.
  unfold bind at 1. unfold gets at 1. rewrite Elocals, Ename. reflexivity.
Qed.

(** C6, as the code has it: a local that shadows an existing one is
    registered under the first unused name among [name.1], [name.2], ...
    and takes the next slot, which [onVariable] returns. *)
Theorem onVariable_shadowed (originalName : string) (type : reflection.type)
  (c : Compiler) :
  is_Some (currentLocals c !! originalName) ->
  exists k c',
    1 <= k /\
    (forall j, 1 <= j < k ->
               is_Some (currentLocals c !! alternativeName originalName j)) /\
    currentLocals c !! alternativeName originalName k = None /\
    onVariable originalName type c = Ok (localIndex c) c' /\
    currentLocals c' =
      <[alternativeName originalName k :=
          reflection.mkVariable (alternativeName originalName k) type
            reflection.VariableFlags.none (localIndex c)]> (currentLocals c) /\
    localIndex c' = localIndex c + 1 /\
    additionalLocals c' =
      (additionalLocals c ++ [binaryen.typeOf type (uintptrSize c)])%list.
Proof.
  intros Hshadowed.
  destruct (currentLocals c) as [|entries prototype] eqn:Elocals.
  { rewrite lookup_undefined in Hshadowed. now destruct Hshadowed. }
  rewrite lookup_object in Hshadowed.
  destruct (uniqueLocalName_enough entries prototype originalName) as [name Ename].
  destruct (uniqueLocalName_spec _ _ _ _ _ _ _ Ename) as [Hfree Hcases].
  destruct Hcases as [[_ Hfalsy]|[_ (k & Hk & -> & Hbelow)]].
  { unfold js.read in Hfalsy. destruct Hshadowed as [v Hv].
    rewrite Hv in Hfalsy. discriminate. }
  exists k. eexists. split; [exact Hk|]. split; [|split].
  - intros j Hj. rewrite lookup_object.
    apply (truthy_read_dotted entries prototype); [apply alternativeName_dotted|].
    now apply Hbelow.
  - rewrite lookup_object.
    destruct (entries !! alternativeName originalName k) as [v|] eqn:Eown;
      [|reflexivity].
    unfold js.read in Hfree. rewrite Eown in Hfree. discriminate.
  - rewrite (onVariable_run _ _ type c entries prototype Elocals Ename).
    rewrite Elocals. repeat split; reflexivity.
Qed.

Lemma onVariable_shadowed_witness :
  exists k c',
    1 <= k /\
    (forall j, 1 <= j < k ->
               is_Some (currentLocals (compilerIn intParameter) !! alternativeName "x" j)) /\
    currentLocals (compilerIn intParameter) !! alternativeName "x" k = None /\
    onVariable "x" reflection.intType (compilerIn intParameter)
      = Ok (localIndex (compilerIn intParameter)) c' /\
    currentLocals c' =
      <[alternativeName "x" k :=
          reflection.mkVariable (alternativeName "x" k) reflection.intType
            reflection.VariableFlags.none (localIndex (compilerIn intParameter))]>
        (currentLocals (compilerIn intParameter)) /\
    localIndex c' = localIndex (compilerIn intParameter) + 1 /\
    additionalLocals c' =
      (additionalLocals (compilerIn intParameter) ++
       [binaryen.typeOf reflection.intType (uintptrSize (compilerIn intParameter))])%list.
Proof.
  apply (onVariable_shadowed "x" reflection.intType (compilerIn intParameter)).
  vm_compute. eauto.
Defined.

(** C6 fails on the suffix: in [function g(x: int)], a second [x] is
    registered as [x.1], in slot 1, and there is no [x.2]. *)
Lemma onVariable_first_alternative :
  is_Some (currentLocals (compilerIn intParameter) !! "x") /\
  returned (onVariable "x" reflection.intType (compilerIn intParameter)) = Some 1 /\
  option_map (fun c => (currentLocals c !! "x.1", currentLocals c !! "x.2"))
    (finalState (onVariable "x" reflection.intType (compilerIn intParameter)))
  = Some (Some (reflection.mkVariable "x.1" reflection.intType
                  reflection.VariableFlags.none 1), None).
Proof.
  split; [vm_compute; eauto|]. split; vm_compute; reflexivity.
Qed.

(** * Further properties *)

(** ** Conversions *)

Lemma returnsValue_ret {A : Type} (a : A) : returnsValue a (ret a).
Proof. intros c. now exists c. Qed.

Lemma returnsValue_bind {A B : Type} (b : B) (m : M A) (k : A -> M B) :
  total m -> (forall a, returnsValue b (k a)) -> returnsValue b (bind m k).
Proof.
  intros Hm Hk c. destruct (Hm c) as (a & c1 & E).
  destruct (Hk a c1) as (c2 & E2). exists c2. unfold bind. now rewrite E.
Qed.

Ltac total_all := repeat first [ total_step | unfold illegalImplicitConversion ].

(** One step of a proof that a method returns the value of its pure
    reading: binds of effects are skipped, tests are decided alike. *)
Ltac value_step :=
  lazymatch goal with
  | |- returnsValue _ (bind _ _) =>
    apply returnsValue_bind; [solve [total_all] | intros ?]
  | |- returnsValue (if ?b then _ else _) (if ?b then _ else _) => destruct b
  | |- returnsValue _ (ret _) => apply returnsValue_ret
  end.

Lemma intToOtherInt_value node expr fromType toType explicit :
  returnsValue (intToOtherIntExpression expr fromType toType)
    (intToOtherInt node expr fromType toType explicit).
Proof.
  unfold intToOtherIntExpression, intToOtherInt. repeat value_step.
Qed.

Ltac value_all := repeat first [ apply intToOtherInt_value | value_step ].

Lemma truncated_conversion_value (n : nat) node expr toType explicit :
  returnsValue (truncatedConversionExpression expr toType)
    (maybeConvertValue_rec (S n) node expr reflection.intType toType explicit).
Proof.
  cbn [maybeConvertValue_rec]. unfold truncatedConversionExpression.
  value_step; [value_all|].
  do 3 value_step.
  change (reflection.type_eqb reflection.intType reflection.floatType) with false.
  change (reflection.type_eqb reflection.intType reflection.doubleType) with false.
  cbv iota. unfold integerConversionExpression.
  value_all.
Qed.

Lemma conversion_value (n : nat) node expr fromType toType explicit :
  returnsValue (conversionExpression expr fromType toType)
    (maybeConvertValue_rec (S (S n)) node expr fromType toType explicit).
Proof.
  remember (S n) as m eqn:Em.
  cbn [maybeConvertValue_rec]. subst m.
  unfold conversionExpression, integerConversionExpression.
  repeat first [ apply truncated_conversion_value
               | apply intToOtherInt_value
               | value_step ].
Qed.

(** X1: a conversion always returns, and the expression it returns is the
    same whatever the [explicit] flag and the state of the compiler: the
    flag and the state bear on the diagnostics only. *)
Theorem maybeConvertValue_expression_determined (node : typescript.Expression)
  (expr : binaryen.Expression) (fromType toType : reflection.type)
  (explicit1 explicit2 : bool) (c1 c2 : Compiler) :
  exists converted,
    returned (maybeConvertValue node expr fromType toType explicit1 c1) = Some converted /\
    returned (maybeConvertValue node expr fromType toType explicit2 c2) = Some converted.
Proof.
  exists (conversionExpression expr fromType toType).
  destruct (conversion_value 0 node expr fromType toType explicit1 c1) as (c1' & E1).
  destruct (conversion_value 0 node expr fromType toType explicit2 c2) as (c2' & E2).
  unfold maybeConvertValue. now rewrite E1, E2.
Qed.

Lemma bind_ret_l {A B : Type} (a : A) (k : A -> M B) : bind (ret a) k = k a.
Proof. reflexivity. Qed.

(** An explicit conversion leaves alone whatever the annotations of the
    nodes do not bear on. *)
Lemma intToOtherInt_explicit_preserves {X : Type} (f : Compiler -> X)
  node expr fromType toType :
  preserves f (intToOtherInt node expr fromType toType true).
Proof.
  unfold intToOtherInt. cbn [unlessExplicit negb]. rewrite bind_ret_l.
  repeat preserves_step.
Qed.

Lemma maybeConvertValue_rec_explicit_preserves {X : Type} (f : Compiler -> X)
  (n : nat) node expr fromType toType :
  (forall v c, f (set_reflectedTypes v c) = f c) ->
  preserves f (maybeConvertValue_rec n node expr fromType toType true).
Proof.
  intros Hreflected. revert node expr fromType toType.
  induction n as [|n IH]; intros node expr fromType toType.
  - apply preserves_throw.
  - cbn [maybeConvertValue_rec unlessExplicit negb andb when].
    rewrite ?bind_ret_l.
    repeat first [ apply IH
                 | apply intToOtherInt_explicit_preserves
                 | preserves_step ].
Qed.

(** X2: an explicit conversion returns without adding a diagnostic, be it
    a warning or an error. *)
Theorem maybeConvertValue_explicit_silent (node : typescript.Expression)
  (expr : binaryen.Expression) (fromType toType : reflection.type) (c : Compiler) :
  option_map diagnostics
    (finalState (maybeConvertValue node expr fromType toType true c))
  = Some (diagnostics c).
Proof.
  destruct (maybeConvertValue_total node expr fromType toType true c) as (e & c' & E).
  rewrite E. simpl. f_equal.
  apply (maybeConvertValue_rec_explicit_preserves diagnostics 2 node expr
           fromType toType (fun _ _ => eq_refl) c e c' E).
Qed.

Lemma errorCount_warning (c : Compiler) node message arg1 :
  errorCount
    (set_diagnostics
       (diagnostics c ++ [typescript.mkDiagnostic typescript.Warning node message arg1]) c)
  = errorCount c.
Proof.
  unfold errorCount. cbn [diagnostics set_diagnostics].
  rewrite List.filter_app, length_app. simpl. lia.
Qed.

Lemma errorCount_error (c : Compiler) node message arg1 :
  errorCount
    (set_diagnostics
       (diagnostics c ++ [typescript.mkDiagnostic typescript.Error node message arg1]) c)
  = S (errorCount c).
Proof.
  unfold errorCount. cbn [diagnostics set_diagnostics].
  rewrite List.filter_app, length_app. simpl. lia.
Qed.

Lemma warn_quiet node message arg1 : preserves errorCount (warn node message arg1).
Proof. intros c a c' [= _ <-]. apply errorCount_warning. Qed.

Lemma reports_of_quiet {A : Type} (m : M A) :
  preserves errorCount m -> reportsAtMostOne m.
Proof. intros Hm c a c' E. rewrite (Hm _ _ _ E). lia. Qed.

Lemma reports_bind_quiet {A B : Type} (m : M A) (k : A -> M B) :
  preserves errorCount m -> (forall a, reportsAtMostOne (k a)) ->
  reportsAtMostOne (bind m k).
Proof.
  intros Hm Hk c b c'. unfold bind.
  destruct (m c) as [a c1|] eqn:E; [|discriminate].
  intros E2. rewrite <- (Hm _ _ _ E). exact (Hk a _ _ _ E2).
Qed.

(** Once the error is reported the flag is true, and nothing more is. *)
Lemma reports_bind_illegal {B : Type} node fromType toType (k : bool -> M B) :
  preserves errorCount (k true) ->
  reportsAtMostOne (bind (illegalImplicitConversion node fromType toType) k).
Proof.
  intros Hk c b c'. unfold illegalImplicitConversion, error, bind, modify, ret.
  intros E. rewrite (Hk _ _ _ E). now rewrite errorCount_error.
Qed.

Ltac quiet_all IH :=
  repeat first [ apply IH; solve [auto]
               | apply maybeConvertValue_rec_explicit_preserves; solve [auto]
               | apply intToOtherInt_explicit_preserves
               | apply warn_quiet
               | preserves_step ].

Ltac reports_step IH :=
  lazymatch goal with
  | |- reportsAtMostOne (bind (illegalImplicitConversion _ _ _) _) =>
    apply reports_bind_illegal; cbv beta; solve [quiet_all IH]
  | |- reportsAtMostOne (bind (if ?b then _ else _) _) => destruct b
  | |- reportsAtMostOne (bind (ret _) _) => rewrite bind_ret_l
  | |- reportsAtMostOne (bind _ _) =>
    apply reports_bind_quiet; [solve [quiet_all IH] | intros ?]
  | |- reportsAtMostOne (if ?b then _ else _) => destruct b
  | |- reportsAtMostOne (ret _) => apply reports_of_quiet, preserves_ret
  | |- reportsAtMostOne (throw _) => apply reports_of_quiet, preserves_throw
  end.

Lemma intToOtherInt_reports node expr fromType toType explicit :
  reportsAtMostOne (intToOtherInt node expr fromType toType explicit).
Proof.
  destruct explicit.
  - apply reports_of_quiet, intToOtherInt_explicit_preserves.
  - unfold intToOtherInt. cbn [unlessExplicit negb].
    repeat reports_step idtac.
Qed.

Lemma maybeConvertValue_rec_reports (n : nat) node expr fromType toType explicit :
  reportsAtMostOne (maybeConvertValue_rec n node expr fromType toType explicit).
Proof.
  revert node expr fromType toType explicit.
  induction n as [|n IH]; intros node expr fromType toType explicit.
  - apply reports_of_quiet, preserves_throw.
  - destruct explicit.
    + apply reports_of_quiet, maybeConvertValue_rec_explicit_preserves. auto.
    + cbn [maybeConvertValue_rec unlessExplicit negb andb when].
      repeat first [ apply IH
                   | apply intToOtherInt_reports
                   | reports_step idtac ].
Qed.

(** X3: a conversion reports at most one error, also when it converts a
    truncated float a second time. *)
Theorem maybeConvertValue_one_error (node : typescript.Expression)
  (expr : binaryen.Expression) (fromType toType : reflection.type)
  (explicit : bool) (c : Compiler) :
  exists converted c',
    maybeConvertValue node expr fromType toType explicit c = Ok converted c' /\
    (errorCount c' <= S (errorCount c))%nat.
Proof.
  destruct (maybeConvertValue_total node expr fromType toType explicit c)
    as (e & c' & E).
  exists e, c'. split; [exact E|].
  exact (maybeConvertValue_rec_reports 2 node expr fromType toType explicit c e c' E).
Qed.

Lemma hoare_ret {A : Type} (P : Compiler -> Prop) (a : A) : hoare P P (ret a).
Proof. now intros c a' c' HP [= _ <-]. Qed.

Lemma hoare_bind {A B : Type} (P Q R : Compiler -> Prop) (m : M A) (k : A -> M B) :
  hoare P Q m -> (forall a, hoare Q R (k a)) -> hoare P R (bind m k).
Proof.
  intros Hm Hk c b c' HP. unfold bind.
  destruct (m c) as [a c1|] eqn:E; [|discriminate].
  intros E2. exact (Hk a _ _ _ (Hm _ _ _ HP E) E2).
Qed.

Lemma hoare_gets {A : Type} (P : Compiler -> Prop) (g : Compiler -> A) :
  hoare P P (gets g).
Proof. now intros c a c' HP [= _ <-]. Qed.

Lemma hoare_modify (P Q : Compiler -> Prop) (g : Compiler -> Compiler) :
  (forall c, P c -> Q (g c)) -> hoare P Q (modify g).
Proof. intros Hg c a c' HP [= _ <-]. now apply Hg. Qed.

Lemma hoare_when (P : Compiler -> Prop) (b : bool) (m : M unit) :
  hoare P P m -> hoare P P (when b m).
Proof. destruct b; simpl; [trivial | intros _; apply hoare_ret]. Qed.

Lemma hoare_throw {A : Type} (P Q : Compiler -> Prop) message :
  hoare P Q (@throw A message).
Proof. intros c a c' _ E. discriminate. Qed.

(** One step of a proof that a method keeps an invariant; what a [modify]
    does to it is left to [auto]. *)
Ltac hoare_step :=
  lazymatch goal with
  | |- hoare ?P _ (bind _ _) => apply (hoare_bind P P); [| intros ?]
  | |- hoare _ _ (when _ _) => apply hoare_when
  | |- hoare _ _ (if ?b then _ else _) => destruct b
  | |- hoare _ _ (ret _) => apply hoare_ret
  | |- hoare _ _ (gets _) => apply hoare_gets
  | |- hoare _ _ (throw _) => apply hoare_throw
  | |- hoare _ _ (modify _) => apply hoare_modify; intros; solve [auto]
  | |- hoare _ _ (error _ _ _) => unfold error
  | |- hoare _ _ (warn _ _ _) => unfold warn
  | |- hoare _ _ (unlessExplicit _ _ _ _) => unfold unlessExplicit
  | |- hoare _ _ (illegalImplicitConversion _ _ _) =>
    unfold illegalImplicitConversion
  | |- hoare _ _ (intToOtherInt _ _ _ _ _) => unfold intToOtherInt
  end.

Lemma setReflectedType_annotates (P : Compiler -> Prop) node t :
  hoare P (fun c => reflectedTypes c !! node = Some t) (setReflectedType node t).
Proof.
  apply hoare_modify. intros c _. cbn [reflectedTypes set_reflectedTypes].
  apply lookup_insert_eq.
Qed.

(** Once a node is annotated with the target type, the rest of the
    conversion leaves it so. *)
Lemma maybeConvertValue_rec_keeps_annotation (n : nat) node expr fromType toType explicit :
  hoare (fun c => reflectedTypes c !! typescript.nodeId node = Some toType)
        (fun c => reflectedTypes c !! typescript.nodeId node = Some toType)
        (maybeConvertValue_rec n node expr fromType toType explicit).
Proof.
  revert expr fromType explicit.
  induction n as [|n IH]; intros expr fromType explicit.
  - apply hoare_throw.
  - cbn [maybeConvertValue_rec].
    repeat first [ apply IH
                 | apply setReflectedType_annotates
                 | hoare_step ].
Qed.

Lemma maybeConvertValue_annotates (node : typescript.Expression)
  (expr converted : binaryen.Expression) (fromType toType : reflection.type)
  (explicit : bool) (c c' : Compiler) :
  reflection.kind fromType <> reflection.kind toType ->
  maybeConvertValue node expr fromType toType explicit c = Ok converted c' ->
  reflectedTypes c' !! typescript.nodeId node = Some toType.
Proof.
  intros Hk. apply TypeKind_eqb_neq in Hk.
  unfold maybeConvertValue. cbn [maybeConvertValue_rec]. rewrite Hk.
  match goal with
  | |- ?m c = Ok _ _ -> _ =>
    assert (H : hoare (fun _ => True)
                  (fun c => reflectedTypes c !! typescript.nodeId node = Some toType) m)
  end.
  { apply (hoare_bind _ (fun _ => True)); [apply hoare_gets|]. intros ptr.
    apply (hoare_bind _ (fun _ => True)); [repeat hoare_step|]. intros _.
    eapply hoare_bind; [apply setReflectedType_annotates|]. intros _.
    repeat first [ apply maybeConvertValue_rec_keeps_annotation
                 | apply setReflectedType_annotates
                 | hoare_step ]. }
  intros E. exact (H c converted c' I E).
Qed.

(** X4: a conversion between types of different kinds changes nothing of
    the compiler but the diagnostics and the annotations of the nodes, and
    leaves the converted node annotated with the target type. *)
Theorem maybeConvertValue_frame (node : typescript.Expression)
  (expr : binaryen.Expression) (fromType toType : reflection.type)
  (explicit : bool) (c : Compiler) :
  reflection.kind fromType <> reflection.kind toType ->
  exists converted reported annotated,
    maybeConvertValue node expr fromType toType explicit c =
      Ok converted (set_reflectedTypes annotated (set_diagnostics reported c)) /\
    annotated !! typescript.nodeId node = Some toType.
Proof.
  intros Hk.
  destruct (maybeConvertValue_total node expr fromType toType explicit c)
    as (e & c' & E).
  exists e, (diagnostics c'), (reflectedTypes c').
  split; [|exact (maybeConvertValue_annotates _ _ _ _ _ _ _ _ Hk E)].
  rewrite E. f_equal.
  pose proof (maybeConvertValue_preserves
                (fun c => (options c, program c, entryFile c, libraryFile c, module c,
                           signatures c, globalInitializers c, userStartFunction c,
                           currentLocals c, currentBreakContextNumber c,
                           currentBreakContextDepth c, uintptrType c, globals c,
                           localIndex c, additionalLocals c))
                node expr fromType toType explicit
                (fun _ _ => eq_refl) (fun _ _ => eq_refl) c e c' E) as Hframe.
  destruct c, c'. cbn in Hframe |- *. now inversion Hframe.
Qed.

Lemma maybeConvertValue_frame_witness :
  exists converted reported annotated,
    maybeConvertValue (typescript.TrueKeyword 1) (op.i32.const 1)
      reflection.floatType reflection.intType false blankCompiler =
      Ok converted (set_reflectedTypes annotated (set_diagnostics reported blankCompiler)) /\
    annotated !! 1%nat = Some reflection.intType.
Proof.
  apply (maybeConvertValue_frame (typescript.TrueKeyword 1) (op.i32.const 1)
           reflection.floatType reflection.intType false blankCompiler).
  discriminate.
Defined.

Lemma narrow_facts (t : reflection.type) :
  narrowerThan32 t = true ->
  TypeKind.eqb (reflection.kind t) TypeKind.uintptr = false /\
  reflection.isInt t = false /\ reflection.isLong t = false /\
  reflection.type_eqb t reflection.floatType = false /\
  reflection.type_eqb t reflection.doubleType = false.
Proof.
  unfold narrowerThan32, reflection.isInt, reflection.isLong. intros H.
  repeat split; try (destruct (reflection.kind t); simpl; congruence);
    apply type_eqb_kind; intros E; rewrite E in H; discriminate.
Qed.

Lemma family_facts (t : reflection.type) :
  int32Family t = true ->
  reflection.isLong t = false /\
  reflection.type_eqb t reflection.floatType = false /\
  reflection.type_eqb t reflection.doubleType = false.
Proof.
  unfold int32Family, reflection.isLong. intros H.
  repeat split; try (apply type_eqb_kind; intros E; rewrite E in H; discriminate).
  destruct (reflection.kind t); try congruence.
  apply Z.eqb_eq in H. rewrite H. reflexivity.
Qed.

(** From a type narrower than 32 bits to a wider type of the 32-bit family
    the conversion is the identity and says nothing. *)
Lemma widening_returns (node : typescript.Expression) (expr : binaryen.Expression)
  (fromType toType : reflection.type) (explicit : bool) (c : Compiler) :
  reflection.kind fromType <> reflection.kind toType ->
  narrowerThan32 fromType = true ->
  int32Family toType = true ->
  reflection.size fromType < reflection.size toType ->
  maybeConvertValue node expr fromType toType explicit c =
  Ok expr (set_reflectedTypes
             (<[typescript.nodeId node := toType]> (reflectedTypes c)) c).
Proof.
  intros Hk Hfrom Hto Hsize.
  destruct (narrow_facts _ Hfrom) as (Hfu & Hfi & Hfl & Hff & Hfd).
  destruct (family_facts _ Hto) as (Htl & Htf & Htd).
  unfold maybeConvertValue. simpl.
  apply TypeKind_eqb_neq in Hk. rewrite Hk.
  unfold bind at 1. unfold gets at 1. unfold bind at 1.
  rewrite Hfu, Hfl, !andb_false_r. cbn [andb].
  replace (when (negb explicit) _ c) with (Ok tt c) by (destruct explicit; reflexivity).
  unfold bind at 1. unfold setReflectedType at 1. unfold modify at 1.
  rewrite Hff, Hfd, Htf, Htd, Hfi. cbn [andb].
  unfold intToOtherInt.
  replace (reflection.size fromType <? reflection.size toType) with true
    by (symmetry; apply Z.ltb_lt; exact Hsize).
  reflexivity.
Qed.

(** X5: widening inside the 32-bit integer family is silent and free: from
    a type narrower than 32 bits to a wider one the conversion returns the
    expression it was given, implicit or not, and only annotates the node. *)
Theorem maybeConvertValue_widening_identity (node : typescript.Expression)
  (expr : binaryen.Expression) (fromType toType : reflection.type)
  (explicit : bool) (c : Compiler) :
  reflection.kind fromType <> reflection.kind toType ->
  narrowerThan32 fromType = true ->
  int32Family toType = true ->
  reflection.size fromType < reflection.size toType ->
  maybeConvertValue node expr fromType toType explicit c =
  Ok expr (set_reflectedTypes
             (<[typescript.nodeId node := toType]> (reflectedTypes c)) c).
Proof. apply widening_returns. Qed.

Lemma maybeConvertValue_widening_identity_witness :
  maybeConvertValue (typescript.TrueKeyword 1) (op.i32.const 1)
    reflection.sbyteType reflection.intType false blankCompiler =
  Ok (op.i32.const 1)
     (set_reflectedTypes (<[1%nat := reflection.intType]> (reflectedTypes blankCompiler))
        blankCompiler).
Proof.
  apply (maybeConvertValue_widening_identity (typescript.TrueKeyword 1) (op.i32.const 1)
           reflection.sbyteType reflection.intType false blankCompiler);
    [discriminate | reflexivity | reflexivity | simpl; lia].
Defined.

(** X6: an implicit narrowing inside the 32-bit integer family reports
    exactly one error, "Illegal implicit conversion" at the converted node,
    and no warning. *)
Theorem maybeConvertValue_implicit_narrowing (node : typescript.Expression)
  (expr : binaryen.Expression) (fromType toType : reflection.type) (c : Compiler) :
  reflection.kind fromType <> reflection.kind toType ->
  int32Family fromType = true ->
  narrowerThan32 toType = true ->
  reflection.size toType <= reflection.size fromType ->
  exists converted,
    maybeConvertValue node expr fromType toType false c =
    Ok converted
       (set_diagnostics
          (diagnostics c ++
           [typescript.mkDiagnostic typescript.Error (typescript.nodeId node)
              "Illegal implicit conversion"
              (Some ("'" +:+ reflection.toString fromType +:+ "' to '" +:+
                     reflection.toString toType +:+ "'"))])
          (set_reflectedTypes
             (<[typescript.nodeId node := toType]> (reflectedTypes c)) c)).
Proof.
  intros Hk Hfrom Hto Hsize.
  destruct (narrow_facts _ Hto) as (Htu & Hti & Htl & Htf & Htd).
  destruct (family_facts _ Hfrom) as (Hfl & Hff & Hfd).
  unfold maybeConvertValue. simpl.
  apply TypeKind_eqb_neq in Hk. rewrite Hk.
  unfold bind at 1. unfold gets at 1. unfold bind at 1.
  rewrite Hti, Htu, !andb_false_r.
  change (when (negb false) _ c) with (Ok tt c).
  unfold bind at 1. unfold setReflectedType at 1. unfold modify at 1.
  rewrite Hff, Hfd, Htf, Htd, ?Htl, ?Hfl, ?andb_false_r. cbn [andb].
  unfold intToOtherInt. rewrite Hti, orb_false_r.
  replace (reflection.size fromType <? reflection.size toType) with false
    by (symmetry; apply Z.ltb_ge; exact Hsize).
  run. destruct (reflection.isSigned toType); eexists; reflexivity.
Qed.

Lemma maybeConvertValue_implicit_narrowing_witness :
  exists converted,
    maybeConvertValue (typescript.TrueKeyword 1) (op.i32.const 1)
      reflection.intType reflection.byteType false blankCompiler =
    Ok converted
       (set_diagnostics
          (diagnostics blankCompiler ++
           [typescript.mkDiagnostic typescript.Error 1%nat
              "Illegal implicit conversion" (Some "'int' to 'byte'")])
          (set_reflectedTypes
             (<[1%nat := reflection.byteType]> (reflectedTypes blankCompiler))
             blankCompiler)).
Proof.
  apply (maybeConvertValue_implicit_narrowing (typescript.TrueKeyword 1)
           (op.i32.const 1) reflection.intType reflection.byteType blankCompiler);
    [discriminate | reflexivity | reflexivity | simpl; lia].
Defined.

Lemma unsigned_mask_value (t : reflection.type) (x : Z) :
  unsignedNarrow t -> representable t x ->
  reflection.isSigned t = false /\ reflection.isInt t = false /\
  narrowerThan32 t = true /\
  Z.land (wrap32 x) (wrap32 (reflection.mask32 t)) = x.
Proof.
  intros [-> | [-> | ->]] Hx; unfold representable in Hx; cbn in Hx;
    (repeat split; [reflexivity..|]);
    rewrite wrap32_small by lia.
  - change (wrap32 (reflection.mask32 reflection.byteType)) with (Z.ones 8).
    rewrite Z.land_ones by lia. apply Z.mod_small. lia.
  - change (wrap32 (reflection.mask32 reflection.ushortType)) with (Z.ones 16).
    rewrite Z.land_ones by lia. apply Z.mod_small. lia.
  - change (wrap32 (reflection.mask32 reflection.boolType)) with (Z.ones 1).
    rewrite Z.land_ones by lia. apply Z.mod_small. lia.
Qed.

(** X7: the unsigned types round-trip: a value of byte, ushort or bool,
    widened to a wider type of the 32-bit integer family and narrowed back,
    keeps its value, the narrowing being a mask. *)
Theorem roundTrip_unsigned (node : typescript.Expression) (A B : reflection.type)
  (x : Z) (explicit : bool) (c : Compiler) :
  unsignedNarrow A ->
  int32Family B = true ->
  reflection.kind A <> reflection.kind B ->
  reflection.size A < reflection.size B ->
  representable A x ->
  resultValue (roundTrip node (op.i32.const x) A B explicit c) = Some x.
Proof.
  intros HA HB Hk Hsize Hx.
  destruct (unsigned_mask_value A x HA Hx) as (Hsigned & Hint & Hnarrow & Hvalue).
  unfold roundTrip. unfold bind at 1.
  rewrite (widening_returns node _ A B explicit c Hk Hnarrow HB Hsize).
  destruct (narrow_facts _ Hnarrow) as (Htu & _ & Htl & Htf & Htd).
  destruct (family_facts _ HB) as (Hfl & Hff & Hfd).
  unfold maybeConvertValue. simpl.
  assert (Hk' : TypeKind.eqb (reflection.kind B) (reflection.kind A) = false)
    by (apply TypeKind_eqb_neq; congruence).
  rewrite Hk'.
  unfold bind at 1. unfold gets at 1. unfold bind at 1.
  rewrite Hint, Htu, !andb_false_r.
  match goal with
  | |- context [when (negb explicit) ?w ?s] =>
    replace (when (negb explicit) w s) with (Ok tt s) by (destruct explicit; reflexivity)
  end.
  unfold bind at 1. unfold setReflectedType at 1. unfold modify at 1.
  rewrite Hff, Hfd, Htf, Htd, ?Htl, ?Hfl, ?andb_false_r. cbn [andb].
  unfold intToOtherInt. rewrite Hint, orb_false_r, Hsigned.
  replace (reflection.size B <? reflection.size A) with false
    by (symmetry; apply Z.ltb_ge; lia).
  destruct explicit; run; simpl; now rewrite Hvalue.
Qed.

Lemma roundTrip_unsigned_witness :
  resultValue (roundTrip (typescript.TrueKeyword 1) (op.i32.const 40000)
                 reflection.ushortType reflection.uintptrType32 false blankCompiler)
  = Some 40000.
Proof.
  apply (roundTrip_unsigned (typescript.TrueKeyword 1) reflection.ushortType
           reflection.uintptrType32 40000 false blankCompiler).
  - right; left; reflexivity.
  - reflexivity.
  - discriminate.
  - simpl; lia.
  - unfold representable; cbn; lia.
Defined.

(** ** Locals *)

(** Inside a function the dictionary of the locals is an object. *)
Lemma insideFunction_object (c : Compiler) :
  insideFunction c ->
  exists entries prototype, currentLocals c = js.object entries prototype.
Proof.
  unfold insideFunction. destruct (currentLocals c) as [|entries prototype]; eauto.
  congruence.
Qed.

Lemma freeName_inside (c : Compiler) (name : string) :
  freeName c name -> insideFunction c.
Proof.
  intros (value & Hvalue & _). unfold localValue, insideFunction in *.
  destruct (currentLocals c); [discriminate | discriminate].
Qed.

(** Under a name that reads as falsy, an assignment makes an own entry. *)
Lemma assign_falsy (entries : gmap string reflection.variable)
  (prototype : js.Prototype) (key : string) (v : reflection.variable) :
  js.truthy (js.read entries prototype key) = false ->
  <[key := v]> (js.object entries prototype) = js.object (<[key := v]> entries) prototype.
Proof.
  intros Hfalsy.
  change (js.assign key v (js.object entries prototype)
          = js.object (<[key := v]> entries) prototype).
  unfold js.assign. now rewrite (falsy_not_proto _ _ _ Hfalsy).
Qed.

(** An identifier that names an own entry of the locals reads that local. *)
Lemma compileIdentifier_local (id : nat) (text : string)
  (contextualType : reflection.type) (c : Compiler)
  (entries : gmap string reflection.variable) (prototype : js.Prototype)
  (v : reflection.variable) :
  currentLocals c = js.object entries prototype ->
  entries !! text = Some v ->
  compileIdentifier id text contextualType c =
  Ok (binaryen.GetLocal (reflection.index v)
        (binaryen.typeOf (reflection.vtype v) (uintptrSize c)))
     (set_reflectedTypes (<[id := reflection.vtype v]> (reflectedTypes c)) c).
Proof.
  intros Elocals Hv. unfold compileIdentifier.
  unfold bind at 1. unfold readLocal at 1. rewrite Elocals.
  unfold js.read. rewrite Hv. reflexivity.
Qed.

(** What [onVariable] does inside a function, in full: it returns the next
    slot and registers the local under a name that was free, the name it
    was given if that one is free and an alternative name otherwise. *)
Lemma onVariable_result (originalName : string) (type : reflection.type) (c : Compiler)
  (entries : gmap string reflection.variable) (prototype : js.Prototype) :
  currentLocals c = js.object entries prototype ->
  exists registered,
    js.truthy (js.read entries prototype registered) = false /\
    (js.truthy (js.read entries prototype originalName) = false ->
     registered = originalName) /\
    (js.truthy (js.read entries prototype originalName) = true ->
     exists k, 1 <= k /\ registered = alternativeName originalName k) /\
    onVariable originalName type c =
    Ok (localIndex c)
       (set_localIndex (localIndex c + 1)
          (set_additionalLocals
             (additionalLocals c ++ [binaryen.typeOf type (uintptrSize c)])
             (set_currentLocals
                (js.object
                   (<[registered :=
                        reflection.mkVariable registered type
                          reflection.VariableFlags.none (localIndex c)]> entries)
                   prototype)
                c))).
Proof.
  intros Elocals.
  destruct (uniqueLocalName_enough entries prototype originalName) as [registered Ename].
  exists registered.
  destruct (uniqueLocalName_spec _ _ _ _ _ _ _ Ename) as [Hfree Hcases].
  split; [exact Hfree|]. split; [|split].
  - intros Hfalsy. destruct Hcases as [[-> _]|[Htaken _]]; [reflexivity | congruence].
  - intros Htaken. destruct Hcases as [[_ Hfalsy]|[_ (k & Hk & -> & _)]]; [congruence|].
    now exists k.
  - rewrite (onVariable_run _ _ type c entries prototype Elocals Ename).
    rewrite Elocals, (assign_falsy _ _ _ _ Hfree). reflexivity.
Qed.

(** X8: inside a function [onVariable] never throws and never overwrites:
    the local it registers goes under a name that was free, every local
    that was there stays as it was, a name that is free is taken as it is,
    and a name that is taken, by a local or by a property that the
    dictionary inherits (such as [constructor] or [toString]), is replaced
    by an alternative name. *)
Theorem onVariable_registers (originalName : string) (type : reflection.type)
  (c : Compiler) :
  insideFunction c ->
  exists registered c',
    onVariable originalName type c = Ok (localIndex c) c' /\
    freeName c registered /\
    currentLocals c !! registered = None /\
    currentLocals c' !! registered =
      Some (reflection.mkVariable registered type reflection.VariableFlags.none
              (localIndex c)) /\
    (forall other v, currentLocals c !! other = Some v ->
                     currentLocals c' !! other = Some v) /\
    (freeName c originalName -> registered = originalName) /\
    (takenName c originalName ->
     exists k, 1 <= k /\ registered = alternativeName originalName k).
Proof.
  intros Hinside.
  destruct (insideFunction_object c Hinside) as (entries & prototype & Elocals).
  destruct (onVariable_result originalName type c entries prototype Elocals)
    as (registered & Hfree & Hsame & Hother & E).
  assert (Hown : entries !! registered = None).
  { unfold js.read in Hfree. now destruct (entries !! registered). }
  exists registered. eexists. split; [exact E|].
  cbn [currentLocals set_localIndex set_additionalLocals set_currentLocals].
  unfold freeName, takenName, localValue. rewrite Elocals, !lookup_object.
  split; [eauto|]. split; [exact Hown|]. split; [apply lookup_insert_eq|].
  split; [|split].
  - intros other v Hv. rewrite lookup_object in Hv.
    rewrite lookup_object, lookup_insert_ne; [exact Hv | congruence].
  - intros (value & [= <-] & Hfalsy). now apply Hsame.
  - intros (value & [= <-] & Htaken). now apply Hother.
Qed.

Lemma onVariable_registers_witness :
  exists registered c',
    onVariable "constructor" reflection.intType (compilerIn intParameter)
      = Ok (localIndex (compilerIn intParameter)) c' /\
    freeName (compilerIn intParameter) registered /\
    currentLocals (compilerIn intParameter) !! registered = None /\
    currentLocals c' !! registered =
      Some (reflection.mkVariable registered reflection.intType
              reflection.VariableFlags.none (localIndex (compilerIn intParameter))) /\
    (forall other v, currentLocals (compilerIn intParameter) !! other = Some v ->
                     currentLocals c' !! other = Some v) /\
    (freeName (compilerIn intParameter) "constructor" -> registered = "constructor") /\
    (takenName (compilerIn intParameter) "constructor" ->
     exists k, 1 <= k /\ registered = alternativeName "constructor" k).
Proof.
  apply (onVariable_registers "constructor" reflection.intType (compilerIn intParameter)).
  vm_compute. discriminate.
Defined.

(** In [function g(x: int)], a local named [constructor] is registered as
    [constructor.1], and one named [y] as [y]. *)
Example onVariable_inherited_name :
  option_map (fun c => (currentLocals c !! "constructor",
                        currentLocals c !! "constructor.1"))
    (finalState (onVariable "constructor" reflection.intType (compilerIn intParameter)))
  = Some (None,
          Some (reflection.mkVariable "constructor.1" reflection.intType
                  reflection.VariableFlags.none 1)) /\
  option_map (fun c => currentLocals c !! "y")
    (finalState (onVariable "y" reflection.intType (compilerIn intParameter)))
  = Some (Some (reflection.mkVariable "y" reflection.intType
                  reflection.VariableFlags.none 1)).
Proof. split; vm_compute; reflexivity. Qed.

(** X9: slots are handed out in order.  On entry to a function the next
    free slot is the number of its locals, [this] and the parameters, and no
    local is added yet; from then on, inside the function, each
    [onVariable] returns that number plus the count of locals added so far,
    and adds one. *)
Theorem onVariable_slots_in_order :
  (forall (func : ReflectedFunction) (c : Compiler),
     exists c',
       enterFunction func c = Ok tt c' /\
       additionalLocals c' = [] /\
       slotsInOrder (Z.of_nat (length (rf_locals func))) c') /\
  (forall (base : Z) (originalName : string) (type : reflection.type) (c : Compiler),
     slotsInOrder base c ->
     exists c',
       onVariable originalName type c
         = Ok (base + Z.of_nat (length (additionalLocals c))) c' /\
       length (additionalLocals c') = S (length (additionalLocals c)) /\
       slotsInOrder base c').
Proof.
  split.
  - intros func c. unfold enterFunction.
    do 5 (unfold bind at 1; unfold modify at 1).
    match goal with
    | |- context [forEach _ _ ?s] =>
      destruct (enterFunction_locals (rf_locals func) s)
        as (c' & -> & Hin & _ & _ & Hi & Ha)
    end.
    { unfold insideFunction. cbn. discriminate. }
    exists c'. cbn in Ha, Hi. unfold slotsInOrder. rewrite Ha, Hi. cbn.
    repeat split; [exact Hin | lia].
  - intros base originalName type c [Hinside Hslots].
    destruct (insideFunction_object c Hinside) as (entries & prototype & Elocals).
    destruct (onVariable_result originalName type c entries prototype Elocals)
      as (registered & _ & _ & _ & E).
    eexists. rewrite <- Hslots. split; [exact E|].
    unfold slotsInOrder, insideFunction in *.
    cbn [additionalLocals localIndex currentLocals
         set_localIndex set_additionalLocals set_currentLocals].
    rewrite length_app. cbn [length]. repeat split; [lia | discriminate | lia].
Qed.

Lemma onVariable_slots_in_order_witness :
  exists c',
    onVariable "y" reflection.intType (compilerIn intParameter)
      = Ok (1 + Z.of_nat (length (additionalLocals (compilerIn intParameter)))) c' /\
    length (additionalLocals c') = S (length (additionalLocals (compilerIn intParameter))) /\
    slotsInOrder 1 c'.
Proof.
  apply (proj2 onVariable_slots_in_order 1 "y" reflection.intType
           (compilerIn intParameter)).
  split; [vm_compute; discriminate | reflexivity].
Defined.

(** X10: a local declared under a free name is found again: after
    [onVariable] for a name that is free, neither a local nor a property
    that the dictionary inherits, [compileIdentifier] of that name is
    [get_local] of the slot handed out, at the IR type of the declared type,
    it annotates the identifier with that type and reports nothing. *)
Theorem onVariable_then_compileIdentifier (name : string) (type contextualType : reflection.type)
  (id : nat) (c : Compiler) :
  freeName c name ->
  exists c1,
    onVariable name type c = Ok (localIndex c) c1 /\
    compileIdentifier id name contextualType c1 =
    Ok (binaryen.GetLocal (localIndex c) (binaryen.typeOf type (uintptrSize c)))
       (set_reflectedTypes (<[id := type]> (reflectedTypes c1)) c1).
Proof.
  intros Hfree.
  destruct (insideFunction_object c (freeName_inside c name Hfree))
    as (entries & prototype & Elocals).
  destruct Hfree as (value & Hvalue & Hfalsy).
  unfold localValue in Hvalue. rewrite Elocals in Hvalue. injection Hvalue as <-.
  destruct (onVariable_result name type c entries prototype Elocals)
    as (registered & _ & Hsame & _ & E).
  rewrite (Hsame Hfalsy) in E. eexists. split; [exact E|].
  match goal with
  | |- compileIdentifier _ _ _ ?c1 = _ =>
    rewrite (compileIdentifier_local id name contextualType c1 _ prototype _
               eq_refl (lookup_insert_eq entries name _))
  end.
  reflexivity.
Qed.

Lemma onVariable_then_compileIdentifier_witness :
  exists c1,
    onVariable "y" reflection.floatType (compilerIn intParameter)
      = Ok (localIndex (compilerIn intParameter)) c1 /\
    compileIdentifier 7 "y" reflection.intType c1 =
    Ok (binaryen.GetLocal (localIndex (compilerIn intParameter))
          (binaryen.typeOf reflection.floatType (uintptrSize (compilerIn intParameter))))
       (set_reflectedTypes (<[7%nat := reflection.floatType]> (reflectedTypes c1)) c1).
Proof.
  apply (onVariable_then_compileIdentifier "y" reflection.floatType reflection.intType
           7 (compilerIn intParameter)).
  exists js.absent. split; reflexivity.
Defined.

(** X11: shadowing does not rebind the name.  When the name is in use,
    [onVariable] registers the new local under another name, so
    [compileIdentifier] of the name still reads the local it read before,
    at its old slot and type. *)
Theorem onVariable_shadow_keeps_binding (name : string) (type contextualType : reflection.type)
  (id : nat) (c : Compiler) (earlier : reflection.variable) :
  currentLocals c !! name = Some earlier ->
  exists c1,
    onVariable name type c = Ok (localIndex c) c1 /\
    returned (compileIdentifier id name contextualType c1)
    = Some (binaryen.GetLocal (reflection.index earlier)
              (binaryen.typeOf (reflection.vtype earlier) (uintptrSize c))) /\
    returned (compileIdentifier id name contextualType c1)
    = returned (compileIdentifier id name contextualType c).
Proof.
  intros Hearlier.
  destruct (currentLocals c) as [|entries prototype] eqn:Elocals.
  { rewrite lookup_undefined in Hearlier. discriminate. }
  rewrite lookup_object in Hearlier.
  destruct (onVariable_result name type c entries prototype Elocals)
    as (registered & Hfree & _ & _ & E).
  eexists. split; [exact E|].
  assert (Hne : registered <> name).
  { intros ->. unfold js.read in Hfree. rewrite Hearlier in Hfree. discriminate. }
  rewrite (compileIdentifier_local id name contextualType c _ _ _ Elocals Hearlier).
  match goal with
  | |- context [compileIdentifier _ _ _ ?c1] =>
    rewrite (compileIdentifier_local id name contextualType c1 _ prototype earlier
               eq_refl)
  end.
  - split; reflexivity.
  - rewrite lookup_insert_ne by exact Hne. exact Hearlier.
Qed.

Lemma onVariable_shadow_keeps_binding_witness :
  exists c1,
    onVariable "x" reflection.floatType (compilerIn intParameter)
      = Ok (localIndex (compilerIn intParameter)) c1 /\
    returned (compileIdentifier 7 "x" reflection.intType c1)
    = Some (binaryen.GetLocal 0
              (binaryen.typeOf reflection.intType (uintptrSize (compilerIn intParameter)))) /\
    returned (compileIdentifier 7 "x" reflection.intType c1)
    = returned (compileIdentifier 7 "x" reflection.intType (compilerIn intParameter)).
Proof.
  apply (onVariable_shadow_keeps_binding "x" reflection.floatType reflection.intType 7
           (compilerIn intParameter)
           (reflection.mkVariable "x" reflection.intType reflection.VariableFlags.none 0)).
  reflexivity.
Defined.

(** ** Loops at any depth *)

(** X12: a while statement at any depth of loops.  Its block and loop are
    labelled with the label of the context entered, number.depth with the
    depth one more than outside, the body sits before the branch back to
    the loop, and once the body and the condition are lowered with the
    depth they were entered with, the depth outside is restored. *)
Theorem compileWhile_restores_context `{Host} (c entered c1 c2 : Compiler) (id : nat)
  (label : string) (expression : typescript.Expression) (body : typescript.Statement)
  (bodyIR compiled : binaryen.Expression) (conditionType : reflection.type) :
  0 <= currentBreakContextDepth c ->
  enterBreakContext c = Ok label entered ->
  compileStatement body entered = Ok bodyIR c1 ->
  compileExpression expression reflection.intType c1 = Ok compiled c2 ->
  reflectedTypes c2 !! typescript.nodeId expression = Some conditionType ->
  currentBreakContextDepth c2 = currentBreakContextDepth entered ->
  exists condition c',
    compileStatement (typescript.WhileStatement id expression (Some body)) c
      = Ok (binaryen.Block ("break$" +:+ label)
              [binaryen.Loop ("continue$" +:+ label)
                 (binaryen.If condition
                    (binaryen.Block ""
                       [bodyIR; binaryen.Break ("continue$" +:+ label)]))]) c' /\
    label = pretty (currentBreakContextNumber entered) +:+ "." +:+
            pretty (currentBreakContextDepth c + 1) /\
    currentBreakContextDepth c' = currentBreakContextDepth c /\
    currentBreakContextNumber c' = currentBreakContextNumber c2.
Proof.
  intros Hdepth Eenter Ebody Econd Etype Hbalanced.
  destruct (enterBreakContext_label c) as (entered' & Eenter' & Hd & Hn).
  rewrite Eenter in Eenter'. injection Eenter' as Elabel Eentered. subst entered'.
  destruct (maybeConvertValue_total expression compiled conditionType
              reflection.intType true c2) as (condition & c3 & Econv).
  assert (Hkeep : (currentBreakContextDepth c3, currentBreakContextNumber c3)
                  = (currentBreakContextDepth c2, currentBreakContextNumber c2)).
  { apply (maybeConvertValue_preserves
             (fun c => (currentBreakContextDepth c, currentBreakContextNumber c))
             _ _ _ _ _) with (3 := Econv); reflexivity. }
  injection Hkeep as Hd3 Hn3.
  exists condition. eexists.
  cbn [compileStatement]. unfold compileWhile.
  unfold bind at 1. rewrite Eenter.
  unfold bind at 1. unfold bind at 1. rewrite Ebody. unfold ret at 1.
  unfold bind at 1. rewrite Econd.
  unfold bind at 1. unfold getReflectedType. rewrite Etype.
  unfold bind at 1. rewrite Econv.
  unfold bind at 1. unfold leaveBreakContext.
  unfold bind at 1. unfold gets at 1.
  replace (currentBreakContextDepth c3 <? 1) with false
    by (symmetry; apply Z.ltb_ge; lia).
  split; [reflexivity|].
  cbn [currentBreakContextDepth currentBreakContextNumber set_currentBreakContextDepth].
  split; [|split; [lia | exact Hn3]].
  rewrite Elabel. unfold currentBreakLabel. now rewrite Hd.
Qed.

Lemma compileWhile_restores_context_witness :
  exists condition c',
    @compileStatement fixtureHost whileTrue
      (set_currentBreakContextDepth 1
         (set_currentBreakContextNumber 1 (compilerIn intParameter)))
      = Ok (binaryen.Block ("break$" +:+ "1.2")
              [binaryen.Loop ("continue$" +:+ "1.2")
                 (binaryen.If condition
                    (binaryen.Block ""
                       [binaryen.Nop; binaryen.Break ("continue$" +:+ "1.2")]))]) c' /\
    "1.2" = pretty 1 +:+ "." +:+ pretty (1 + 1) /\
    currentBreakContextDepth c' = 1 /\
    currentBreakContextNumber c' = 1.
Proof.
  pose (c := set_currentBreakContextDepth 1
               (set_currentBreakContextNumber 1 (compilerIn intParameter))).
  pose (entered := set_currentBreakContextDepth 2 c).
  pose (c2 := set_reflectedTypes (<[2%nat := reflection.boolType]> (reflectedTypes entered))
                entered).
  apply (@compileWhile_restores_context fixtureHost c entered entered c2 1%nat "1.2"
           (typescript.TrueKeyword 2)
           (typescript.ExternalStatement 3 "ExpressionStatement")
           binaryen.Nop (binaryen.I32Const 1) reflection.boolType).
  - vm_compute. discriminate.
  - reflexivity.
  - reflexivity.
  - reflexivity.
  - reflexivity.
  - reflexivity.
Defined.

(** ** Types and globals *)


(** X14: a constant global whose initializer is not a numeric literal is
    rejected with one error at the initializer; the global is entered in
    the reflection table all the same, with the flags of a constant global,
    but the module gets no global and the start function no initializer. *)
Theorem createGlobal_constant_initializer `{Host} (name : string)
  (type : reflection.type) (initializerNode : typescript.Expression) (c : Compiler) :
  (forall id text, initializerNode <> typescript.NumericLiteral id text) ->
  createGlobal name type false (Some initializerNode) c =
  Ok tt
     (set_diagnostics
        (diagnostics c ++
         [typescript.mkDiagnostic typescript.Error (typescript.nodeId initializerNode)
            "Unsupported global constant initializer" None])
        (set_globals
           (<[name := reflection.mkVariable name type
                        (Z.lor reflection.VariableFlags.global
                               reflection.VariableFlags.constant) 0]> (globals c)) c)).
Proof.
  intros Hliteral. unfold createGlobal.
  destruct initializerNode; try reflexivity.
  now contradiction (Hliteral id text).
Qed.

Lemma createGlobal_constant_initializer_witness :
  @createGlobal fixtureHost "limit" reflection.intType false
    (Some (typescript.TrueKeyword 3)) blankCompiler =
  Ok tt
     (set_diagnostics
        (diagnostics blankCompiler ++
         [typescript.mkDiagnostic typescript.Error 3%nat
            "Unsupported global constant initializer" None])
        (set_globals
           (<["limit" := reflection.mkVariable "limit" reflection.intType
                           (Z.lor reflection.VariableFlags.global
                                  reflection.VariableFlags.constant) 0]>
              (globals blankCompiler)) blankCompiler)).
Proof.
  apply (@createGlobal_constant_initializer fixtureHost "limit" reflection.intType
           (typescript.TrueKeyword 3) blankCompiler).
  intros id text. discriminate.
Defined.

(** X15: a mutable global whose initializer is not a numeric literal is
    added to the module with the zero of its type, and, when the lowering
    of the initializer returns, the lowered expression converted implicitly
    to the declared type is queued behind the initializers queued before.
    (The lowering of an identifier does not return while no function has
    been compiled: X29.) *)
Theorem createGlobal_mutable_initializer `{Host} (name : string)
  (type reflected : reflection.type) (initializerNode : typescript.Expression)
  (compiled : binaryen.Expression) (c c2 : Compiler) :
  (forall id text, initializerNode <> typescript.NumericLiteral id text) ->
  compileExpression initializerNode type
    (set_module
       (binaryen.addGlobal (module c) name (binaryen.typeOf type (uintptrSize c)) true
          (binaryen.valueOf type 0))
       (set_globals
          (<[name := reflection.mkVariable name type
                       reflection.VariableFlags.global 0]> (globals c)) c))
    = Ok compiled c2 ->
  reflectedTypes c2 !! typescript.nodeId initializerNode = Some reflected ->
  exists converted c3,
    maybeConvertValue initializerNode compiled reflected type false c2
      = Ok converted c3 /\
    createGlobal name type true (Some initializerNode) c =
    Ok tt (set_globalInitializers
             (globalInitializers c2 ++ [binaryen.SetGlobal name converted]) c3).
Proof.
  intros Hliteral Ecompile Ereflected.
  destruct (maybeConvertValue_total initializerNode compiled reflected type false c2)
    as (converted & c3 & Econv).
  assert (Hqueue : globalInitializers c3 = globalInitializers c2).
  { apply (maybeConvertValue_preserves globalInitializers _ _ _ _ _)
      with (3 := Econv); reflexivity. }
  exists converted, c3. split; [exact Econv|].
  unfold createGlobal.
  unfold bind at 1. unfold modify at 1.
  unfold bind at 1. unfold gets at 1.
  destruct initializerNode;
    try (now contradiction (Hliteral id text));
    (cbv iota;
     unfold bind at 1; unfold modify at 1;
     unfold bind at 1;
     match goal with
     | |- context [compileExpression ?n ?t ?s] =>
       change (compileExpression n t s) with
         (compileExpression n type
            (set_module
               (binaryen.addGlobal (module c) name
                  (binaryen.typeOf type (uintptrSize c)) true
                  (binaryen.valueOf type 0))
               (set_globals
                  (<[name := reflection.mkVariable name type
                               reflection.VariableFlags.global 0]> (globals c)) c)))
     end;
     rewrite Ecompile;
     unfold bind at 1; unfold getReflectedType; rewrite Ereflected;
     unfold bind at 1; rewrite Econv;
     unfold modify; rewrite Hqueue; reflexivity).
Qed.

Lemma createGlobal_mutable_initializer_witness :
  exists converted c3,
    maybeConvertValue (typescript.TrueKeyword 3) (binaryen.I32Const 1)
      reflection.boolType reflection.intType false
      (set_reflectedTypes (<[3%nat := reflection.boolType]> ∅)
         (set_module
            (binaryen.addGlobal binaryen.emptyModule "on" binaryen.i32 true
               (binaryen.I32Const 0))
            (set_globals
               (<["on" := reflection.mkVariable "on" reflection.intType
                            reflection.VariableFlags.global 0]> ∅) queuedCompiler)))
      = Ok converted c3 /\
    @createGlobal fixtureHost "on" reflection.intType true
      (Some (typescript.TrueKeyword 3)) queuedCompiler =
    Ok tt (set_globalInitializers
             ([binaryen.SetGlobal "x" (binaryen.I32Const 1)] ++
              [binaryen.SetGlobal "on" converted]) c3).
Proof.
  apply (@createGlobal_mutable_initializer fixtureHost "on" reflection.intType
           reflection.boolType (typescript.TrueKeyword 3) (binaryen.I32Const 1)
           queuedCompiler).
  - intros id text. discriminate.
  - reflexivity.
  - reflexivity.
Defined.

(** X29: a global cannot be initialized from an identifier.  A compiler as
    constructed has compiled no function, so its [currentLocals] is
    undefined; [createGlobal] for a mutable global whose initializer is an
    identifier then throws a TypeError out of the lowering of the
    identifier, instead of reporting a diagnostic. *)
Theorem createGlobal_identifier_initializer `{Host}
  (sourceFiles : list typescript.SourceFile) (given : option CompilerOptions)
  (c : Compiler) (name : string) (type : reflection.type) (id : nat) (text : string) :
  new_Compiler sourceFiles given = Constructed c ->
  currentLocals c = js.undefined /\
  compileExpression (typescript.Identifier id text) type c
    = Throw "TypeError: currentLocals is undefined" /\
  createGlobal name type true (Some (typescript.Identifier id text)) c
    = Throw "TypeError: currentLocals is undefined".
Proof.
  unfold new_Compiler. intros Econstructed.
  destruct (unsupportedUintptrSize _); [discriminate|].
  injection Econstructed as <-. repeat split.
Qed.

Lemma createGlobal_identifier_initializer_witness :
  currentLocals (compilerFor [libraryUnit; copyUnit] None) = js.undefined /\
  @compileExpression fixtureHost (typescript.Identifier 3 "a") reflection.intType
    (compilerFor [libraryUnit; copyUnit] None)
    = Throw "TypeError: currentLocals is undefined" /\
  @createGlobal fixtureHost "b" reflection.intType true
    (Some (typescript.Identifier 3 "a")) (compilerFor [libraryUnit; copyUnit] None)
    = Throw "TypeError: currentLocals is undefined".
Proof.
  apply (@createGlobal_identifier_initializer fixtureHost [libraryUnit; copyUnit] None).
  reflexivity.
Defined.

(** The initialization pass of a program that declares [let b: int = a;]
    throws. *)
Example initialize_identifier_initializer :
  @initialize fixtureHost (compilerFor [libraryUnit; copyUnit] None)
  = Throw "TypeError: currentLocals is undefined".
Proof. vm_compute. reflexivity. Qed.

(** ** The allocator library *)

(** Looking a signature up leaves the exports, the globals and the
    functions of the module as they are. *)
Lemma lookupSignature_module (identifier : string) (result : binaryen.Type_)
  (params : list binaryen.Type_) (c : Compiler) :
  exists signature c',
    lookupSignature identifier result params c = Ok signature c' /\
    binaryen.exports (module c') = binaryen.exports (module c) /\
    binaryen.globals (module c') = binaryen.globals (module c) /\
    binaryen.functions (module c') = binaryen.functions (module c) /\
    uintptrSize c' = uintptrSize c /\ uintptrType c' = uintptrType c.
Proof.
  unfold lookupSignature. run.
  destruct (signatures c !! identifier); [eauto 8|].
  destruct (binaryen.getFunctionType (module c) result params); eauto 8.
Qed.

Lemma removeExport_spec (m : binaryen.Module_) (external : string)
  (e : string * string) :
  In e (binaryen.exports (binaryen.removeExport m external)) <->
  In e (binaryen.exports m) /\ snd e <> external.
Proof.
  unfold binaryen.removeExport. cbn [binaryen.exports].
  rewrite List.filter_In, negb_true_iff.
  split; intros [Hin Hne]; (split; [exact Hin|]).
  - intros E. apply String.eqb_eq in E. congruence.
  - destruct (String.eqb_spec (snd e) external); congruence.
Qed.

(** X16: linking the allocator.  After [initializeLibrary] the module
    has the mutable global [.msp], zero at first, and exports [malloc] and
    [free]; what it exported before it still exports, except that nothing
    is exported as [mspace_init], [mspace_malloc] or [mspace_free]. *)
Theorem initializeLibrary_exports (c : Compiler) :
  exists c',
    initializeLibrary c = Ok tt c' /\
    binaryen.globals (module c') =
      (binaryen.globals (module c) ++
       [binaryen.mkGlobal ".msp" (binaryen.typeOf (uintptrType c) (uintptrSize c)) true
          (binaryen.valueOf (uintptrType c) 0)])%list /\
    (forall e, In e (binaryen.exports (module c')) <->
               e = ("malloc", "malloc") \/ e = ("free", "free") \/
               (In e (binaryen.exports (module c)) /\
                snd e <> "mspace_init" /\ snd e <> "mspace_malloc" /\
                snd e <> "mspace_free")).
Proof.
  unfold initializeLibrary.
  unfold bind at 1. unfold gets at 1.
  unfold bind at 1. unfold gets at 1.
  do 5 (unfold bind at 1; unfold modify at 1).
  unfold bind at 1.
  match goal with
  | |- context [lookupSignature ?i ?r ?p ?s] =>
    destruct (lookupSignature_module i r p s)
      as (s1 & c1 & -> & Hx1 & Hg1 & _ & _ & _)
  end.
  unfold bind at 1. unfold modify at 1.
  unfold bind at 1.
  match goal with
  | |- context [lookupSignature ?i ?r ?p ?s] =>
    destruct (lookupSignature_module i r p s)
      as (s2 & c2 & -> & Hx2 & Hg2 & _ & _ & _)
  end.
  run. eexists. split; [reflexivity|].
  cbn [module set_module binaryen.globals binaryen.exports binaryen.addExport
       binaryen.addFunction snd] in *.
  split.
  - rewrite Hg2. cbn. rewrite Hg1. reflexivity.
  - intros e. rewrite Hx2. cbn. rewrite Hx1.
    rewrite !in_app_iff. cbn [In].
    rewrite !removeExport_spec. cbn [module set_module binaryen.exports
      binaryen.addGlobal set_globalInitializers].
    split.
    + intros [[(((Hin & H1) & H2) & H3)|[<-|[]]]|[<-|[]]]; auto 6.
    + intros [->|[->|(Hin & H1 & H2 & H3)]]; auto 8.
Qed.

(** X17: signature handles are cached by identifier.  Once
    [lookupSignature] has answered for an identifier, every later lookup of
    that identifier answers the same handle and changes nothing, whatever
    shape it asks for; so a function type is added to the module at most
    once per identifier. *)
Theorem lookupSignature_cached (identifier : string) (result : binaryen.Type_)
  (params : list binaryen.Type_) (c : Compiler) :
  exists signature c',
    lookupSignature identifier result params c = Ok signature c' /\
    signatures c' !! identifier = Some signature /\
    (length (binaryen.functionTypes (module c'))
     <= S (length (binaryen.functionTypes (module c))))%nat /\
    forall result' params',
      lookupSignature identifier result' params' c' = Ok signature c'.
Proof.
  unfold lookupSignature. run.
  destruct (signatures c !! identifier) as [s|] eqn:Ecached.
  - exists s, c. rewrite Ecached. repeat split; auto.
  - destruct (binaryen.getFunctionType (module c) result params) as [s|];
      eexists; eexists; (split; [reflexivity|]);
      cbn [signatures set_signatures set_module module binaryen.addFunctionType
           binaryen.functionTypes fst snd];
      rewrite lookup_insert_eq; repeat split; auto.
    rewrite length_app. cbn. lia.
Qed.

(** ** The source files of a program *)

Lemma find_append {A : Type} (p : A -> bool) (l l' : list A) :
  List.find p (l ++ l') =
  match List.find p l with
  | Some x => Some x
  | None => List.find p l'
  end.
Proof.
  induction l as [|a l IH]; cbn; [reflexivity|]. now destruct (p a).
Qed.

Lemma locateFiles_fold (files : list typescript.SourceFile)
  (entry library : option typescript.SourceFile) :
  fold_left
    (fun (acc : option typescript.SourceFile * option typescript.SourceFile) f =>
       if typescript.isDeclarationFile f then (fst acc, Some f)
       else match fst acc with
            | None => (Some f, snd acc)
            | Some _ => acc
            end)
    files (entry, library)
  = (match entry with
     | Some e => Some e
     | None => List.find (fun f => negb (typescript.isDeclarationFile f)) files
     end,
     match List.find typescript.isDeclarationFile (rev files) with
     | Some f => Some f
     | None => library
     end).
Proof.
  revert entry library.
  induction files as [|f files IH]; intros entry library; cbn [fold_left].
  - now destruct entry.
  - cbn [rev List.find fst snd].
    rewrite find_append.
    destruct (typescript.isDeclarationFile f) eqn:Ef; cbn [negb List.find].
    + rewrite IH. rewrite Ef.
      destruct (List.find typescript.isDeclarationFile (rev files)); reflexivity.
    + destruct entry as [e|]; cbn [fst snd]; rewrite IH; rewrite Ef;
        destruct (List.find typescript.isDeclarationFile (rev files)); reflexivity.
Qed.

(** X18: the constructor takes the first declaration file of the program
    as the library file and the last file that is not a declaration file as
    the entry file, and none where there is no such file. *)
Theorem locateFiles_first_and_last (files : list typescript.SourceFile) :
  locateFiles files =
  (List.find (fun f => negb (typescript.isDeclarationFile f)) (rev files),
   List.find typescript.isDeclarationFile files).
Proof.
  unfold locateFiles. rewrite locateFiles_fold, rev_involutive.
  now destruct (List.find typescript.isDeclarationFile files).
Qed.

(** ** Names *)

Lemma sanitize_allowed (s : string) (a : ascii) :
  hasChar a (sanitize s) = true -> allowedChar a = true.
Proof.
  induction s as [|b s IH]; cbn [sanitize hasChar]; [discriminate|].
  destruct (allowedChar b) eqn:Eb; [|exact IH].
  cbn [hasChar]. intros H. apply orb_true_iff in H as [H|H]; [|now apply IH].
  apply Ascii.eqb_eq in H. now subst.
Qed.

Lemma sanitize_fixed (s : string) :
  (forall a, hasChar a s = true -> allowedChar a = true) -> sanitize s = s.
Proof.
  induction s as [|b s IH]; cbn [sanitize]; [reflexivity|]. intros Hall.
  rewrite (Hall b) by (cbn; now rewrite Ascii.eqb_refl).
  f_equal. apply IH. intros a Ha. apply Hall. cbn. rewrite Ha. apply orb_true_r.
Qed.

(** X19: the path prefix of a mangled name holds letters, digits, dots,
    slashes, backslashes and dollar signs only; stripping is idempotent and
    leaves a path of such characters as it is. *)
Theorem sanitize_idempotent (s : string) :
  (forall a, hasChar a (sanitize s) = true -> allowedChar a = true) /\
  sanitize (sanitize s) = sanitize s /\
  ((forall a, hasChar a s = true -> allowedChar a = true) -> sanitize s = s).
Proof.
  split; [apply sanitize_allowed|]. split; [|apply sanitize_fixed].
  apply sanitize_fixed, sanitize_allowed.
Qed.

Lemma indexOf_range (c : ascii) (s : string) : -1 <= indexOf c s.
Proof.
  induction s as [|a s IH]; cbn [indexOf]; [lia|].
  destruct (Ascii.eqb a c); [lia|].
  destruct (Z.ltb_spec (indexOf c s) 0); lia.
Qed.

(** The string splits at the first occurrence of a character. *)
Lemma indexOf_split (c : ascii) (s : string) :
  0 <= indexOf c s ->
  substringTo (Z.to_nat (indexOf c s)) s +:+
    String c (substringFrom (Z.to_nat (indexOf c s + 1)) s) = s /\
  hasChar c (substringTo (Z.to_nat (indexOf c s)) s) = false.
Proof.
  induction s as [|a s IH]; cbn [indexOf]; [lia|].
  destruct (Ascii.eqb a c) eqn:Ea.
  - intros _. apply Ascii.eqb_eq in Ea. subst a. now cbn.
  - destruct (Z.ltb_spec (indexOf c s) 0) as [Hneg|Hpos]; [lia|]. intros _.
    destruct (IH Hpos) as [Hsplit Hclean].
    assert (E1 : Z.to_nat (indexOf c s + 1) = S (Z.to_nat (indexOf c s))) by lia.
    assert (E2 : Z.to_nat (indexOf c s + 1 + 1) = S (S (Z.to_nat (indexOf c s)))) by lia.
    rewrite E1 in Hsplit. rewrite E2, E1.
    cbn [substringTo substringFrom hasChar].
    rewrite Ea, Hclean. split; [|reflexivity].
    change (String a (substringTo (Z.to_nat (indexOf c s)) s +:+
                      String c (substringFrom (S (Z.to_nat (indexOf c s))) s))
            = String a s).
    now rewrite Hsplit.
Qed.

Lemma indexOf_absent (c : ascii) (s : string) :
  indexOf c s < 0 <-> hasChar c s = false.
Proof.
  induction s as [|a s IH]; cbn [indexOf hasChar]; [split; [reflexivity | lia]|].
  destruct (Ascii.eqb a c); cbn [orb]; [split; [lia | discriminate]|].
  pose proof (indexOf_range c s).
  destruct (Z.ltb_spec (indexOf c s) 0); rewrite <- IH; split; lia.
Qed.

(** X20: the import of a function named [module$base] is split at the
    first dollar sign: the module name is not empty and holds no dollar sign,
    and module, dollar sign and base make up the name again.  A name
    without a dollar sign, or with a leading one, is imported whole from
    [env]. *)
Theorem importNames_split (name : string) :
  (0 < indexOf "$"%char name /\
   fst (importNames name) +:+ "$" +:+ snd (importNames name) = name /\
   hasChar "$"%char (fst (importNames name)) = false /\
   fst (importNames name) <> "") \/
  (indexOf "$"%char name <= 0 /\ importNames name = ("env", name)).
Proof.
  unfold importNames. cbv zeta.
  destruct (Z.ltb_spec 0 (indexOf "$"%char name)) as [Hpos|Hnot]; [left | right; auto].
  cbn [fst snd]. destruct (indexOf_split "$"%char name) as [Hsplit Hclean]; [lia|].
  repeat split; auto.
  destruct name as [|a name]; [cbn in Hpos; lia|].
  destruct (Z.to_nat (indexOf "$"%char (String a name))) eqn:En; [lia|].
  cbn [substringTo]. discriminate.
Qed.

(** ** Type aliases *)

(** Induction on a symbol, with the property at hand for the symbols its
    type aliases lead to. *)
Lemma Symbol_alias_ind (P : checker.Symbol -> Prop) :
  (forall name declarations,
     (forall target, In (checker.TypeAliasDeclaration (Some target)) declarations ->
                     P target) ->
     P (checker.mkSymbol name declarations)) ->
  forall s, P s.
Proof.
  intros Hstep. fix IH 1. intros [name declarations]. apply Hstep.
  induction declarations as [|d declarations IHd]; intros target Hin.
  - destruct Hin.
  - destruct Hin as [E|Hin].
    + destruct d as [[t|]|]; try discriminate. injection E as <-. apply IH.
    + exact (IHd target Hin).
Qed.

(** The loop over the declarations either runs out, and there is no alias
    to follow, or follows an alias among them. *)
Lemma aliasLoop_cases (symbol : checker.Symbol)
  (declarations : list (checker.Declaration checker.Symbol)) :
  let loop :=
    fix loop (ds : list (checker.Declaration checker.Symbol)) : checker.Symbol :=
      match ds with
      | [] => symbol
      | checker.TypeAliasDeclaration (Some symbolAtLocation) :: _ =>
        maybeResolveAlias symbolAtLocation
      | _ :: rest => loop rest
      end in
  (loop declarations = symbol /\
   forall target, ~ In (checker.TypeAliasDeclaration (Some target)) declarations) \/
  (exists target,
     In (checker.TypeAliasDeclaration (Some target)) declarations /\
     loop declarations = maybeResolveAlias target).
Proof.
  intros loop. induction declarations as [|d declarations IHd].
  - left. split; [reflexivity | intros target []].
  - destruct d as [[t|]|]; cbn.
    + right. exists t. split; [now left | reflexivity].
    + destruct IHd as [[E Hnone]|(t & Hin & E)].
      * left. split; [exact E|]. intros target [Hd|Hin]; [discriminate | exact (Hnone _ Hin)].
      * right. exists t. split; [now right | exact E].
    + destruct IHd as [[E Hnone]|(t & Hin & E)].
      * left. split; [exact E|]. intros target [Hd|Hin]; [discriminate | exact (Hnone _ Hin)].
      * right. exists t. split; [now right | exact E].
Qed.

Lemma maybeResolveAlias_fixed (s : checker.Symbol) :
  resolvedSymbol s -> maybeResolveAlias s = s.
Proof.
  destruct s as [name declarations]. unfold resolvedSymbol.
  cbn [maybeResolveAlias checker.name checker.declarations].
  destruct (isBuiltinTypeName name); [reflexivity|].
  intros [H|Hnone]; [discriminate|].
  destruct (aliasLoop_cases (checker.mkSymbol name declarations) declarations)
    as [[E _]|(t & Hin & _)]; [exact E | now apply Hnone in Hin].
Qed.

Lemma maybeResolveAlias_resolved (s : checker.Symbol) :
  resolvedSymbol (maybeResolveAlias s).
Proof.
  induction s as [name declarations IH] using Symbol_alias_ind.
  cbn [maybeResolveAlias].
  destruct (isBuiltinTypeName name) eqn:Ebuiltin; [now left|].
  destruct (aliasLoop_cases (checker.mkSymbol name declarations) declarations)
    as [[E Hnone]|(t & Hin & E)]; cbv zeta in E; rewrite E.
  - right. exact Hnone.
  - exact (IH t Hin).
Qed.

(** X21: following type aliases ends at a symbol that has the name of a
    built-in type or no alias to follow; a symbol with the name of a
    built-in type is not followed even when it is declared as an alias; and
    resolving a second time changes nothing. *)
Theorem maybeResolveAlias_idempotent (s : checker.Symbol) :
  resolvedSymbol (maybeResolveAlias s) /\
  maybeResolveAlias (maybeResolveAlias s) = maybeResolveAlias s /\
  (isBuiltinTypeName (checker.name s) = true -> maybeResolveAlias s = s).
Proof.
  split; [apply maybeResolveAlias_resolved|]. split.
  - apply maybeResolveAlias_fixed, maybeResolveAlias_resolved.
  - intros Hbuiltin. apply maybeResolveAlias_fixed. now left.
Qed.

(** The alias [Item] of the alias [Cell] of [int] resolves to [int], and
    that [int] is not followed to the [number] it is declared as. *)
Example maybeResolveAlias_chain :
  maybeResolveAlias itemSymbol = intSymbol.
Proof. reflexivity. Qed.

(** ** The allocator's source of memory *)

Lemma shiftr16 (z : Z) : Z.shiftr z 16 = z / 65536.
Proof. now rewrite Z.shiftr_div_pow2 by lia. Qed.

Lemma shiftl16 (z : Z) : Z.shiftl z 16 = z * 65536.
Proof. now rewrite Z.shiftl_mul_pow2 by lia. Qed.

Lemma pagesFor_bounds (size : Z) :
  0 < size ->
  65536 * (morecore.pagesFor size - 1) < size <= 65536 * morecore.pagesFor size.
Proof.
  intros Hsize. unfold morecore.pagesFor.
  destruct (Z.ltb_spec size 65536); [lia|].
  rewrite shiftr16.
  pose proof (Z.div_mod (size - 1) 65536 ltac:(lia)).
  pose proof (Z.mod_pos_bound (size - 1) 65536 ltac:(lia)).
  lia.
Qed.

(** X22: the number of pages [wasmMoreCore] asks for is the least number
    of 64 KiB pages that hold the requested bytes. *)
Theorem pagesFor_least (size : Z) :
  0 < size ->
  size <= 65536 * morecore.pagesFor size /\
  forall p, size <= 65536 * p -> morecore.pagesFor size <= p.
Proof.
  intros Hsize. pose proof (pagesFor_bounds size Hsize). split; [lia|].
  intros p Hp. lia.
Qed.

Lemma pagesFor_least_witness :
  65537 <= 65536 * morecore.pagesFor 65537 /\
  forall p, 65537 <= 65536 * p -> morecore.pagesFor 65537 <= p.
Proof. apply (pagesFor_least 65537). lia. Defined.

(** X23: when the memory has a page already and can grow, a request for
    [size] bytes grows it by the pages needed, answers the old end of the
    memory, from which at least [size] bytes are new, and records the new
    end in [top]; nothing is lost to wrap-around below 4 GiB. *)
Theorem wasmMoreCore_grows (MFAIL size : Z) (m : morecore.Memory) :
  0 < size ->
  1 <= morecore.pages m ->
  morecore.pages m + morecore.pagesFor size <= morecore.maximum m ->
  65536 * (morecore.pages m + morecore.pagesFor size) < 2 ^ 32 ->
  morecore.wasmMoreCore MFAIL size m =
  Some (65536 * morecore.pages m,
        morecore.mkMemory (morecore.pages m + morecore.pagesFor size)
          (morecore.maximum m)
          (65536 * (morecore.pages m + morecore.pagesFor size))) /\
  65536 * morecore.pages m + size
    <= 65536 * (morecore.pages m + morecore.pagesFor size).
Proof.
  intros Hsize Hpages Hroom Hfit.
  pose proof (pagesFor_bounds size Hsize) as Hp.
  split; [|lia].
  unfold morecore.wasmMoreCore, morecore.grow_memory.
  replace (0 <? size) with true by (symmetry; apply Z.ltb_lt; lia).
  cbv zeta.
  replace (morecore.pages m + morecore.pagesFor size <=? morecore.maximum m)
    with true by (symmetry; apply Z.leb_le; lia).
  cbn [fst snd morecore.pages morecore.maximum morecore.top].
  rewrite !shiftl16.
  rewrite (wrap32_small (morecore.pages m * 65536)) by lia.
  rewrite (wrap32_small (morecore.pagesFor size * 65536)) by lia.
  rewrite wrap32_small by lia.
  replace (morecore.pages m * 65536 =? 0) with false
    by (symmetry; apply Z.eqb_neq; lia).
  replace (morecore.pages m + morecore.pagesFor size <? 1) with false
    by (symmetry; apply Z.ltb_ge; lia).
  f_equal. f_equal; [lia|]. f_equal. lia.
Qed.

Lemma wasmMoreCore_grows_witness :
  morecore.wasmMoreCore 4294967295 100000 (morecore.mkMemory 1 100 65536) =
  Some (65536 * 1,
        morecore.mkMemory (1 + morecore.pagesFor 100000) 100
          (65536 * (1 + morecore.pagesFor 100000))) /\
  65536 * 1 + 100000 <= 65536 * (1 + morecore.pagesFor 100000).
Proof.
  apply (wasmMoreCore_grows 4294967295 100000 (morecore.mkMemory 1 100 65536));
    vm_compute; congruence.
Defined.

(** X24: a request that cannot be met is not reported.  When the memory
    has a page and cannot grow by the pages needed, [wasmMoreCore] does not
    answer the failure value: the -1 of the failed growth, shifted, is the
    address 4294901760, which is not null, so that address is answered and
    [top] is overwritten, while a request of 0 bytes answers [top]
    and a negative one the failure value, both without touching the
    memory. *)
Theorem wasmMoreCore_failure_unreported (MFAIL size : Z) (m : morecore.Memory) :
  1 <= morecore.pages m ->
  (0 < size ->
   morecore.maximum m < morecore.pages m + morecore.pagesFor size ->
   morecore.wasmMoreCore MFAIL size m =
   Some (4294901760,
         morecore.mkMemory (morecore.pages m) (morecore.maximum m)
           (wrap32 (4294901760 + wrap32 (Z.shiftl (morecore.pagesFor size) 16))))) /\
  (size = 0 -> morecore.wasmMoreCore MFAIL size m = Some (morecore.top m, m)) /\
  (size < 0 -> morecore.wasmMoreCore MFAIL size m = Some (MFAIL, m)).
Proof.
  intros Hpages. unfold morecore.wasmMoreCore, morecore.grow_memory.
  split; [|split].
  - intros Hsize Hfull.
    replace (0 <? size) with true by (symmetry; apply Z.ltb_lt; lia).
    cbv zeta.
    replace (morecore.pages m + morecore.pagesFor size <=? morecore.maximum m)
      with false by (symmetry; apply Z.leb_gt; lia).
    cbn [fst snd].
    change (wrap32 (Z.shiftl (-1) 16)) with 4294901760.
    change (4294901760 =? 0) with false. cbv iota.
    replace (morecore.pages m <? 1) with false by (symmetry; apply Z.ltb_ge; lia).
    reflexivity.
  - intros ->. cbn.
    replace (morecore.pages m <? 1) with false by (symmetry; apply Z.ltb_ge; lia).
    reflexivity.
  - intros Hsize.
    replace (0 <? size) with false by (symmetry; apply Z.ltb_ge; lia).
    replace (size <? 0) with true by (symmetry; apply Z.ltb_lt; lia).
    reflexivity.
Qed.

Lemma wasmMoreCore_failure_unreported_witness :
  morecore.wasmMoreCore 4294967295 100000 (morecore.mkMemory 1 2 65536) =
  Some (4294901760,
        morecore.mkMemory 1 2
          (wrap32 (4294901760 + wrap32 (Z.shiftl (morecore.pagesFor 100000) 16)))).
Proof.
  apply (wasmMoreCore_failure_unreported 4294967295 100000
           (morecore.mkMemory 1 2 65536)); vm_compute; congruence.
Defined.

(** ** Prefix operators *)

(** X25: an increment or decrement of anything but a local is rejected.
    When the operand is not an identifier, or is one whose name is free
    inside the function, neither a local nor a property that the
    dictionary of the locals inherits, [++] and [--] lower to [unreachable]
    and report one error at the node, "Unsupported unary prefix operator",
    after whatever the lowering of the operand reported; the node itself
    gets no annotation. *)
Theorem compilePrefixUnary_increment_rejected
  (compileOperand : reflection.type -> M binaryen.Expression) (id : nat)
  (operator : typescript.PrefixUnaryOperator) (operandNode : typescript.Expression)
  (contextualType : reflection.type) (c c1 : Compiler) (operand : binaryen.Expression) :
  operator = typescript.PlusPlusToken \/ operator = typescript.MinusMinusToken ->
  compileOperand contextualType c = Ok operand c1 ->
  (forall id' text, operandNode = typescript.Identifier id' text ->
                    freeName c1 text) ->
  compilePrefixUnary compileOperand id operator operandNode contextualType c =
  Ok binaryen.Unreachable
     (set_diagnostics
        (diagnostics c1 ++
         [typescript.mkDiagnostic typescript.Error id
            "Unsupported unary prefix operator"
            (Some (typescript.operatorName operator))]) c1).
Proof.
  intros Hoperator Eoperand Hunbound. unfold compilePrefixUnary.
  unfold bind at 1. rewrite Eoperand.
  unfold bind at 1. unfold peekReflectedType at 1. unfold gets at 1.
  destruct Hoperator as [-> | ->];
    (destruct operandNode as [id' text| | | | | | |]; try reflexivity;
     destruct (Hunbound id' text eq_refl) as (value & Hvalue & Hfalsy);
     unfold localValue in Hvalue;
     unfold bind at 1; unfold readLocal at 1;
     destruct (currentLocals c1) as [|entries prototype]; [discriminate|];
     injection Hvalue as ->;
     destruct value as [|v|[|]]; try discriminate Hfalsy; reflexivity).
Qed.

Lemma compilePrefixUnary_increment_rejected_witness :
  compilePrefixUnary
    (@compileExpression fixtureHost (typescript.Identifier 2 "y")) 1
    typescript.PlusPlusToken (typescript.Identifier 2 "y") reflection.intType
    (compilerIn intParameter) =
  Ok binaryen.Unreachable
     (set_diagnostics
        ([typescript.mkDiagnostic typescript.Error 2%nat "Undefined local variable"
            (Some "y")] ++
         [typescript.mkDiagnostic typescript.Error 1%nat
            "Unsupported unary prefix operator" (Some "PlusPlusToken")])
        (set_reflectedTypes (<[2%nat := reflection.intType]> ∅)
           (set_diagnostics
              [typescript.mkDiagnostic typescript.Error 2%nat "Undefined local variable"
                 (Some "y")]
              (compilerIn intParameter)))).
Proof.
  apply (compilePrefixUnary_increment_rejected
           (@compileExpression fixtureHost (typescript.Identifier 2 "y")) 1
           typescript.PlusPlusToken (typescript.Identifier 2 "y") reflection.intType
           (compilerIn intParameter)
           (set_reflectedTypes (<[2%nat := reflection.intType]> ∅)
              (set_diagnostics
                 [typescript.mkDiagnostic typescript.Error 2%nat
                    "Undefined local variable" (Some "y")]
                 (compilerIn intParameter)))
           binaryen.Unreachable).
  - now left.
  - reflexivity.
  - intros id' text [= _ <-]. exists js.absent. split; reflexivity.
Defined.

Lemma conversionExpression_to_int (expr : binaryen.Expression) (t : reflection.type) :
  reflection.isInt t = true ->
  conversionExpression expr reflection.intType t = expr.
Proof.
  intros Hint.
  assert (Hkind : reflection.kind t = TypeKind.int \/ reflection.kind t = TypeKind.uint \/
                  (reflection.kind t = TypeKind.uintptr /\ reflection.size t = 4)).
  { unfold reflection.isInt in Hint.
    destruct (reflection.kind t); try discriminate; auto.
    apply Z.eqb_eq in Hint. auto. }
  assert (Hlong : reflection.isLong t = false).
  { unfold reflection.isLong.
    destruct Hkind as [E|[E|[E Es]]]; rewrite E; try reflexivity. now rewrite Es. }
  assert (Hfloat : reflection.type_eqb t reflection.floatType = false).
  { apply type_eqb_kind. destruct Hkind as [E|[E|[E _]]]; rewrite E; discriminate. }
  assert (Hdouble : reflection.type_eqb t reflection.doubleType = false).
  { apply type_eqb_kind. destruct Hkind as [E|[E|[E _]]]; rewrite E; discriminate. }
  unfold conversionExpression.
  destruct (TypeKind.eqb _ _); [reflexivity|].
  change (reflection.type_eqb reflection.intType reflection.floatType) with false.
  change (reflection.type_eqb reflection.intType reflection.doubleType) with false.
  cbv iota. unfold integerConversionExpression.
  rewrite Hfloat, Hdouble, Hlong, andb_false_r.
  change (reflection.isLong reflection.intType) with false. cbn [andb].
  unfold intToOtherIntExpression. now rewrite Hint, orb_true_r.
Qed.

(** X26: the negation of a 32-bit integer.  For an operand annotated with
    int, uint or the pointer type of a 32-bit target, [-operand] lowers to
    [i32.sub(i32.const 0, operand)] on the lowered operand, reports
    nothing, and annotates the node with the type of the operand. *)
Theorem compilePrefixUnary_minus_int
  (compileOperand : reflection.type -> M binaryen.Expression) (id : nat)
  (operandNode : typescript.Expression) (contextualType operandType : reflection.type)
  (c c1 : Compiler) (operand : binaryen.Expression) :
  compileOperand contextualType c = Ok operand c1 ->
  reflectedTypes c1 !! typescript.nodeId operandNode = Some operandType ->
  reflection.isInt operandType = true ->
  exists c',
    compilePrefixUnary compileOperand id typescript.MinusToken operandNode
      contextualType c
    = Ok (op.i32.sub (op.i32.const 0) operand) c' /\
    diagnostics c' = diagnostics c1 /\
    reflectedTypes c' !! id = Some operandType.
Proof.
  intros Eoperand Etype Hint.
  assert (Hfloat : reflection.type_eqb operandType reflection.floatType = false).
  { apply type_eqb_kind. unfold reflection.isInt in Hint. intros E.
    rewrite E in Hint. discriminate. }
  assert (Hdouble : reflection.type_eqb operandType reflection.doubleType = false).
  { apply type_eqb_kind. unfold reflection.isInt in Hint. intros E.
    rewrite E in Hint. discriminate. }
  assert (Hlong : reflection.isLong operandType = false).
  { unfold reflection.isInt in Hint. unfold reflection.isLong.
    destruct (reflection.kind operandType); try discriminate; try reflexivity.
    apply Z.eqb_eq in Hint. now rewrite Hint. }
  set (node := typescript.PrefixUnaryExpression id typescript.MinusToken operandNode).
  set (annotated := set_reflectedTypes (<[id := operandType]> (reflectedTypes c1)) c1).
  destruct (conversion_value 0 node (op.i32.sub (op.i32.const 0) operand)
              reflection.intType operandType true annotated) as (c' & Econv).
  rewrite conversionExpression_to_int in Econv by exact Hint.
  exists c'. split; [|split].
  - unfold compilePrefixUnary.
    unfold bind at 1. rewrite Eoperand.
    unfold bind at 1. unfold peekReflectedType at 1. unfold gets at 1. rewrite Etype.
    cbn [annotate defined]. unfold bind at 1. unfold setReflectedType at 1.
    unfold modify at 1. rewrite bind_ret_l.
    rewrite Hfloat, Hdouble, Hlong. exact Econv.
  - exact (maybeConvertValue_rec_explicit_preserves diagnostics 2 node _ _ _
             (fun _ _ => eq_refl) annotated _ c' Econv).
  - destruct (TypeKind.eqb (reflection.kind reflection.intType)
                (reflection.kind operandType)) eqn:Ekind.
    + apply TypeKind_eqb_eq in Ekind.
      assert (Esame : maybeConvertValue node (op.i32.sub (op.i32.const 0) operand)
                        reflection.intType operandType true annotated
                      = Ok (op.i32.sub (op.i32.const 0) operand) annotated).
      { unfold maybeConvertValue. cbn [maybeConvertValue_rec].
        apply TypeKind_eqb_eq in Ekind. now rewrite Ekind. }
      unfold maybeConvertValue in Esame. rewrite Esame in Econv.
      injection Econv as <-. apply lookup_insert_eq.
    + apply TypeKind_eqb_neq in Ekind.
      exact (maybeConvertValue_annotates node _ _ _ _ true annotated c' Ekind Econv).
Qed.

Lemma compilePrefixUnary_minus_int_witness :
  exists c',
    compilePrefixUnary (@compileExpression fixtureHost (typescript.Identifier 2 "x")) 1
      typescript.MinusToken (typescript.Identifier 2 "x") reflection.intType
      (compilerIn intParameter)
    = Ok (op.i32.sub (op.i32.const 0) (binaryen.GetLocal 0 binaryen.i32)) c' /\
    diagnostics c' = [] /\
    reflectedTypes c' !! 1%nat = Some reflection.intType.
Proof.
  apply (compilePrefixUnary_minus_int
           (@compileExpression fixtureHost (typescript.Identifier 2 "x")) 1
           (typescript.Identifier 2 "x") reflection.intType reflection.intType
           (compilerIn intParameter)
           (set_reflectedTypes (<[2%nat := reflection.intType]> ∅)
              (compilerIn intParameter))
           (binaryen.GetLocal 0 binaryen.i32)); reflexivity.
Defined.

(** ** Globals without a type, and the state of a function *)

(** X27: declarations without a type annotation declare nothing.  For a
    variable statement none of whose declarations has both a type and a
    symbol, [initializeGlobal] reports one error for each declaration and
    leaves the reflection table, the module and the queue of initializers
    as they are. *)
Theorem initializeGlobal_untyped `{Host} (sourceFile : typescript.SourceFile)
  (isConst : bool) (declarations : list typescript.VariableDeclaration) (c : Compiler) :
  (forall d, In d declarations ->
             typescript.declType d = None \/ typescript.symbol d = None) ->
  exists c',
    initializeGlobal sourceFile isConst declarations c = Ok tt c' /\
    errorCount c' = (errorCount c + length declarations)%nat /\
    globals c' = globals c /\ module c' = module c /\
    globalInitializers c' = globalInitializers c.
Proof.
  unfold initializeGlobal. revert c.
  induction declarations as [|d declarations IH]; intros c Huntyped.
  - exists c. cbn. repeat split; lia.
  - cbn [forEach]. unfold bind at 1.
    assert (Estep :
      match typescript.declType d, typescript.symbol d with
      | Some typeNode, Some symbolName =>
        name <- mangleGlobalName symbolName sourceFile ;;
        type <- resolveType typeNode false ;;
        createGlobal name type (negb isConst) (typescript.initializer d)
      | _, _ => error (typescript.declId d) "Type expected" None
      end c
      = Ok tt (set_diagnostics
                 (diagnostics c ++
                  [typescript.mkDiagnostic typescript.Error (typescript.declId d)
                     "Type expected" None]) c)).
    { destruct (Huntyped d (or_introl eq_refl)) as [-> | E].
      - reflexivity.
      - rewrite E. now destruct (typescript.declType d). }
    rewrite Estep.
    match goal with
    | |- context [forEach _ declarations ?s] =>
      destruct (IH s) as (c' & -> & He & Hg & Hm & Hq)
    end.
    { intros d' Hin. apply Huntyped. now right. }
    exists c'. rewrite errorCount_error in He. cbn in Hg, Hm, Hq. cbn [length].
    repeat split; auto. lia.
Qed.

Lemma initializeGlobal_untyped_witness :
  exists c',
    @initializeGlobal fixtureHost entryUnit false
      [typescript.mkVariableDeclaration 1 (Some "a") None None;
       typescript.mkVariableDeclaration 2 None
         (Some (typescript.TypeReference 3 "int" (Some "int") None)) None]
      blankCompiler = Ok tt c' /\
    errorCount c' = (errorCount blankCompiler + 2)%nat /\
    globals c' = globals blankCompiler /\ module c' = module blankCompiler /\
    globalInitializers c' = globalInitializers blankCompiler.
Proof.
  apply (@initializeGlobal_untyped fixtureHost entryUnit false
           [typescript.mkVariableDeclaration 1 (Some "a") None None;
            typescript.mkVariableDeclaration 2 None
              (Some (typescript.TypeReference 3 "int" (Some "int") None)) None]
           blankCompiler).
  intros d [<- | [<- | []]]; [now left | now right].
Defined.

(** X28: the state of one function does not leak into the next.  The
    locals, the break context, the next slot and the added locals that a
    compiler is left with do not bear on how [compileFunctionOrMethod]
    compiles a function: it resets them on entry. *)
Theorem compileFunctionOrMethod_resets `{Host} (func : ReflectedFunction)
  (body : option (list typescript.Statement))
  (locals : js.Dictionary) (number depth slot : Z)
  (added : list binaryen.Type_) (c : Compiler) :
  compileFunctionOrMethod func body
    (set_currentLocals locals
       (set_currentBreakContextNumber number
          (set_currentBreakContextDepth depth
             (set_localIndex slot (set_additionalLocals added c)))))
  = compileFunctionOrMethod func body c.
Proof.
  unfold compileFunctionOrMethod. destruct body as [statements|]; [|reflexivity].
  unfold bind at 1. unfold bind at 3.
  unfold enterFunction.
  do 5 (unfold bind at 1; unfold modify at 1; unfold bind at 2; unfold modify at 2).
  reflexivity.
Qed.
